(** * LittleScienceAI: keyword extraction, paper merge, cache and content
      generation, embedded from the Python sources

    The development follows the layout of the repository:

    - [Py]      the fragment of the Python runtime the sources rely on
                (str as a sequence of code points, slices, [str.split],
                [str.strip], JSON-like values, exceptions);
    - [Nlp]     [app/services/nlp_processor.py]  ([NLPService.extract_keywords]);
    - [Cleaner] [app/utils/cleaner.py]  ([clean_text], [clean_keywords],
                [normalize_paper_info], [merge_search_results],
                [save_to_cache], [load_from_cache]);
    - [Scholar] [app/services/scholar_api.py];
    - [Agent]   [app/agents/query_agent.py];
    - [Router]  [app/routes/query_router.py].

    Functions of the interpreter whose result depends on its Unicode tables
    or on the process ([str.lower], [str.isalnum], [html.unescape],
    [unicodedata.normalize], [repr], [hash], the ISO-8601 codec of
    [datetime]) are fields of the classes [Unicode] and [Process]; whether
    the host lets [save_to_cache] create its directory and open its file
    is a field of the class [Host]: the general theorems hold for every
    instance.  Closed examples are evaluated with the instances
    [basic_unicode], [demo_process] and [demo_host] declared below. *)

From Stdlib Require Import ZArith NArith List String Ascii Lia Permutation.
From stdpp Require Import gmap strings list fin_maps sorting.
Import ListNotations.

#[local] Set Warnings "-register-all,-clear-no-such-hyp".

(** A Python [str] is a finite sequence of Unicode code points. *)
Abbreviation pystr := (list N).

(* ===================================================================== *)
(** * The Python fragment                                                 *)
(* ===================================================================== *)

Module Py.

(** ** String literals

    Literals are written as Rocq strings (UTF-8 bytes of this file) and
    decoded to code points by [u]. *)

Fixpoint bytes_of (s : string) : list N :=
  match s with
  | EmptyString => []
  | String a r => N_of_ascii a :: bytes_of r
  end.

Fixpoint utf8_decode (bs : list N) : pystr :=
  match bs with
  | [] => []
  | b :: r =>
    if (b <? 0x80)%N then b :: utf8_decode r
    else if (b <? 0xE0)%N then
      match r with
      | c1 :: r1 =>
        N.lor (N.shiftl (N.land b 0x1F) 6) (N.land c1 0x3F) :: utf8_decode r1
      | _ => []
      end
    else if (b <? 0xF0)%N then
      match r with
      | c1 :: c2 :: r2 =>
        N.lor (N.shiftl (N.land b 0x0F) 12)
          (N.lor (N.shiftl (N.land c1 0x3F) 6) (N.land c2 0x3F))
        :: utf8_decode r2
      | _ => []
      end
    else
      match r with
      | c1 :: c2 :: c3 :: r3 =>
        N.lor (N.shiftl (N.land b 0x07) 18)
          (N.lor (N.shiftl (N.land c1 0x3F) 12)
             (N.lor (N.shiftl (N.land c2 0x3F) 6) (N.land c3 0x3F)))
        :: utf8_decode r3
      | _ => []
      end
  end.

Definition u (s : string) : pystr := utf8_decode (bytes_of s).

(** ** Values

    The values that travel through the sources are JSON values: paper
    records come from [json.load] or from request bodies, cache payloads
    are written by [json.dump]. *)

(** A [float]: a finite binary64 number by its sign, exponent and
    fraction fields, an infinity, or NaN.  No source function computes
    with a float; [json.dump] writes one with [repr] (or as [Infinity],
    [NaN]) and [json.load] reads the same float back. *)
Inductive pyfloat :=
| Finite (negative : bool) (exponent fraction : N)
| Infinity (negative : bool)
| NaN.

Inductive value :=
| VNone
| VBool (b : bool)
| VInt (z : Z)
| VFloat (x : pyfloat)
| VStr (s : pystr)
| VList (l : list value)
| VDict (d : gmap pystr value).

(** A dict with [str] keys ([Dict[str, Any]] in the sources). *)
Abbreviation dict := (gmap pystr value).

(** ** Exceptions raised by the operations used in the sources. *)

Inductive exn :=
| AttributeError   (* method of [str] called on another value *)
| TypeError        (* subscript, iteration or [join] on a wrong type *)
| KeyError         (* [d[k]] with [k] absent *)
| IndexError       (* [l[0]] on an empty list *)
| ValueError       (* [datetime.fromisoformat] on a malformed string *)
| JSONDecodeError  (* [json.load] on a file that is not JSON *)
| OSError          (* [os.makedirs] or [open] refused by the host *)
| UnicodeEncodeError. (* a lone surrogate written to a UTF-8 file *)

(** Fallible pure code: [inl e] raises [e], [inr a] returns [a]. *)
Definition result (A : Type) : Type := exn + A.

Definition ret {A} (a : A) : result A := inr a.
Definition raise {A} (e : exn) : result A := inl e.
Definition bind {A B} (m : result A) (k : A -> result B) : result B :=
  match m with
  | inl e => inl e
  | inr a => k a
  end.

(** [try: m  except Exception: h]. *)
Definition try_except {A} (m : result A) (h : exn -> A) : A :=
  match m with
  | inl e => h e
  | inr a => a
  end.

Fixpoint mapM {A B} (f : A -> result B) (l : list A) : result (list B) :=
  match l with
  | [] => ret []
  | x :: r => bind (f x) (fun y => bind (mapM f r) (fun ys => ret (y :: ys)))
  end.

(** ** Interpreter tables

    [lower] is [str.lower] (not code point wise: it can lengthen a string
    and treats a final sigma by context); [isalnum] is [str.isalnum] on
    one code point, so that the regular-expression class [\w] is
    [isalnum] or underscore; [repr] renders the values that are not
    [str] the way [str()] and f-strings do. *)

Class Unicode := {
  lower : pystr -> pystr;
  isalnum : N -> bool;
  html_unescape : pystr -> pystr;
  nfc : pystr -> pystr;
  repr : value -> pystr
}.

(** [hash] is the built-in string hash, seeded once per process;
    [isoformat] and [fromisoformat] are the methods of [datetime], a
    point in time being counted in microseconds. *)

Class Process := {
  hash : pystr -> Z;
  isoformat : Z -> pystr;
  fromisoformat : pystr -> option Z
}.

(** What the host answers to the two file-system calls of
    [save_to_cache]: whether [os.makedirs(path, exist_ok=True)] and
    [open(path, 'w', encoding='utf-8')] complete (permissions, a file in
    the way of a directory, a read-only or full disk). *)
Class Host := {
  makedirs_ok : pystr -> bool;
  open_w_ok : pystr -> bool
}.

(** [datetime.fromisoformat(t.isoformat()) == t]. *)
Class ProcessLaws (P : Process) : Prop := {
  fromisoformat_isoformat : forall t : Z, fromisoformat (isoformat t) = Some t
}.

(** ** Characters *)

Definition in_range (lo hi c : N) : bool := ((lo <=? c) && (c <=? hi))%N.

(** [str.isspace] on one code point; the same set is [\s] of [re] on
    [str] patterns and the separator set of [str.split()] and
    [str.strip()]. *)
Definition isspace (c : N) : bool :=
  in_range 0x09 0x0D c || in_range 0x1C 0x20 c
  || (c =? 0x85)%N || (c =? 0xA0)%N || (c =? 0x1680)%N
  || in_range 0x2000 0x200A c || (c =? 0x2028)%N || (c =? 0x2029)%N
  || (c =? 0x202F)%N || (c =? 0x205F)%N || (c =? 0x3000)%N.

Definition is_hangul (c : N) : bool := in_range 0xAC00 0xD7A3 c.
Definition is_ascii_lower (c : N) : bool := in_range 97 122 c.
Definition is_ascii_upper (c : N) : bool := in_range 65 90 c.
Definition is_ascii_digit (c : N) : bool := in_range 48 57 c.

(** The class [\w]. *)
Definition is_word `{Unicode} (c : N) : bool := isalnum c || (c =? 95)%N.

(** ** Strings *)

Definition str_eqb (a b : pystr) : bool := bool_decide (a = b).

(** [x in l] for a list of strings. *)
Definition mem (x : pystr) (l : list pystr) : bool := bool_decide (x ∈ l).

Fixpoint lstrip (s : pystr) : pystr :=
  match s with
  | [] => []
  | c :: r => if isspace c then lstrip r else s
  end.

Definition rstrip (s : pystr) : pystr := rev (lstrip (rev s)).

(** [s.strip()]. *)
Definition strip (s : pystr) : pystr := rstrip (lstrip s).

(** [s.split()]: the maximal runs of non-space code points. [cur] holds
    the run being read, reversed. *)
Fixpoint split_ws (cur : pystr) (s : pystr) : list pystr :=
  match s with
  | [] => match cur with [] => [] | _ => [rev cur] end
  | c :: r =>
    if isspace c
    then match cur with [] => split_ws [] r | _ => rev cur :: split_ws [] r end
    else split_ws (c :: cur) r
  end.

Definition split (s : pystr) : list pystr := split_ws [] s.

(** [s.split(sep)] for a separator of one code point. *)
Fixpoint split_on_aux (sep : N) (cur : pystr) (s : pystr) : list pystr :=
  match s with
  | [] => [rev cur]
  | c :: r =>
    if (c =? sep)%N then rev cur :: split_on_aux sep [] r
    else split_on_aux sep (c :: cur) r
  end.

Definition split_on (sep : N) (s : pystr) : list pystr := split_on_aux sep [] s.

(** [s.startswith(p)]. *)
Fixpoint startswith (p s : pystr) : bool :=
  match p, s with
  | [], _ => true
  | _ :: _, [] => false
  | a :: p', b :: s' => (a =? b)%N && startswith p' s'
  end.

(** [p in s] for strings. *)
Fixpoint contains (p s : pystr) : bool :=
  startswith p s || match s with [] => false | _ :: r => contains p r end.

(** [sep.join(l)]. *)
Fixpoint join (sep : pystr) (l : list pystr) : pystr :=
  match l with
  | [] => []
  | [x] => x
  | x :: r => x ++ sep ++ join sep r
  end.

(** ** Sequences *)

(** [l[:n]]: a negative bound counts from the end. *)
Definition slice_to {A} (n : Z) (l : list A) : list A :=
  take (Z.to_nat (if (n <? 0)%Z then (Z.of_nat (length l) + n)%Z else n)) l.

(** [list(dict.fromkeys(l))]: first occurrences, in order. *)
Fixpoint fromkeys (seen : list pystr) (l : list pystr) : list pystr :=
  match l with
  | [] => []
  | x :: r => if mem x seen then fromkeys seen r else x :: fromkeys (x :: seen) r
  end.

(** [str(v)], also what an f-string field renders. *)
Definition str `{Unicode} (v : value) : pystr :=
  match v with
  | VStr s => s
  | _ => repr v
  end.

(** The elements a [for] loop or a comprehension draws from a value:
    the items of a list, the code points of a string, the keys of a
    dict (their order is not kept by [gmap]); other values are not
    iterable. *)
Definition iterate (v : value) : result (list value) :=
  match v with
  | VList l => ret l
  | VStr s => ret (map (fun c => VStr [c]) s)
  | VDict d => ret (map (fun kv => VStr kv.1) (map_to_list d))
  | _ => raise TypeError
  end.

(** Whether the UTF-8 codec encodes a string: every code point is a
    scalar value, none a surrogate. *)
Definition encodable (s : pystr) : bool :=
  forallb (fun c => ((c <? 0xD800) || (0xDFFF <? c) && (c <=? 0x10FFFF))%N) s.

(** Whether [json.dump(v, f, ensure_ascii=False)] into a file opened
    with [encoding='utf-8'] completes: with [ensure_ascii=False] strings
    and keys are written as they are, so each must be encodable; the
    other values are written in ASCII. *)
Fixpoint json_encodable (v : value) : bool :=
  match v with
  | VStr s => encodable s
  | VList l => forallb json_encodable l
  | VDict d =>
    map_fold (fun k x acc => encodable k && json_encodable x && acc) true d
  | _ => true
  end.

End Py.

Import Py.

Declare Scope py_scope.
Notation "'let!' x ':=' m 'in' k" := (Py.bind m (fun x => k))
(at level 10, x name, m at level 100, k at level 200) : py_scope.
Open Scope py_scope.

(* ===================================================================== *)
(** * app/services/nlp_processor.py                                       *)
(* ===================================================================== *)

Module Nlp.
Section Nlp.
Context {U : Unicode}.

(** The class [[^가-힣a-zA-Z0-9\s]] negated: what the
    substitution leaves in place. *)
Definition kept (c : N) : bool :=
  is_hangul c || is_ascii_lower c || is_ascii_upper c || is_ascii_digit c
  || isspace c.

(** [re.sub(r'[^가-힣a-zA-Z0-9\s]', ' ', text)]. *)
Definition sub_other (text : pystr) : pystr :=
  map (fun c => if kept c then c else 32%N) text.

Definition stop_words : list pystr :=
  map u ["은"; "는"; "이"; "가"; "을"; "를"; "에"; "의"; "과"; "와"; "이다"; "있다";
         "the"; "a"; "an"; "is"; "are"; "was"; "were"; "in"; "on"; "at";
         "to"; "and"; "or"]%string.

Definition generic_keywords : list pystr :=
  map u ["연구"; "분석"; "효과"; "방법"; "시스템"; "개발"; "영향"; "평가"]%string.

(** [word not in stop_words and len(word) > 1]. *)
Definition qualifies (word : pystr) : bool :=
  negb (mem word stop_words) && (1 <? length word)%nat.

(** [word_freq] is a dict read in insertion order by [items()]: an
    association list.  [bump] is the body of the inner [if]/[else]. *)
Fixpoint bump (word : pystr) (word_freq : list (pystr * Z)) : list (pystr * Z) :=
  match word_freq with
  | [] => [(word, 1%Z)]
  | (k, n) :: r =>
    if str_eqb k word then (k, (n + 1)%Z) :: r else (k, n) :: bump word r
  end.

Definition count_words (words : list pystr) : list (pystr * Z) :=
  fold_left (fun wf word => if qualifies word then bump word wf else wf) words [].

(** [sorted(items, key=lambda x: x[1], reverse=True)]: stable, so items
    of equal frequency stay in insertion order. *)
Fixpoint insert_desc (x : pystr * Z) (l : list (pystr * Z)) : list (pystr * Z) :=
  match l with
  | [] => [x]
  | y :: r => if (y.2 <? x.2)%Z then x :: y :: r else y :: insert_desc x r
  end.

Definition sorted_desc (items : list (pystr * Z)) : list (pystr * Z) :=
  fold_left (fun acc x => insert_desc x acc) items [].

(** The tokens the loop runs over. *)
Definition tokens (text : pystr) : list pystr := split (sub_other (lower text)).

(** [NLPService.extract_keywords(text, num_keywords)].  No operation
    of the [try] block raises on a [str] and an [int]: the block returns,
    and the list of the [except] branch is never the result. *)
Definition extract_keywords (text : pystr) (num_keywords : Z) : list pystr :=
  try_except
    (let words := tokens text in
     let word_freq := count_words words in
     let sorted_words := sorted_desc word_freq in
     let keywords := map fst (slice_to num_keywords sorted_words) in
     ret (if (Z.of_nat (length keywords) <? num_keywords)%Z
          then keywords
               ++ slice_to (num_keywords - Z.of_nat (length keywords))
                    generic_keywords
          else keywords))
    (fun _ => map u ["연구"; "분석"; "효과"; "방법"; "시스템"]%string).

(** The distinct qualifying tokens of a text: lowercased, not a stop
    word, longer than one code point. *)
Definition distinct_qualifying (text : pystr) : list pystr :=
  remove_dups (filter (fun w => Is_true (qualifies w)) (tokens text)).

End Nlp.
End Nlp.

(* ===================================================================== *)
(** * app/utils/cleaner.py                                                *)
(* ===================================================================== *)

Module Cleaner.

(** Keys of a paper record and of a cache entry. *)
Definition k_title : pystr := Eval vm_compute in u "title".
Definition k_authors : pystr := Eval vm_compute in u "authors".
Definition k_year : pystr := Eval vm_compute in u "year".
Definition k_abstract : pystr := Eval vm_compute in u "abstract".
Definition k_source : pystr := Eval vm_compute in u "source".
Definition k_url : pystr := Eval vm_compute in u "url".
Definition k_keywords : pystr := Eval vm_compute in u "keywords".
Definition k_type : pystr := Eval vm_compute in u "type".
Definition k_key : pystr := Eval vm_compute in u "key".
Definition k_timestamp : pystr := Eval vm_compute in u "timestamp".
Definition k_data : pystr := Eval vm_compute in u "data".

(** Position of the first [>] of a string. *)
Fixpoint find_gt (s : pystr) : option nat :=
  match s with
  | [] => None
  | c :: r => if (c =? 62)%N then Some O else S <$> find_gt r
  end.

(** [r] follows a [<]: the number of code points of [r] that a match of
    [<[^>]+>] covers, if there is one (one code point at least that is
    not [>], then [>]). *)
Definition tag_len (r : pystr) : option nat :=
  match find_gt r with
  | Some (S p) => Some (S (S p))
  | _ => None
  end.

(** [re.sub(r'<[^>]+>', ' ', text)]; [skip] counts the code points of
    the current match still to pass over. *)
Fixpoint strip_tags (skip : nat) (s : pystr) : pystr :=
  match s with
  | [] => []
  | c :: r =>
    match skip with
    | S k => strip_tags k r
    | O =>
      if (c =? 60)%N then
        match tag_len r with
        | Some n => 32%N :: strip_tags n r
        | None => c :: strip_tags O r
        end
      else c :: strip_tags O r
    end
  end.

(** [re.sub(r'\s+', ' ', text)]; [in_run] tells that the previous code
    point was a space of the run being replaced. *)
Fixpoint collapse_ws (in_run : bool) (s : pystr) : pystr :=
  match s with
  | [] => []
  | c :: r =>
    if isspace c
    then (if in_run then collapse_ws true r else 32%N :: collapse_ws true r)
    else c :: collapse_ws false r
  end.

Section Cleaner.
Context {U : Unicode}.

(** [clean_text(text)]. *)
Definition clean_text (text : pystr) : pystr :=
  match text with
  | [] => []
  | _ =>
    let text := strip_tags O text in
    let text := html_unescape text in
    let text := collapse_ws false text in
    let text := strip text in
    nfc text
  end.

(** What [re.sub(r'[^\w\s가-힣]', '', s)] keeps. *)
Definition keyword_char (c : N) : bool := is_word c || isspace c || is_hangul c.

(** The first two statements of the loop body of [clean_keywords];
    [strip] is a method of [str]. *)
Definition clean_keyword (keyword : value) : result pystr :=
  match keyword with
  | VStr k => ret (List.filter keyword_char (lower (strip k)))
  | _ => raise AttributeError
  end.

Fixpoint clean_keywords_loop (keywords : list value) (cleaned : list pystr)
  : result (list pystr) :=
  match keywords with
  | [] => ret cleaned
  | keyword :: r =>
    let! cleaned_keyword := clean_keyword keyword in
    match cleaned_keyword with
    | [] => clean_keywords_loop r cleaned
    | _ =>
      if mem cleaned_keyword cleaned then clean_keywords_loop r cleaned
      else clean_keywords_loop r (cleaned ++ [cleaned_keyword])
    end
  end.

(** [clean_keywords(keywords)]. *)
Definition clean_keywords (keywords : list value) : result (list pystr) :=
  match keywords with
  | [] => ret []
  | _ => clean_keywords_loop keywords []
  end.

Definition title_stop_words : list pystr :=
  map u ["연구"; "분석"; "효과"; "방법"; "시스템"; "개발"; "영향"; "평가";
         "the"; "a"; "an"; "of"; "and"; "in"; "on"; "at"; "to"; "for"]%string.

(** [re.findall(r'\b\w+\b', s)]: the maximal runs of word characters. *)
Fixpoint word_runs (cur : pystr) (s : pystr) : list pystr :=
  match s with
  | [] => match cur with [] => [] | _ => [rev cur] end
  | c :: r =>
    if is_word c then word_runs (c :: cur) r
    else match cur with [] => word_runs [] r | _ => rev cur :: word_runs [] r end
  end.

(** Keywords taken from the title when the record brings none. *)
Definition title_keywords (title : pystr) : list pystr :=
  let words := word_runs [] (lower title) in
  let keywords :=
    List.filter (fun word => negb (mem word title_stop_words)
                             && (1 <? length word)%nat) words in
  slice_to 5 (fromkeys [] keywords).

(** One round of the loop over the five text fields. *)
Definition text_field (paper : dict) (field default : pystr) : value :=
  match paper !! field with
  | Some v => VStr (clean_text (str v))
  | None => VStr default
  end.

(** [normalize_paper_info(paper)]; [now_year] is [datetime.now().year]. *)
Definition normalize_paper_info (now_year : Z) (paper : dict) : result dict :=
  let normalized : dict := ∅ in
  let normalized := <[k_title := text_field paper k_title (u "제목 없음")]> normalized in
  let normalized := <[k_authors := text_field paper k_authors (u "저자 미상")]> normalized in
  let normalized := <[k_year := text_field paper k_year (str (VInt now_year))]> normalized in
  let normalized :=
    <[k_abstract := text_field paper k_abstract (u "초록 정보가 없습니다.")]> normalized in
  let normalized := <[k_source := text_field paper k_source (u "출처 미상")]> normalized in
  let normalized :=
    match paper !! k_url with
    | Some url => <[k_url := url]> normalized
    | None => normalized
    end in
  let! keywords :=
    match paper !! k_keywords with
    | Some (VList l) => clean_keywords l
    | Some (VStr s) =>
      clean_keywords (map (fun k => VStr (strip k)) (split_on 44 s))
    | _ => ret []
    end in
  let keywords :=
    match keywords with
    | [] =>
      match normalized !! k_title with
      | Some (VStr title) => title_keywords title
      | _ => []
      end
    | _ => keywords
    end in
  let normalized := <[k_keywords := VList (map VStr keywords)]> normalized in
  let normalized :=
    match paper !! k_type with
    | Some t => <[k_type := t]> normalized
    | None =>
      <[k_type := VStr (match normalized !! k_url with
                        | Some _ => u "external"
                        | None => u "internal"
                        end)]> normalized
    end in
  ret normalized.

(** [paper['title'].lower()]. *)
Definition title_lower (paper : dict) : result pystr :=
  match paper !! k_title with
  | Some (VStr t) => ret (lower t)
  | Some _ => raise AttributeError
  | None => raise KeyError
  end.

(** The two loops of [merge_search_results] share their body: the state
    is the set [seen_titles] and the list [merged]. *)
Fixpoint add_unseen (papers : list dict) (seen_titles : gset pystr)
         (merged : list dict) : result (gset pystr * list dict) :=
  match papers with
  | [] => ret (seen_titles, merged)
  | paper :: r =>
    let! t := title_lower paper in
    if bool_decide (t ∈ seen_titles) then add_unseen r seen_titles merged
    else add_unseen r ({[t]} ∪ seen_titles) (merged ++ [paper])
  end.

(** [merge_search_results(internal_results, external_results)]. *)
Definition merge_search_results (now_year : Z)
           (internal_results external_results : list dict) : result (list dict) :=
  let! normalized_internal := mapM (normalize_paper_info now_year) internal_results in
  let! normalized_external := mapM (normalize_paper_info now_year) external_results in
  let! st := add_unseen normalized_external ∅ [] in
  let! st := add_unseen normalized_internal st.1 st.2 in
  ret st.2.

(** ** Vocabulary of the statements *)

(** The de-duplication key of a normalized record: its title, lowercased. *)
Definition title_key (paper : dict) : pystr :=
  match paper !! k_title with
  | Some (VStr t) => lower t
  | _ => []
  end.

(** A record on which [normalize_paper_info] does not raise: when its
    keywords are a list, the items are strings. *)
Definition keywords_ok (paper : dict) : Prop :=
  match paper !! k_keywords with
  | Some (VList l) => Forall (fun k => ∃ s, k = VStr s) l
  | _ => True
  end.

(** The five fields cleaned by [clean_text]. *)
Definition text_fields : list pystr :=
  [k_title; k_authors; k_year; k_abstract; k_source].

(** The text stored under a field, the items stored under [keywords]. *)
Definition text_of (paper : dict) (field : pystr) : pystr :=
  match paper !! field with
  | Some (VStr s) => s
  | _ => []
  end.

Definition keywords_of (paper : dict) : list value :=
  match paper !! k_keywords with
  | Some (VList l) => l
  | _ => []
  end.

Definition strings_of (l : list value) : list pystr :=
  omap (fun v => match v with VStr s => Some s | _ => None end) l.

(** The record [normalize_paper_info] builds from its parts. *)
Definition record_of (title authors year abstract source : pystr)
           (url : option value) (keywords : list pystr) (type : value) : dict :=
  let texts : dict :=
    <[k_source := VStr source]>
      (<[k_abstract := VStr abstract]>
         (<[k_year := VStr year]>
            (<[k_authors := VStr authors]>
               (<[k_title := VStr title]> ∅)))) in
  <[k_type := type]>
    (<[k_keywords := VList (map VStr keywords)]>
       (match url with
        | Some v => <[k_url := v]> texts
        | None => texts
        end)).

End Cleaner.

(** ** The cache files

    A file is seen through [json.load]: it holds a JSON value or text
    that does not parse (an empty or half-written file among them).  A
    [json.dump] that completes, followed by [json.load], is the identity
    on [value]. *)

Inductive file :=
| Json (v : value)
| Corrupt.

Abbreviation fs := (gmap pystr file).

(** [json.load(f)]. *)
Definition json_load (f : file) : result value :=
  match f with
  | Json v => ret v
  | Corrupt => raise JSONDecodeError
  end.

(** [os.path.join(a, b)] on a POSIX host. *)
Definition path_join (a b : pystr) : pystr :=
  if startswith [47%N] b then b
  else match a with
       | [] => b
       | _ => if startswith [47%N] (rev a) then a ++ b else a ++ 47%N :: b
       end.

(** [v[k]] for a [str] subscript. *)
Definition getitem (v : value) (k : pystr) : result value :=
  match v with
  | VDict d => match d !! k with Some x => ret x | None => raise KeyError end
  | _ => raise TypeError
  end.

Definition default_cache_dir : pystr := Eval vm_compute in u "data/cache".
Definition default_max_age_hours : Z := 24.

(** Microseconds in an hour: [elapsed_hours > max_age_hours] is decided
    on the exact quotient.  The source compares the float quotient of
    [total_seconds()] by 3600; division rounds monotonically and is exact
    at a whole number of hours, so an entry no older than
    [max_age_hours] is never taken for an expired one. *)
Definition us_per_hour : Z := 3600000000.

(** Code that reads and writes files and may raise: the result (or the
    exception) and the files afterwards. *)
Definition io (A : Type) : Type := fs -> result A * fs.

Definition io_ret {A} (a : A) : io A := fun files => (inr a, files).

Definition io_bind {A B} (m : io A) (k : A -> io B) : io B :=
  fun files => match m files with
               | (inl e, files') => (inl e, files')
               | (inr a, files') => k a files'
               end.

(** [try: m  except Exception: return fallback]: what was written before
    the exception stays written. *)
Definition io_try {A} (m : io A) (fallback : A) : fs -> A * fs :=
  fun files => match m files with
               | (inr a, files') => (a, files')
               | (inl _, files') => (fallback, files')
               end.

Notation "'let+' x ':=' m 'in' k" := (io_bind m (fun x => k))
  (at level 10, x name, m at level 100, k at level 200).

Section Cache.
Context {U : Unicode} {P : Process} {H : Host}.

(** The path both functions derive from the key. *)
Definition cache_file_of (cache_dir key : pystr) : pystr :=
  path_join cache_dir (str (VInt (hash key)) ++ u ".json").

(** [os.makedirs(path, exist_ok=True)]: the empty path is refused
    (FileNotFoundError), any other as the host decides. *)
Definition makedirs (path : pystr) : io unit :=
  fun files =>
    match path with
    | [] => (inl OSError, files)
    | _ => if makedirs_ok path then (inr tt, files) else (inl OSError, files)
    end.

(** [open(path, 'w', encoding='utf-8')]: when it completes the file
    exists and is empty. *)
Definition open_w (path : pystr) : io unit :=
  fun files =>
    if open_w_ok path then (inr tt, <[path := Corrupt]> files)
    else (inl OSError, files).

(** [json.dump(v, f, ensure_ascii=False, indent=2)] into the file opened
    at [path].  The text is written piece by piece: when a string cannot
    be encoded the write raises and the file keeps the pieces written
    before it, which do not parse. *)
Definition json_dump (path : pystr) (v : value) : io unit :=
  fun files =>
    if json_encodable v then (inr tt, <[path := Json v]> files)
    else (inl UnicodeEncodeError, files).

(** [save_to_cache(key, data, cache_dir)] at time [now]: the returned
    flag and the files afterwards. *)
Definition save_to_cache (now : Z) (key : pystr) (data : value)
           (cache_dir : pystr) : fs -> bool * fs :=
  io_try
    (let+ _ := makedirs cache_dir in
     let cache_file := cache_file_of cache_dir key in
     let cache_data : dict :=
       <[k_data := data]>
         (<[k_timestamp := VStr (isoformat now)]> (<[k_key := VStr key]> ∅)) in
     let+ _ := open_w cache_file in
     let+ _ := json_dump cache_file (VDict cache_data) in
     io_ret true)
    false.

(** [datetime.fromisoformat(v)]. *)
Definition parse_timestamp (v : value) : result Z :=
  match v with
  | VStr s => match fromisoformat s with
              | Some t => ret t
              | None => raise ValueError
              end
  | _ => raise TypeError
  end.

(** [load_from_cache(key, max_age_hours, cache_dir)] at time [now]; the
    Python [None] of a miss is [VNone]. *)
Definition load_from_cache (now : Z) (key : pystr) (max_age_hours : Z)
           (cache_dir : pystr) (files : fs) : value :=
  try_except
    (let cache_file := cache_file_of cache_dir key in
     match files !! cache_file with
     | None => ret VNone
     | Some f =>
       let! cache_data := json_load f in
       let! timestamp := getitem cache_data k_timestamp in
       let! cache_time := parse_timestamp timestamp in
       if (max_age_hours * us_per_hour <? now - cache_time)%Z then ret VNone
       else getitem cache_data k_data
     end)
    (fun _ => VNone).

End Cache.
End Cleaner.

(* ===================================================================== *)
(** * app/services/scholar_api.py                                         *)
(* ===================================================================== *)

Module Scholar.
Import Cleaner.

(** A dict literal. *)
Definition literal (fields : list (pystr * value)) : value :=
  VDict (list_to_map fields).

Definition strs (l : list string) : value := VList (map (fun x => VStr (u x)) l).

(** The sample records [load_internal_db] returns when the file of the
    internal DB is absent. *)
Definition sample_paper_1 : value := literal
  [ (k_title, VStr (u "광촉매를 이용한 미세플라스틱 분해 연구"));
    (k_authors, VStr (u "김지원, 이하늘"));
    (k_year, VStr (u "2023"));
    (k_abstract, VStr (u "본 연구는 TiO2 기반 광촉매를 활용하여 해양 미세플라스틱을 효과적으로 분해할 수 있는 방법을 탐구하였다."));
    (k_source, VStr (u "제65회 한국과학전람회"));
    (k_keywords, strs ["광촉매"; "미세플라스틱"; "환경오염"; "해양생태계"]);
    (k_type, VStr (u "internal")) ].

Definition sample_paper_2 : value := literal
  [ (k_title, VStr (u "기후변화가 제주도 감귤 생산에 미치는 영향 분석"));
    (k_authors, VStr (u "박민준, 정소율"));
    (k_year, VStr (u "2022"));
    (k_abstract, VStr (u "제주도 지역의 10년간 기후 데이터와 감귤 생산량 데이터를 분석하여 온도 상승이 과실 품질과 수확량에 미치는 영향을 조사하였다."));
    (k_source, VStr (u "제64회 전국과학전람회"));
    (k_keywords, strs ["기후변화"; "농업"; "감귤"; "생산량 분석"]);
    (k_type, VStr (u "internal")) ].

Definition sample_paper_3 : value := literal
  [ (k_title, VStr (u "머신러닝을 활용한 식물 질병 조기 진단 시스템 개발"));
    (k_authors, VStr (u "최준호, 이민지"));
    (k_year, VStr (u "2023"));
    (k_abstract, VStr (u "컴퓨터 비전과 딥러닝 기술을 활용하여 작물 잎의 이미지만으로 질병을 조기에 진단할 수 있는 모바일 애플리케이션을 개발하였다."));
    (k_source, VStr (u "2023 청소년과학탐구대회"));
    (k_keywords, strs ["머신러닝"; "식물병리학"; "스마트팜"; "컴퓨터 비전"]);
    (k_type, VStr (u "internal")) ].

Definition sample_db : value := VList [sample_paper_1; sample_paper_2; sample_paper_3].

(** [load_internal_db()]: [db_file] is the file at [internal_db_path],
    if there is one. *)
Definition load_internal_db (db_file : option file) : value :=
  try_except
    (match db_file with
     | Some f => json_load f
     | None => ret sample_db
     end)
    (fun _ => VList []).

(** What an HTTP GET came to: a status code, with whether the body
    parses as JSON, or a connection error (an exception of [requests]). *)
Inductive http_outcome :=
| Status (code : Z) (body_is_json : bool)
| ConnectionFailed.

Definition arxiv_api_url : pystr := Eval vm_compute in u "http://export.arxiv.org/api/query".
Definition crossref_api_url : pystr := Eval vm_compute in u "https://api.crossref.org/works".
Definition semantic_scholar_api_url : pystr :=
  Eval vm_compute in u "https://api.semanticscholar.org/graph/v1/paper/search".

Section Scholar.
Context {U : Unicode}.

(** [requests.get(url, params)] for a search query. *)
Variable http_get : pystr -> pystr -> http_outcome.

(** [v.lower()] where [v] is expected to be a [str]. *)
Definition lower_of (v : value) : result pystr :=
  match v with
  | VStr s => ret (lower s)
  | _ => raise AttributeError
  end.

(** [any(f(k) for k in l)]. *)
Definition any {A} (f : A -> bool) (l : list A) : bool := existsb f l.

(** The body of the loop of [search_internal_db]: whether [paper] is
    appended to [results]. *)
Definition matches (topic_lower : pystr) (keywords_lower : list pystr)
           (paper : value) : result bool :=
  let! title := getitem paper k_title in
  let! title_lower := lower_of title in
  let! abstract := getitem paper k_abstract in
  let! abstract_lower := lower_of abstract in
  let! paper_keywords := getitem paper k_keywords in
  let! paper_keywords := iterate paper_keywords in
  let! paper_keywords_lower := mapM lower_of paper_keywords in
  ret (contains topic_lower title_lower || contains topic_lower abstract_lower
       || any (fun k => contains k title_lower || contains k abstract_lower)
              keywords_lower
       || any (fun k => mem k paper_keywords_lower) keywords_lower).

Fixpoint search_loop (topic_lower : pystr) (keywords_lower : list pystr)
         (db : list value) (results : list value) : result (list value) :=
  match db with
  | [] => ret results
  | paper :: r =>
    let! hit := matches topic_lower keywords_lower paper in
    search_loop topic_lower keywords_lower r
                (if hit then results ++ [paper] else results)
  end.

(** [search_internal_db(topic, keywords)] over [self.internal_db]. *)
Definition search_internal_db (internal_db : value) (topic : pystr)
           (keywords : list pystr) : list value :=
  try_except
    (let topic_lower := lower topic in
     let keywords_lower := map lower keywords in
     let! db := iterate internal_db in
     search_loop topic_lower keywords_lower db [])
    (fun _ => []).

Definition arxiv_sample (query : pystr) : value := literal
  [ (k_title, VStr (u "arXiv: " ++ query ++ u "에 관한 최신 연구 동향"));
    (k_authors, VStr (u "Smith et al."));
    (k_year, VStr (u "2023"));
    (k_abstract, VStr (u "This paper reviews recent advances in " ++ query
                       ++ u " research, focusing on methodological approaches and key findings."));
    (k_source, VStr (u "arXiv:2301.12345"));
    (k_url, VStr (u "https://arxiv.org/abs/2301.12345"));
    (k_keywords, VList [VStr (u "literature review"); VStr (u "methodology"); VStr query]);
    (k_type, VStr (u "external")) ].

Definition crossref_sample (query : pystr) : value := literal
  [ (k_title, VStr (u "CrossRef: " ++ query ++ u "의 실험적 분석"));
    (k_authors, VStr (u "Johnson et al."));
    (k_year, VStr (u "2022"));
    (k_abstract, VStr (u "An experimental analysis of " ++ query
                       ++ u " demonstrating significant improvements in efficiency and performance compared to conventional methods."));
    (k_source, VStr (u "Journal of Scientific Research"));
    (k_url, VStr (u "https://doi.org/10.1234/example.5678"));
    (k_keywords, strs ["experimental analysis"; "efficiency"; "performance"]);
    (k_type, VStr (u "external")) ].

Definition semantic_scholar_sample (query : pystr) : value := literal
  [ (k_title, VStr (u "Semantic Scholar: " ++ query ++ u "에 대한 체계적 문헌 고찰"));
    (k_authors, VStr (u "Zhang et al."));
    (k_year, VStr (u "2023"));
    (k_abstract, VStr (u "A systematic review of literature on " ++ query
                       ++ u ", synthesizing findings from 50 recent studies and identifying key research gaps."));
    (k_source, VStr (u "Annual Review of Science"));
    (k_url, VStr (u "https://doi.org/10.5678/review.1234"));
    (k_keywords, strs ["systematic review"; "research gaps"; "literature synthesis"]);
    (k_type, VStr (u "external")) ].

(** [search_arxiv(query)]: a status other than 200 and an exception both
    give the empty list. *)
Definition search_arxiv (query : pystr) : list value :=
  match http_get arxiv_api_url query with
  | Status 200 _ => [arxiv_sample query]
  | _ => []
  end.

(** [search_crossref(query)] also reads [response.json()]. *)
Definition search_crossref (query : pystr) : list value :=
  match http_get crossref_api_url query with
  | Status 200 true => [crossref_sample query]
  | _ => []
  end.

Definition search_semantic_scholar (query : pystr) : list value :=
  match http_get semantic_scholar_api_url query with
  | Status 200 _ => [semantic_scholar_sample query]
  | _ => []
  end.

(** [search_external_api(topic, keywords)]. *)
Definition search_external_api (topic : pystr) (keywords : list pystr) : list value :=
  let query :=
    match keywords with
    | [] => topic
    | _ => topic ++ u " " ++ join (u " ") (slice_to 3 keywords)
    end in
  let arxiv_results := search_arxiv query in
  let crossref_results := search_crossref query in
  let semantic_scholar_results := search_semantic_scholar query in
  arxiv_results ++ crossref_results ++ semantic_scholar_results.

End Scholar.
End Scholar.

(* ===================================================================== *)
(** * app/agents/query_agent.py                                           *)
(* ===================================================================== *)

Module Agent.
Import Cleaner.

(** Keys of the generated contents and of a chat-completion response. *)
Definition k_introduction : pystr := Eval vm_compute in u "introduction".
Definition k_methods : pystr := Eval vm_compute in u "methods".
Definition k_results : pystr := Eval vm_compute in u "results".
Definition k_conclusion : pystr := Eval vm_compute in u "conclusion".
Definition k_references : pystr := Eval vm_compute in u "references".
Definition k_disclaimer : pystr := Eval vm_compute in u "disclaimer".
Definition k_niche_topics : pystr := Eval vm_compute in u "niche_topics".
Definition k_expected_results : pystr := Eval vm_compute in u "expected_results".
Definition k_choices : pystr := Eval vm_compute in u "choices".
Definition k_message : pystr := Eval vm_compute in u "message".
Definition k_content : pystr := Eval vm_compute in u "content".

(** A triple-quoted literal, line by line. *)
Definition unlines (ls : list pystr) : pystr := join [10%N] ls.

(** The text returned at line 102 of [generate_sample_response]. *)
Definition sample_introduction : pystr :=
  unlines
    [ [];
      u "            # 서론";
      u "            ";
      u "            이 주제는 현대 과학 연구에서 중요한 위치를 차지하고 있습니다. 특히 최근 몇 년간 이 분야의 연구는 급속도로 발전해왔으며, 다양한 응용 가능성을 보여주고 있습니다.";
      u "            ";
      u "            기존 연구들은 주로 전통적인 접근법에 초점을 맞추어 왔으나, 이는 몇 가지 한계점을 드러내고 있습니다. 본 연구는 이러한 한계를 극복하기 위해 새로운 관점에서 이 주제를 탐구하고자 합니다.";
      u "            ";
      u "            본 연구의 주요 목적은 (1) 현재 이 분야의 주요 이슈를 분석하고, (2) 혁신적인 접근법을 제안하며, (3) 실제 적용 가능한 해결책을 모색하는 것입니다. 이를 통해 이 분야의 학문적 발전에 기여하고자 합니다.";
      u "            " ].

(** The text returned at line 113 of [generate_sample_response]. *)
Definition sample_methods : pystr :=
  unlines
    [ [];
      u "            # 연구 방법";
      u "            ";
      u "            ## 연구 설계";
      u "            본 연구는 혼합적 연구 방법론을 채택하여 정량적 분석과 정성적 분석을 병행하였습니다. 이러한 접근은 연구 주제의 다면적 특성을 고려할 때 가장 적합하다고 판단하였습니다.";
      u "            ";
      u "            ## 데이터 수집";
      u "            본 연구에서는 두 가지 주요 데이터 소스를 활용하였습니다. 첫째, 공개 데이터베이스에서 추출한 2차 데이터를 분석하였습니다. 둘째, 해당 분야 전문가 30명을 대상으로 심층 인터뷰를 진행하여 1차 데이터를 수집하였습니다.";
      u "            ";
      u "            ## 분석 방법";
      u "            수집된 데이터는 통계 소프트웨어를 사용하여 분석하였으며, 주요 통계적 기법으로는 회귀분석, 요인분석, 그리고 군집분석이 활용되었습니다. 질적 데이터의 경우 주제별 코딩을 통해 분석하였습니다.";
      u "            ";
      u "            ## 윤리적 고려사항";
      u "            본 연구는 모든 참여자로부터 사전 동의를 얻었으며, 연구윤리위원회의 승인을 받아 진행되었습니다. 참여자의 개인정보는 철저히 보호되었으며, 모든 데이터는 익명화 처리하였습니다.";
      u "            " ].

(** The text returned at line 130 of [generate_sample_response]. *)
Definition sample_results : pystr :=
  unlines
    [ [];
      u "            # 연구 결과";
      u "            ";
      u "            ## 주요 발견 1";
      u "            분석 결과, 연구 대상의 핵심 특성에 있어 통계적으로 유의미한 패턴이 발견되었습니다. 특히 변수 A와 변수 B 사이에는 강한 상관관계(r=0.78, p<0.001)가 확인되었습니다.";
      u "            ";
      u "            ## 주요 발견 2";
      u "            질적 분석에서는 세 가지 주요 주제가 도출되었습니다: (1) 환경적 요인의 중요성, (2) 사회적 맥락의 영향, 그리고 (3) 개인적 특성의 역할입니다. 이 중 환경적 요인이 가장 두드러진 주제로 나타났습니다.";
      u "            ";
      u "            ## 주요 발견 3";
      u "            기존 이론과 달리, 본 연구에서는 새로운 관점에서의 해석 가능성이 제시되었습니다. 이는 현재 학계의 지배적 패러다임에 도전하는 결과로서, 추가적인 검증이 필요합니다.";
      u "            ";
      u "            이러한 결과는 기존 연구와 일부 일치하면서도, 몇 가지 중요한 차이점을 보여줍니다. 이러한 차이는 연구 방법론의 차이와 분석 대상의 특수성에서 기인한 것으로 판단됩니다.";
      u "            " ].

(** The text returned at line 146 of [generate_sample_response]. *)
Definition sample_conclusion : pystr :=
  unlines
    [ [];
      u "            # 결론 및 제언";
      u "            ";
      u "            본 연구는 이 분야의 주요 연구 질문을 탐구하였습니다. 연구 결과를 종합하면, 첫째, 이 현상은 다양한 요인들의 복합적 상호작용에 의해 발생함을 확인하였습니다. 둘째, 기존에 간과되었던 요인 X의 중요성이 드러났습니다. 셋째, 맥락 특이적 접근의 필요성이 확인되었습니다.";
      u "            ";
      u "            이러한 발견은 학문적으로는 이론 확장에 기여하며, 실용적으로는 관련 정책 및 프로그램 개발에 중요한 시사점을 제공합니다. 특히 현장 실무자들에게 구체적인 가이드라인을 제시할 수 있을 것입니다.";
      u "            ";
      u "            본 연구의 한계점으로는 표본의 대표성 문제와 종단적 데이터의 부재를 들 수 있습니다. 이를 보완하기 위해 향후 연구에서는 더 다양한 집단을 대상으로 한 장기적 연구와, 실험적 설계를 통한 인과관계 검증이 필요합니다.";
      u "            " ].

(** The text returned at line 158 of [generate_sample_response]. *)
Definition sample_generic : pystr :=
  unlines
    [ [];
      u "            이 주제에 관한 연구는 매우 중요한 학술적 가치를 지니고 있습니다. 특히 최근의 기술적, 사회적 변화를 고려할 때 이 분야에 대한 심층적 이해는 더욱 필요해지고 있습니다.";
      u "            ";
      u "            주요 연구 방향으로는 (1) 이론적 기반 확장, (2) 실증적 데이터 분석, (3) 학제간 접근법 개발 등이 있습니다. 이러한 다양한 접근을 통해 더욱 포괄적인 이해가 가능할 것입니다.";
      u "            ";
      u "            향후 연구에서는 새로운 방법론의 적용과 더불어, 다양한 맥락에서의 교차 검증이 필요합니다. 이를 통해 더욱 견고하고 일반화 가능한 결과를 도출할 수 있을 것입니다.";
      u "            ";
      u "            주의: 이 내용은 자동 생성된 샘플 텍스트입니다. 실제 연구나 학술 목적으로 사용하기 위해서는 추가적인 검증과 전문가의 검토가 필요합니다.";
      u "            " ].

(** [introduction_prompt] of [generate_paper_content] (line 187). *)
Definition paper_introduction_prompt (topic title authors abstract keywords : pystr) : pystr :=
  unlines
    [ [];
      u "            다음 주제와 논문 정보를 바탕으로 학술 논문의 서론을 작성해주세요. 한국어로 작성하되, 학술적인 어조를 유지해주세요.";
      u "            ";
      u "            주제: " ++ topic;
      u "            참고 논문 제목: " ++ title;
      u "            참고 논문 저자: " ++ authors;
      u "            참고 논문 초록: " ++ abstract;
      u "            참고 논문 키워드: " ++ keywords;
      u "            ";
      u "            서론에는 다음 내용을 포함해주세요:";
      u "            1. 연구 배경 및 중요성";
      u "            2. 기존 연구의 한계점";
      u "            3. 본 연구의 목적과 연구 질문";
      u "            4. 연구의 의의 및 기대효과";
      u "            ";
      u "            형식은 '# 서론'으로 시작하고, 2-3 단락으로 구성해주세요.";
      u "            " ].

(** [methods_prompt] of [generate_paper_content] (line 208). *)
Definition paper_methods_prompt (topic title keywords : pystr) : pystr :=
  unlines
    [ [];
      u "            다음 주제와 논문 정보를 바탕으로 학술 논문의 연구 방법 섹션을 작성해주세요. 한국어로 작성하되, 학술적인 어조를 유지해주세요.";
      u "            ";
      u "            주제: " ++ topic;
      u "            참고 논문 제목: " ++ title;
      u "            참고 논문 키워드: " ++ keywords;
      u "            ";
      u "            연구 방법 섹션에는 다음 내용을 포함해주세요:";
      u "            1. 연구 설계 (연구 접근법, 설계 유형)";
      u "            2. 데이터 수집 방법 (표본 추출, 도구, 절차)";
      u "            3. 분석 방법 (통계적 기법, 질적 분석 방법)";
      u "            4. 윤리적 고려사항";
      u "            ";
      u "            형식은 '# 연구 방법'으로 시작하고, 각 하위 섹션은 '## 섹션 제목'으로 구분해주세요.";
      u "            " ].

(** [results_prompt] of [generate_paper_content] (line 227). *)
Definition paper_results_prompt (topic title keywords : pystr) : pystr :=
  unlines
    [ [];
      u "            다음 주제와 논문 정보를 바탕으로 학술 논문의 연구 결과 섹션을 작성해주세요. 한국어로 작성하되, 학술적인 어조를 유지해주세요.";
      u "            ";
      u "            주제: " ++ topic;
      u "            참고 논문 제목: " ++ title;
      u "            참고 논문 키워드: " ++ keywords;
      u "            ";
      u "            연구 결과 섹션에는 다음 내용을 포함해주세요:";
      u "            1. 주요 연구 결과 및 발견 (3가지 이상)";
      u "            2. 통계적 분석 결과 (가상의 데이터 기반)";
      u "            3. 결과에 대한 해석";
      u "            ";
      u "            형식은 '# 연구 결과'로 시작하고, 각 주요 발견은 '## 주요 발견 X'와 같은 형식으로 구분해주세요.";
      u "            " ].

(** [conclusion_prompt] of [generate_paper_content] (line 245). *)
Definition paper_conclusion_prompt (topic title keywords : pystr) : pystr :=
  unlines
    [ [];
      u "            다음 주제와 논문 정보를 바탕으로 학술 논문의 결론 및 제언 섹션을 작성해주세요. 한국어로 작성하되, 학술적인 어조를 유지해주세요.";
      u "            ";
      u "            주제: " ++ topic;
      u "            참고 논문 제목: " ++ title;
      u "            참고 논문 키워드: " ++ keywords;
      u "            ";
      u "            결론 및 제언 섹션에는 다음 내용을 포함해주세요:";
      u "            1. 주요 연구 결과 요약";
      u "            2. 이론적/실용적 의의";
      u "            3. 연구의 한계점";
      u "            4. 향후 연구 방향 제안";
      u "            ";
      u "            형식은 '# 결론 및 제언'으로 시작하고, 2-3 단락으로 구성해주세요.";
      u "            " ].

(** [references] of [generate_paper_content] (line 264). *)
Definition paper_references (topic title authors year source first_keyword : pystr) : pystr :=
  unlines
    [ [];
      u "            # 참고문헌";
      u "            ";
      u "            1. " ++ authors ++ u " (" ++ year ++ u "). " ++ title ++ u ". *" ++ source ++ u "*.";
      u "            2. Kim, J., & Lee, S. (2022). A systematic review of research trends in " ++ topic ++ u ". Journal of Scientific Research, 45(3), 234-251.";
      u "            3. Park, M., & Choi, H. (2023). Methodological approaches to " ++ topic ++ u " in educational contexts. International Journal of Science Education, 18(2), 187-203.";
      u "            4. Johnson, A., & Smith, B. (2021). Recent advances in " ++ first_keyword ++ u " research. Annual Review of Science, 12, 78-95.";
      u "            5. Lee, Y., & Kim, T. (2023). Application of " ++ topic ++ u " in real-world settings: Challenges and opportunities. Applied Research Journal, 9(4), 412-428.";
      u "            " ].

(** [niche_topics_prompt] of [generate_paper_content] (line 275). *)
Definition paper_niche_topics_prompt (topic title keywords : pystr) : pystr :=
  unlines
    [ [];
      u "            다음 주제와 논문 정보를 바탕으로 새로운 연구 틈새(niche) 주제 5가지를 제안해주세요. 각 틈새 주제는 기존 연구에서 충분히 다루어지지 않았지만 높은 연구 가치가 있는 영역이어야 합니다.";
      u "            ";
      u "            주제: " ++ topic;
      u "            참고 논문 제목: " ++ title;
      u "            참고 논문 키워드: " ++ keywords;
      u "            ";
      u "            틈새 주제는 " ++ [34%N] ++ u "XXX에 관한 연구" ++ [34%N] ++ u " 형식으로 작성해주세요.";
      u "            " ].

(** [disclaimer] of [generate_paper_content] (line 314). *)
Definition paper_disclaimer : pystr :=
  unlines
    [ [];
      u "            # 중요 안내";
      u "            ";
      u "            이 내용은 AI에 의해 추론된 자료로, 실제 논문이 아닙니다. 참조용으로만 활용하시기 바라며, ";
      u "            여기에 제시된 참고문헌은 실제 인용이나 학술적 활용이 불가능할 수 있습니다. ";
      u "            실제 연구를 위해서는 추가적인 문헌 조사와 검증이 필요합니다.";
      u "            " ].

(** [default_niche_topics] of [generate_paper_content] (line 301). *)
Definition default_niche_topics (topic : pystr) : list pystr :=
  [ topic ++ u "의 새로운 측정 방법론 개발에 관한 연구";
    topic ++ u "이 청소년 발달에 미치는 장기적 영향에 관한 연구";
    topic ++ u "과 관련된 윤리적 쟁점 분석 연구";
    topic ++ u "의 문화간 차이 비교 연구";
    u "인공지능을 활용한 " ++ topic ++ u " 분석 방법 연구" ].

(** The dict returned by the [except] branch of [generate_paper_content] (line 343). *)
Definition paper_error_content : value :=
  VDict (list_to_map
    [ (k_introduction, VStr (unlines
    [ u "# 서론";
      [];
      u "서론 생성 중 오류가 발생했습니다." ]));
      (k_methods, VStr (unlines
    [ u "# 연구 방법";
      [];
      u "연구 방법 생성 중 오류가 발생했습니다." ]));
      (k_results, VStr (unlines
    [ u "# 연구 결과";
      [];
      u "연구 결과 생성 중 오류가 발생했습니다." ]));
      (k_conclusion, VStr (unlines
    [ u "# 결론 및 제언";
      [];
      u "결론 생성 중 오류가 발생했습니다." ]));
      (k_references, VStr (unlines
    [ u "# 참고문헌";
      [];
      u "참고문헌 생성 중 오류가 발생했습니다." ]));
      (k_disclaimer, VStr (unlines
    [ u "# 중요 안내";
      [];
      u "이 내용은 오류로 인해 정확하지 않을 수 있습니다." ]));
      (k_niche_topics, VList [VStr (u "오류로 인해 틈새 주제를 생성할 수 없습니다.")]) ]).

(** [introduction_prompt] of [generate_niche_content] (line 372). *)
Definition niche_introduction_prompt (topic niche_topic : pystr) : pystr :=
  unlines
    [ [];
      u "            다음 주제와 틈새주제를 바탕으로 연구 계획서의 서론을 작성해주세요. 한국어로 작성하되, 학술적인 어조를 유지해주세요.";
      u "            ";
      u "            주제: " ++ topic;
      u "            틈새주제: " ++ niche_topic;
      u "            ";
      u "            서론에는 다음 내용을 포함해주세요:";
      u "            1. 틈새주제의 배경 및 중요성";
      u "            2. 기존 연구의 한계점과 이 틈새주제가 왜 중요한지";
      u "            3. 연구의 목적과 주요 연구 질문";
      u "            4. 예상되는 학문적/실용적 기여";
      u "            ";
      u "            형식은 '# 서론'으로 시작하고, 2-3 단락으로 구성해주세요.";
      u "            " ].

(** [methods_prompt] of [generate_niche_content] (line 390). *)
Definition niche_methods_prompt (topic niche_topic : pystr) : pystr :=
  unlines
    [ [];
      u "            다음 주제와 틈새주제를 바탕으로 연구 계획서의 연구 방법 섹션을 작성해주세요. 한국어로 작성하되, 학술적인 어조를 유지해주세요.";
      u "            ";
      u "            주제: " ++ topic;
      u "            틈새주제: " ++ niche_topic;
      u "            ";
      u "            연구 방법 섹션에는 다음 내용을 포함해주세요:";
      u "            1. 연구 설계 (어떤 연구 방법론을 사용할 것인지)";
      u "            2. 자료 수집 방법 (어떤 데이터를 어떻게 수집할 것인지)";
      u "            3. 분석 방법 (데이터를 어떻게 분석할 것인지)";
      u "            4. 예상되는 한계점과 극복 방안";
      u "            ";
      u "            형식은 '# 연구 방법'으로 시작하고, 각 하위 섹션은 '## 섹션 제목'으로 구분해주세요.";
      u "            " ].

(** [expected_results_prompt] of [generate_niche_content] (line 408). *)
Definition niche_expected_results_prompt (topic niche_topic : pystr) : pystr :=
  unlines
    [ [];
      u "            다음 주제와 틈새주제를 바탕으로 연구 계획서의 예상되는 연구 결과 섹션을 작성해주세요. 한국어로 작성하되, 학술적인 어조를 유지해주세요.";
      u "            ";
      u "            주제: " ++ topic;
      u "            틈새주제: " ++ niche_topic;
      u "            ";
      u "            예상되는 연구 결과 섹션에는 다음 내용을 포함해주세요:";
      u "            1. 주요 예상 결과 (3가지 이상)";
      u "            2. 예상 결과의 의미와 해석";
      u "            3. 결과가 학문적/실용적으로 어떤 의미를 갖는지";
      u "            ";
      u "            형식은 '# 예상되는 연구 결과'로 시작하고, 각 예상 결과는 번호를 매겨 구분해주세요.";
      u "            " ].

(** [disclaimer] of [generate_niche_content] (line 425). *)
Definition niche_disclaimer : pystr :=
  unlines
    [ [];
      u "            # 중요 안내";
      u "            ";
      u "            이 내용은 AI에 의해 추론된 자료로, 실제 논문이 아닙니다. 참조용으로만 활용하시기 바라며, ";
      u "            실제 연구를 위해서는 추가적인 문헌 조사와 검증이 필요합니다.";
      u "            " ].

(** The dict returned by the [except] branch of [generate_niche_content] (line 450). *)
Definition niche_error_content : value :=
  VDict (list_to_map
    [ (k_introduction, VStr (unlines
    [ u "# 서론";
      [];
      u "서론 생성 중 오류가 발생했습니다." ]));
      (k_methods, VStr (unlines
    [ u "# 연구 방법";
      [];
      u "연구 방법 생성 중 오류가 발생했습니다." ]));
      (k_expected_results, VStr (unlines
    [ u "# 예상되는 연구 결과";
      [];
      u "예상 결과 생성 중 오류가 발생했습니다." ]));
      (k_disclaimer, VStr (unlines
    [ u "# 중요 안내";
      [];
      u "이 내용은 오류로 인해 정확하지 않을 수 있습니다." ])) ]).

(** ** The world of the agent

    The cache files and the number of HTTP POSTs sent to the completion
    API so far: the answer of the API may change from one POST to the
    next. *)

Record world := {
  files : fs;
  posts : nat
}.

(** Effectful code: a result (or an exception) and the world afterwards. *)
Definition M (A : Type) : Type := world -> result A * world.

Definition mret {A} (a : A) : M A := fun w => (inr a, w).

Definition mbind {A B} (m : M A) (k : A -> M B) : M B :=
  fun w => match m w with
           | (inl e, w') => (inl e, w')
           | (inr a, w') => k a w'
           end.

(** A pure step that may raise. *)
Definition lift {A} (r : result A) : M A := fun w => (r, w).

(** [with open(path, 'w') as f: json.dump(v, f)], when the write
    completes. *)
Definition write_json (path : pystr) (v : value) : M unit :=
  fun w => (inr tt, {| files := <[path := Json v]> (files w); posts := posts w |}).

(** The cache probe of both operations: [Some v] when the file exists
    and [json.load] returns [v]; a file that does not parse is logged and
    passed over. *)
Definition read_cache (path : pystr) : M (option value) :=
  fun w => match files w !! path with
           | Some f =>
             (inr (try_except (let! v := json_load f in ret (Some v))
                     (fun _ => None)), w)
           | None => (inr None, w)
           end.

(** [try: m  except Exception: return fallback], at the top of an
    operation. *)
Definition or_else {A} (m : M A) (fallback : A) : world -> A * world :=
  fun w => match m w with
           | (inr a, w') => (a, w')
           | (inl _, w') => (fallback, w')
           end.

Notation "'let*' x ':=' m 'in' k" := (mbind m (fun x => k))
  (at level 10, x name, m at level 100, k at level 200).

(** ** Configuration read by [__init__] *)

Record credentials := {
  openai_api_key : pystr;
  llama_api_key : pystr;
  claude_api_key : pystr
}.

Inductive llm := OpenAI | Llama | Claude.

Definition nonempty (s : pystr) : bool := match s with [] => false | _ => true end.

Definition available_llms (c : credentials) : list llm :=
  (if nonempty (openai_api_key c) then [OpenAI] else [])
  ++ (if nonempty (llama_api_key c) then [Llama] else [])
  ++ (if nonempty (claude_api_key c) then [Claude] else []).

(** What [requests.post] came to: a status and a body, seen through
    [response.json()], or an exception. *)
Inductive post_outcome :=
| Response (status : Z) (body : file)
| PostFailed.

Definition cache_dir : pystr := default_cache_dir.

(** [d.get(k, default)]. *)
Definition dict_get (d : dict) (k : pystr) (default : value) : value :=
  match d !! k with
  | Some v => v
  | None => default
  end.

(** [v[:30]]. *)
Definition slice30 (v : value) : result value :=
  match v with
  | VStr s => ret (VStr (slice_to 30 s))
  | VList l => ret (VList (slice_to 30 l))
  | _ => raise TypeError
  end.

(** [v[0]]. *)
Definition first_item (v : value) : result value :=
  match v with
  | VList (x :: _) => ret x
  | VStr (c :: _) => ret (VStr [c])
  | VList [] | VStr [] => raise IndexError
  | VDict _ => raise KeyError
  | _ => raise TypeError
  end.

(** [', '.join(v)]. *)
Definition join_keywords (v : value) : result pystr :=
  let! items := iterate v in
  let! strs := mapM (fun x => match x with
                              | VStr s => ret s
                              | _ => raise TypeError
                              end) items in
  ret (join (u ", ") strs).

(** [v.strip()] and [v.split('\n')] are methods of [str]. *)
Definition strip_of (v : value) : result pystr :=
  match v with
  | VStr s => ret (strip s)
  | _ => raise AttributeError
  end.

Definition lines_of (v : value) : result (list pystr) :=
  match v with
  | VStr s => ret (split_on 10 s)
  | _ => raise AttributeError
  end.

(** ** Niche topics out of the text of the backend *)

Definition bullets : list pystr :=
  map u ["- "; "* "; "1. "; "2. "; "3. "; "4. "; "5. "]%string.

(** The class [[0-9-*. ]]. *)
Definition prefix_char (c : N) : bool :=
  is_ascii_digit c || (c =? 45)%N || (c =? 42)%N || (c =? 46)%N || (c =? 32)%N.

(** [re.sub(r'^[0-9-*. ]+', '', line)]. *)
Fixpoint drop_prefix (line : pystr) : pystr :=
  match line with
  | [] => []
  | c :: r => if prefix_char c then drop_prefix r else line
  end.

(** The body of the loop over the lines: the topic a line contributes. *)
Definition niche_line (line : pystr) : option pystr :=
  let line := strip line in
  if nonempty line && existsb (fun p => startswith p line) bullets then
    let clean_line := strip (drop_prefix line) in
    if nonempty clean_line then Some clean_line else None
  else None.

(** Lines 299 to 311: fill up to five, then cut at five. *)
Definition pad_niche_topics (topic : pystr) (niche_topics : list pystr) : list pystr :=
  let niche_topics :=
    if (length niche_topics <? 5)%nat
    then niche_topics
         ++ slice_to (5 - Z.of_nat (length niche_topics)) (default_niche_topics topic)
    else niche_topics in
  slice_to 5 niche_topics.

(** ** Vocabulary of the statements *)

(** The keys of a dict, the list stored under [niche_topics]. *)
Definition keys_of (v : value) : option (gset pystr) :=
  match v with
  | VDict d => Some (dom d)
  | _ => None
  end.

Definition niche_topics_of (v : value) : option (list value) :=
  match v with
  | VDict d => match d !! k_niche_topics with
               | Some (VList l) => Some l
               | _ => None
               end
  | _ => None
  end.

(** The keys of a [PaperContentResponse] and of a
    [NicheContentResponse]. *)
Definition paper_keys : gset pystr :=
  list_to_set [k_introduction; k_methods; k_results; k_conclusion;
               k_references; k_disclaimer; k_niche_topics].

Definition niche_keys : gset pystr :=
  list_to_set [k_introduction; k_methods; k_expected_results; k_disclaimer].

Section Agent.
Context {U : Unicode} {P : Process}.
Variable creds : credentials.

(** The answer to the [n]-th POST, for a prompt and [max_tokens]. *)
Variable http_post : nat -> pystr -> Z -> post_outcome.

(** [generate_sample_response(prompt)]; the two lists the function
    computes first are not used by it. *)
Definition generate_sample_response (prompt : pystr) : pystr :=
  let lowered := lower prompt in
  if contains (u "introduction") lowered || contains (u "서론") prompt
  then sample_introduction
  else if contains (u "methods") lowered || contains (u "methodology") lowered
          || contains (u "연구 방법") prompt
  then sample_methods
  else if contains (u "results") lowered || contains (u "findings") lowered
          || contains (u "연구 결과") prompt
  then sample_results
  else if contains (u "conclusion") lowered || contains (u "결론") prompt
  then sample_conclusion
  else sample_generic.

(** [response.json()['choices'][0]['message']['content']]. *)
Definition completion_of (body : file) : result value :=
  let! data := json_load body in
  let! choices := getitem data k_choices in
  let! choice := first_item choices in
  let! message := getitem choice k_message in
  getitem message k_content.

(** [call_llm_api(prompt, max_tokens)]: every failure of the HTTP call is
    answered by the sample response, so the call returns a value. *)
Definition call_llm_api (prompt : pystr) (max_tokens : Z) : M value :=
  fun w =>
    match available_llms creds with
    | [] => (inr (VStr (generate_sample_response prompt)), w)
    | OpenAI :: _ =>
      let w' := {| files := files w; posts := S (posts w) |} in
      match http_post (posts w) prompt max_tokens with
      | Response 200 body =>
        (inr (try_except (completion_of body)
                (fun _ => VStr (generate_sample_response prompt))), w')
      | _ => (inr (VStr (generate_sample_response prompt)), w')
      end
    | _ => (inr (VStr (generate_sample_response prompt)), w)
    end.

(** The cache file of [generate_paper_content]. *)
Definition paper_cache_file (topic : pystr) (paper_info : dict) : result pystr :=
  let! title30 := slice30 (dict_get paper_info k_title (VStr [])) in
  let cache_key := topic ++ u "_" ++ str title30 in
  ret (path_join cache_dir
         (u "paper_content_" ++ str (VInt (hash cache_key)) ++ u ".json")).

(** The statements of [generate_paper_content] after the cache probe. *)
Definition assemble_paper (cache_file topic : pystr) (paper_info : dict) : M value :=
  let title := str (dict_get paper_info k_title (VStr [])) in
  let authors := str (dict_get paper_info k_authors (VStr [])) in
  let abstract := str (dict_get paper_info k_abstract (VStr [])) in
  let year := str (dict_get paper_info k_year (VStr (u "2023"))) in
  let source := str (dict_get paper_info k_source (VStr [])) in
  let* keywords := lift (join_keywords (dict_get paper_info k_keywords (VList []))) in
  let* introduction :=
    call_llm_api (paper_introduction_prompt topic title authors abstract keywords) 800 in
  let* methods := call_llm_api (paper_methods_prompt topic title keywords) 800 in
  let* results := call_llm_api (paper_results_prompt topic title keywords) 800 in
  let* conclusion := call_llm_api (paper_conclusion_prompt topic title keywords) 800 in
  let* first_keyword :=
    lift (first_item (dict_get paper_info k_keywords (VList [VStr (u "research")]))) in
  let references :=
    paper_references topic title authors year source (str first_keyword) in
  let* niche_topics_text :=
    call_llm_api (paper_niche_topics_prompt topic title keywords) 400 in
  let* lines := lift (lines_of niche_topics_text) in
  let niche_topics := pad_niche_topics topic (omap niche_line lines) in
  let* introduction := lift (strip_of introduction) in
  let* methods := lift (strip_of methods) in
  let* results := lift (strip_of results) in
  let* conclusion := lift (strip_of conclusion) in
  let paper_content : dict :=
    <[k_niche_topics := VList (map VStr niche_topics)]>
      (<[k_disclaimer := VStr (strip paper_disclaimer)]>
         (<[k_references := VStr (strip references)]>
            (<[k_conclusion := VStr conclusion]>
               (<[k_results := VStr results]>
                  (<[k_methods := VStr methods]>
                     (<[k_introduction := VStr introduction]> ∅)))))) in
  let* _ := write_json cache_file (VDict paper_content) in
  mret (VDict paper_content).

(** The [try] block of [generate_paper_content]. *)
Definition paper_body (topic : pystr) (paper_info : dict) : M value :=
  let* cache_file := lift (paper_cache_file topic paper_info) in
  let* cached := read_cache cache_file in
  match cached with
  | Some v => mret v
  | None => assemble_paper cache_file topic paper_info
  end.

(** [generate_paper_content(topic, paper_info)]: the value returned and
    the world afterwards. *)
Definition generate_paper_content (topic : pystr) (paper_info : dict)
  : world -> value * world :=
  or_else (paper_body topic paper_info) paper_error_content.

(** The cache file of [generate_niche_content]. *)
Definition niche_cache_file (topic niche_topic : pystr) : pystr :=
  let cache_key := topic ++ u "_" ++ slice_to 30 niche_topic in
  path_join cache_dir
    (u "niche_content_" ++ str (VInt (hash cache_key)) ++ u ".json").

Definition assemble_niche (cache_file topic niche_topic : pystr) : M value :=
  let* introduction :=
    call_llm_api (niche_introduction_prompt topic niche_topic) 800 in
  let* methods := call_llm_api (niche_methods_prompt topic niche_topic) 800 in
  let* expected_results :=
    call_llm_api (niche_expected_results_prompt topic niche_topic) 800 in
  let* introduction := lift (strip_of introduction) in
  let* methods := lift (strip_of methods) in
  let* expected_results := lift (strip_of expected_results) in
  let niche_content : dict :=
    <[k_disclaimer := VStr (strip niche_disclaimer)]>
      (<[k_expected_results := VStr expected_results]>
         (<[k_methods := VStr methods]>
            (<[k_introduction := VStr introduction]> ∅))) in
  let* _ := write_json cache_file (VDict niche_content) in
  mret (VDict niche_content).

(** The [try] block of [generate_niche_content]. *)
Definition niche_body (topic niche_topic : pystr) : M value :=
  let cache_file := niche_cache_file topic niche_topic in
  let* cached := read_cache cache_file in
  match cached with
  | Some v => mret v
  | None => assemble_niche cache_file topic niche_topic
  end.

(** [generate_niche_content(topic, niche_topic)]. *)
Definition generate_niche_content (topic niche_topic : pystr)
  : world -> value * world :=
  or_else (niche_body topic niche_topic) niche_error_content.

End Agent.
End Agent.

(* ===================================================================== *)
(** * app/routes/query_router.py                                          *)
(* ===================================================================== *)

Module Router.
Section Router.
Context {U : Unicode}.
Variable http_get : pystr -> pystr -> Scholar.http_outcome.

(** The body of a [TopicRequest]. *)
Record TopicRequest := {
  topic : pystr;
  keywords : option (list pystr)
}.

(** The handler of [POST /search_papers], up to the list it hands to the
    response model; [internal_db] is the list the service loaded.  The
    services catch their own exceptions, so the handler's [except] branch
    (HTTP 500) is not entered before the response is built. *)
Definition search_papers (internal_db : value) (request : TopicRequest)
  : list value :=
  let keywords :=
    match keywords request with
    | None | Some [] => Nlp.extract_keywords (topic request) 5
    | Some ks => ks
    end in
  let internal_papers :=
    Scholar.search_internal_db internal_db (topic request) keywords in
  let external_papers :=
    Scholar.search_external_api http_get (topic request) keywords in
  let all_papers := internal_papers ++ external_papers in
  all_papers.

(** The keywords the handler searches with. *)
Definition request_keywords (request : TopicRequest) : list pystr :=
  match keywords request with
  | None | Some [] => Nlp.extract_keywords (topic request) 5
  | Some ks => ks
  end.

End Router.
End Router.

(* ===================================================================== *)
(** * Further functions of the same files, and vocabulary                 *)
(* ===================================================================== *)

Module Rest.
Import Cleaner.

(** ** Vocabulary for the keyword extractor *)

(** The number of items of [l] equal to [w]. *)
Fixpoint occurrences (w : pystr) (l : list pystr) : Z :=
  match l with
  | [] => 0
  | x :: r => ((if str_eqb x w then 1 else 0) + occurrences w r)%Z
  end.

(** [word_freq.get(w)]. *)
Fixpoint assoc (w : pystr) (word_freq : list (pystr * Z)) : option Z :=
  match word_freq with
  | [] => None
  | (k, n) :: r => if str_eqb k w then Some n else assoc w r
  end.

(** The order [sorted(..., key=lambda x: x[1], reverse=True)] puts the
    items in. *)
Definition freq_ge (a b : pystr * Z) : Prop := (b.2 ≤ a.2)%Z.

(** ** [clean_filename] of app/utils/cleaner.py *)

(** The nine characters the pattern of [clean_filename] removes: less-than,
    greater-than, colon, double quote, slash, backslash, bar, question mark,
    star. *)
Definition invalid_char (c : N) : bool :=
  (c =? 60)%N || (c =? 62)%N || (c =? 58)%N || (c =? 34)%N || (c =? 47)%N
  || (c =? 92)%N || (c =? 124)%N || (c =? 63)%N || (c =? 42)%N.

(** [s.rstrip('. ')] drops the trailing points and spaces. *)
Definition point_or_space (c : N) : bool := (c =? 46)%N || (c =? 32)%N.

Fixpoint lstrip_points (s : pystr) : pystr :=
  match s with
  | [] => []
  | c :: r => if point_or_space c then lstrip_points r else s
  end.

Definition rstrip_points (s : pystr) : pystr := rev (lstrip_points (rev s)).

(** [clean_filename(filename)]. *)
Definition clean_filename (filename : pystr) : pystr :=
  let cleaned := List.filter (fun c => negb (invalid_char c)) filename in
  let cleaned := rstrip_points cleaned in
  let cleaned := match cleaned with
                 | [] => u "untitled"
                 | _ => cleaned
                 end in
  if (100 <? length cleaned)%nat then slice_to 97 cleaned ++ u "..."
  else cleaned.

(** A value that is a [str]. *)
Definition is_str (v : value) : Prop := ∃ s, v = VStr s.

Section Rest.
Context {U : Unicode}.

(** Whether the loop body of [search_internal_db] runs on a record
    without raising, and whether it appends the record. *)
Definition readable (topic : pystr) (keywords : list pystr) (paper : value) : bool :=
  match Scholar.matches (lower topic) (map lower keywords) paper with
  | inr _ => true
  | inl _ => false
  end.

Definition matched (topic : pystr) (keywords : list pystr) (paper : value) : bool :=
  match Scholar.matches (lower topic) (map lower keywords) paper with
  | inr hit => hit
  | inl _ => false
  end.

(** The records one loop of [merge_search_results] appends, given the
    titles seen so far. *)
Fixpoint keep_unseen (seen_titles : gset pystr) (papers : list dict) : list dict :=
  match papers with
  | [] => []
  | paper :: r =>
    if bool_decide (title_key paper ∈ seen_titles) then keep_unseen seen_titles r
    else paper :: keep_unseen ({[title_key paper]} ∪ seen_titles) r
  end.

(** How often a word occurs among the qualifying tokens of a text. *)
Definition frequency (text w : pystr) : Z :=
  occurrences w (List.filter Nlp.qualifies (Nlp.tokens text)).

(** The distinct qualifying tokens in the order [sorted_words] has
    them: [extract_keywords] draws from the front of this list. *)
Definition ranking (text : pystr) : list pystr :=
  map fst (Nlp.sorted_desc (Nlp.count_words (Nlp.tokens text))).

End Rest.
End Rest.

(* ===================================================================== *)
(** * Reference instances for closed examples                              *)
(* ===================================================================== *)

Module Basic.

(** [str.lower] on text made of ASCII and of code points without case
    (Hangul syllables, digits, punctuation, spaces). *)
Definition ascii_lower (s : pystr) : pystr :=
  map (fun c => if is_ascii_upper c then (c + 32)%N else c) s.

(** [str.isalnum] on ASCII and Hangul syllables. *)
Definition basic_isalnum (c : N) : bool :=
  is_ascii_lower c || is_ascii_upper c || is_ascii_digit c || is_hangul c.

Fixpoint digits_of (fuel : nat) (n : N) (acc : pystr) : pystr :=
  match fuel with
  | O => acc
  | S f =>
    let acc' := (48 + n mod 10)%N :: acc in
    if (n <? 10)%N then acc' else digits_of f (n / 10)%N acc'
  end.

(** Decimal rendering of an [int]. *)
Definition decimal (z : Z) : pystr :=
  let n := Z.abs_N z in
  let ds := digits_of (S (N.to_nat (N.log2 n))) n [] in
  if (z <? 0)%Z then 45%N :: ds else ds.

(** [repr] on [None], booleans, integers, strings that need no escape
    and lists of those. *)
Fixpoint basic_repr (v : value) : pystr :=
  match v with
  | VNone => u "None"
  | VBool true => u "True"
  | VBool false => u "False"
  | VInt z => decimal z
  | VStr s => 39%N :: s ++ [39%N]
  | VList l => 91%N :: join (u ", ") (map basic_repr l) ++ [93%N]
  | VDict _ => u "{...}"
  | VFloat _ => u "<float>"
  end.

(** Text of ASCII and Hangul syllables without [&] is left unchanged by
    [html.unescape] and is in normal form C. *)
#[export] Instance basic_unicode : Unicode := {|
  lower := ascii_lower;
  isalnum := basic_isalnum;
  html_unescape := fun s => s;
  nfc := fun s => s;
  repr := basic_repr
|}.

(** A host that refuses nothing. *)
#[export] Instance demo_host : Host := {|
  makedirs_ok := fun _ => true;
  open_w_ok := fun _ => true
|}.

(** A process for closed examples: the hash of a string is its length,
    a timestamp is written as one code point, after a minus sign when it
    is negative. *)
#[export] Instance demo_process : Process := {|
  hash := fun s => Z.of_nat (length s);
  isoformat := fun t =>
    if (t <? 0)%Z then [45%N; Z.to_N (- t)] else [Z.to_N t];
  fromisoformat := fun s =>
    match s with
    | [n] => Some (Z.of_N n)
    | [m; n] =>
      if (m =? 45)%N && negb (n =? 0)%N then Some (- Z.of_N n)%Z else None
    | _ => None
    end
|}.

End Basic.

Import Basic.

(** Inputs of the closed examples. *)
Module Demo.
Import Cleaner.

Definition as_dict (v : value) : dict :=
  match v with
  | VDict d => d
  | _ => ∅
  end.

(** The first sample record, and an external record with the same title
    in capitals. *)
Definition internal_paper : dict := as_dict Scholar.sample_paper_1.

Definition external_paper : dict := list_to_map
  [ (k_title, VStr (u "광촉매를 이용한 미세플라스틱 분해 연구"));
    (k_authors, VStr (u "Smith et al."));
    (k_year, VStr (u "2023"));
    (k_abstract, VStr (u "Photocatalytic degradation of microplastics."));
    (k_source, VStr (u "arXiv:2301.12345"));
    (k_url, VStr (u "https://arxiv.org/abs/2301.12345"));
    (k_keywords, Scholar.strs ["TiO2"; "microplastics"]);
    (k_type, VStr (u "external")) ].

Definition merged_demo : list dict :=
  match merge_search_results 2024 [internal_paper] [external_paper] with
  | inr merged => merged
  | inl _ => []
  end.

(** A record whose only keyword starts with a dash. *)
Definition dash_paper : dict := list_to_map
  [ (k_title, VStr (u "Solar cells"));
    (k_keywords, VList [VStr (u "- abc")]) ].

Definition normalized_once (paper : dict) : dict :=
  match normalize_paper_info 2024 paper with
  | inr n => n
  | inl _ => ∅
  end.

Definition dash_once : dict := normalized_once dash_paper.
Definition dash_twice : dict := normalized_once dash_once.

(** The topic of the second end-to-end scenario. *)
Definition absent_topic : pystr := u "없는주제있음없음".

(** An internal DB with two records of one title, up to case. *)
Definition twin_1 : value := Scholar.literal
  [ (k_title, VStr (u "Solar  <b>Cells</b>"));
    (k_authors, VStr (u "Kim"));
    (k_year, VStr (u "2022"));
    (k_abstract, VStr (u "Efficiency of solar cells."));
    (k_source, VStr (u "Science Fair 2022"));
    (k_keywords, Scholar.strs ["solar"]);
    (k_type, VStr (u "internal")) ].

Definition twin_2 : value := Scholar.literal
  [ (k_title, VStr (u "solar  <b>cells</b>"));
    (k_authors, VStr (u "Lee"));
    (k_year, VStr (u "2023"));
    (k_abstract, VStr (u "Cost of solar cells."));
    (k_source, VStr (u "Science Fair 2023"));
    (k_keywords, Scholar.strs ["solar"]);
    (k_type, VStr (u "internal")) ].

Definition twin_db : value := VList [twin_1; twin_2].

Definition solar_request : Router.TopicRequest :=
  {| Router.topic := u "solar"; Router.keywords := Some [u "solar"] |}.

(** No external API answers. *)
Definition offline : pystr -> pystr -> Scholar.http_outcome :=
  fun _ _ => Scholar.ConnectionFailed.

(** The first end-to-end scenario: no credentials, an empty cache. *)
Definition no_credentials : Agent.credentials :=
  {| Agent.openai_api_key := []; Agent.llama_api_key := [];
     Agent.claude_api_key := [] |}.

Definition no_answer : nat -> pystr -> Z -> Agent.post_outcome :=
  fun _ _ _ => Agent.PostFailed.

(** A backend that answers every prompt with two bullet lines. *)
Definition openai_only : Agent.credentials :=
  {| Agent.openai_api_key := u "sk-demo"; Agent.llama_api_key := [];
     Agent.claude_api_key := [] |}.

Definition two_bullets : nat -> pystr -> Z -> Agent.post_outcome :=
  fun _ _ _ =>
    Agent.Response 200
      (Json (Scholar.literal
         [ (Agent.k_choices,
            VList [Scholar.literal
              [ (Agent.k_message,
                 Scholar.literal
                   [ (Agent.k_content,
                      VStr (Agent.unlines [u "1. 첫째 주제"; u "- 둘째 주제"])) ]) ]]) ])).

(** A backend that answers with status 200 and a null content. *)
Definition null_content : nat -> pystr -> Z -> Agent.post_outcome :=
  fun _ _ _ =>
    Agent.Response 200
      (Json (Scholar.literal
         [ (Agent.k_choices,
            VList [Scholar.literal
              [ (Agent.k_message,
                 Scholar.literal [ (Agent.k_content, VNone) ]) ]]) ])).

Definition empty_world : Agent.world := {| Agent.files := ∅; Agent.posts := 0 |}.

Definition topic : pystr := u "미세플라스틱".

(** The first sample record with an empty keyword list. *)
Definition paper_without_keywords : dict :=
  <[k_keywords := VList []]> internal_paper.

Definition paper_path : pystr :=
  match Agent.paper_cache_file topic internal_paper with
  | inr path => path
  | inl _ => []
  end.

Definition first_call : value * Agent.world :=
  Agent.generate_paper_content openai_only two_bullets topic internal_paper
    empty_world.

(** The first sample record without credentials and without backend. *)
Definition offline_call : value * Agent.world :=
  Agent.generate_paper_content no_credentials no_answer topic internal_paper
    empty_world.

(** The record without any field, normalized. *)
Definition empty_normalized : dict :=
  match normalize_paper_info 2024 ∅ with
  | inr n => n
  | inl _ => ∅
  end.

End Demo.

(* ===================================================================== *)
(** * Properties                                                          *)
(* ===================================================================== *)

(** ** Keyword extraction *)

Module NlpFacts.
Import Nlp.
Section NlpFacts.
Context {U : Unicode}.

Lemma insert_desc_length x l : length (insert_desc x l) = S (length l).
Proof.
  induction l as [|y r IH]; simpl; [done|].
  destruct (y.2 <? x.2)%Z; simpl; by rewrite ?IH.
Qed.

Lemma sorted_desc_from_length items acc :
  length (fold_left (fun a x => insert_desc x a) items acc)
  = (length acc + length items)%nat.
Proof.
  revert acc; induction items as [|x r IH]; intros acc; simpl; [lia|].
  rewrite IH, insert_desc_length. lia.
Qed.

Lemma sorted_desc_length items : length (sorted_desc items) = length items.
Proof. unfold sorted_desc. by rewrite sorted_desc_from_length. Qed.

(** The keys of [word_freq] after one more word. *)
Lemma bump_keys_elem word wf x :
  x ∈ (bump word wf).*1 ↔ x = word ∨ x ∈ wf.*1.
Proof.
  induction wf as [|[k n] r IH]; simpl.
  - rewrite list_elem_of_singleton. set_solver.
  - unfold str_eqb. case_bool_decide; simpl.
    + subst. set_solver.
    + rewrite !elem_of_cons, IH. naive_solver.
Qed.

Lemma bump_keys_NoDup word wf : NoDup wf.*1 → NoDup (bump word wf).*1.
Proof.
  induction wf as [|[k n] r IH]; simpl; intros Hnd.
  - apply NoDup_singleton.
  - unfold str_eqb. case_bool_decide; simpl; [done|].
    apply NoDup_cons in Hnd as [Hk Hr]. apply NoDup_cons. split; [|by apply IH].
    rewrite bump_keys_elem. naive_solver.
Qed.

Lemma count_from_keys words acc :
  let wf := fold_left (fun wf w => if qualifies w then bump w wf else wf) words acc in
  (NoDup acc.*1 → NoDup wf.*1)
  ∧ ∀ x, x ∈ wf.*1 ↔ x ∈ acc.*1 ∨ (x ∈ words ∧ qualifies x = true).
Proof.
  revert acc; induction words as [|w r IH]; intros acc; simpl.
  - split; [done|]. intros x. set_solver.
  - destruct (qualifies w) eqn:Hq.
    + destruct (IH (bump w acc)) as [IH1 IH2]. split.
      * intros Hnd. by apply IH1, bump_keys_NoDup.
      * intros x. rewrite IH2, bump_keys_elem, elem_of_cons. naive_solver.
    + destruct (IH acc) as [IH1 IH2]. split; [done|].
      intros x. rewrite IH2, elem_of_cons. split; [tauto|].
      intros [?|[[->|?] ?]]; [by left|congruence|by right].
Qed.

(** The dict holds one entry per distinct qualifying token. *)
Lemma count_words_length text :
  length (count_words (tokens text)) = length (distinct_qualifying text).
Proof.
  unfold count_words, distinct_qualifying.
  destruct (count_from_keys (tokens text) []) as [Hnd Hel]. simpl in *.
  rewrite <- (length_fmap fst). apply Permutation_length.
  apply NoDup_Permutation; [apply Hnd, NoDup_nil_2|apply NoDup_remove_dups|].
  intros x. rewrite Hel, elem_of_remove_dups, list_elem_of_filter.
  rewrite elem_of_nil, Is_true_true. naive_solver.
Qed.

Lemma slice_to_length {A} (n : Z) (l : list A) :
  (0 ≤ n)%Z → length (slice_to n l) = Nat.min (Z.to_nat n) (length l).
Proof.
  intros Hn. unfold slice_to. destruct (Z.ltb_spec n 0); [lia|].
  by rewrite length_take.
Qed.

Lemma generic_keywords_length : length generic_keywords = 8%nat.
Proof. reflexivity. Qed.

(** C1. For every text and every requested count [N] with
    [0 <= N <= (number of distinct qualifying tokens) + 8], where 8 is the
    size of the generic pool, [extract_keywords] returns exactly [N]
    keywords; the result is a function of the text and of [N] alone, so
    two runs on the same input return the same list. *)
Theorem extract_keywords_exact_count (text : pystr) (num_keywords : Z) :
  (0 ≤ num_keywords)%Z →
  (num_keywords ≤ Z.of_nat (length (distinct_qualifying text))
                  + Z.of_nat (length generic_keywords))%Z →
  Z.of_nat (length (extract_keywords text num_keywords)) = num_keywords
  ∧ length generic_keywords = 8%nat
  ∧ ∀ run1 run2 : list pystr,
      run1 = extract_keywords text num_keywords →
      run2 = extract_keywords text num_keywords → run1 = run2.
Proof.
  intros H0 Hle. split; [|split; [reflexivity|congruence]].
  rewrite <- count_words_length in Hle. rewrite generic_keywords_length in Hle.
  unfold extract_keywords, try_except, ret.
  set (kw := slice_to num_keywords (sorted_desc (count_words (tokens text)))).
  assert (Hkw : length kw.*1
                = Nat.min (Z.to_nat num_keywords)
                    (length (count_words (tokens text)))).
  { rewrite length_fmap. unfold kw.
    by rewrite slice_to_length, sorted_desc_length. }
  change (map fst kw) with (kw.*1).
  destruct (Z.ltb_spec (Z.of_nat (length kw.*1)) num_keywords) as [Hlt|Hge].
  - rewrite length_app, slice_to_length, generic_keywords_length by lia. lia.
  - lia.
Qed.

End NlpFacts.

(** The hypothesis of C1 at the topic of the sample data. *)
Lemma extract_keywords_exact_count_witness :
  length (Nlp.distinct_qualifying (u "미세플라스틱 분해 연구")) = 3%nat
  ∧ Z.of_nat (length (Nlp.extract_keywords (u "미세플라스틱 분해 연구") 5)) = 5%Z.
Proof.
  split; [vm_compute; reflexivity|].
  apply (extract_keywords_exact_count (u "미세플라스틱 분해 연구") 5);
  vm_compute; discriminate.
Defined.

End NlpFacts.

(** ** Normalization and merge *)

Module CleanerFacts.
Import Cleaner.

(** Lookups in a record built by successive insertions. *)
Ltac key_ne := vm_compute; discriminate.
Ltac keys :=
  repeat first
    [ rewrite lookup_insert_eq
    | rewrite lookup_insert_ne by key_ne
    | rewrite lookup_empty ].

Section CleanerFacts.
Context {U : Unicode}.

Lemma bind_inr {A B} (m : result A) (k : A → result B) (b : B) :
  Py.bind m k = inr b → ∃ a, m = inr a ∧ k a = inr b.
Proof. destruct m as [e|a]; simpl; [discriminate|eauto]. Qed.

Lemma mapM_inr {A B} (f : A → result B) (l : list A) (l' : list B) :
  mapM f l = inr l' → Forall2 (fun x y => f x = inr y) l l'.
Proof.
  revert l'; induction l as [|x r IH]; simpl; intros l' Hm.
  - injection Hm as <-. constructor.
  - apply bind_inr in Hm as (y & Hy & Hm).
    apply bind_inr in Hm as (ys & Hys & Hm). injection Hm as <-.
    constructor; auto.
Qed.

(** [normalize_paper_info] returns a record of the eight known keys
    (seven without [url]) whose text fields are strings. *)
Lemma normalize_shape now_year paper n :
  normalize_paper_info now_year paper = inr n →
  ∃ title authors year abstract source keywords type,
    n = record_of title authors year abstract source (paper !! k_url) keywords type
    ∧ text_field paper k_title (u "제목 없음") = VStr title
    ∧ text_field paper k_authors (u "저자 미상") = VStr authors
    ∧ text_field paper k_year (str (VInt now_year)) = VStr year
    ∧ text_field paper k_abstract (u "초록 정보가 없습니다.") = VStr abstract
    ∧ text_field paper k_source (u "출처 미상") = VStr source
    ∧ (keywords = [] → title_keywords title = [])
    ∧ (∀ given, paper !! k_type = Some given → type = given).
Proof.
  unfold normalize_paper_info. intros Hn.
  apply bind_inr in Hn as (kws & _ & Hn).
  assert (Htf : ∀ f d, ∃ s, text_field paper f d = VStr s).
  { intros f d. unfold text_field. destruct (paper !! f); eauto. }
  destruct (Htf k_title (u "제목 없음")) as [t Ht].
  destruct (Htf k_authors (u "저자 미상")) as [a Ha].
  destruct (Htf k_year (str (VInt now_year))) as [y Hy].
  destruct (Htf k_abstract (u "초록 정보가 없습니다.")) as [ab Hab].
  destruct (Htf k_source (u "출처 미상")) as [so Hso].
  rewrite Ht, Ha, Hy, Hab, Hso in Hn.
  match type of Hn with
  | context [VList (map VStr ?k)] => set (kws' := k) in Hn
  end.
  exists t, a, y, ab, so, kws'.
  assert (Hk : kws' = [] → title_keywords t = []).
  { unfold kws'. destruct kws; [|discriminate].
    destruct (paper !! k_url); keys; auto. }
  destruct (paper !! k_type) as [ty|] eqn:Hty.
  - exists ty. injection Hn as <-. unfold record_of.
    split_and!; auto. by intros given [= ->].
  - eexists. injection Hn as <-. unfold record_of.
    split; [reflexivity|]. split_and!; auto. by intros given [=].
Qed.

Lemma record_of_title t a y ab so url kws ty :
  record_of t a y ab so url kws ty !! k_title = Some (VStr t).
Proof. unfold record_of. destruct url; keys; reflexivity. Qed.

(** On a normalized record [paper['title'].lower()] does not raise. *)
Lemma normalize_title_lower now_year paper n :
  normalize_paper_info now_year paper = inr n →
  title_lower n = inr (title_key n).
Proof.
  intros Hn. apply normalize_shape in Hn as (t & a & y & ab & so & kws & ty & -> & _).
  unfold title_lower, title_key. by rewrite record_of_title.
Qed.

Lemma clean_keywords_loop_total l cleaned :
  Forall (fun k => ∃ s, k = VStr s) l →
  ∃ out, clean_keywords_loop l cleaned = inr out.
Proof.
  intros Hl. revert cleaned. induction Hl as [|k r [s ->] _ IH]; intros cleaned; simpl.
  - eauto.
  - destruct (List.filter keyword_char (lower (strip s))); [apply IH|].
    destruct (mem _ cleaned); apply IH.
Qed.

Lemma clean_keywords_total l :
  Forall (fun k => ∃ s, k = VStr s) l → ∃ out, clean_keywords l = inr out.
Proof.
  intros Hl. unfold clean_keywords. destruct l; [eauto|].
  by apply clean_keywords_loop_total.
Qed.

(** [normalize_paper_info] returns on every record whose keywords, when
    they are a list, are strings. *)
Lemma normalize_total now_year paper :
  keywords_ok paper → ∃ n, normalize_paper_info now_year paper = inr n.
Proof.
  unfold keywords_ok, normalize_paper_info. intros Hk.
  assert (∃ kws,
    match paper !! k_keywords with
    | Some (VList l) => clean_keywords l
    | Some (VStr s) => clean_keywords (map (fun k => VStr (strip k)) (split_on 44 s))
    | _ => ret []
    end = inr kws) as [kws ->].
  { destruct (paper !! k_keywords) as [[]|]; try (eexists; reflexivity).
    - apply clean_keywords_total, Forall_forall.
      intros k Hin. apply list_elem_of_fmap in Hin as (x & -> & _). eauto.
    - by apply clean_keywords_total. }
  simpl. eauto.
Qed.

Lemma mapM_normalize_total now_year papers :
  Forall keywords_ok papers →
  ∃ ns, mapM (normalize_paper_info now_year) papers = inr ns.
Proof.
  induction 1 as [|p r Hp _ [ns IH]]; simpl; [eauto|].
  destruct (normalize_total now_year p Hp) as [n ->]. simpl.
  rewrite IH. simpl. eauto.
Qed.

(** One loop of the merge.  The records it appends are first
    occurrences, of titles not seen before. *)
Lemma add_unseen_inv papers : ∀ seen merged seen' merged',
  Forall (fun p => title_lower p = inr (title_key p)) papers →
  add_unseen papers seen merged = inr (seen', merged') →
  ∃ new,
    merged' = merged ++ new
    ∧ NoDup (title_key <$> new)
    ∧ (∀ k, k ∈ seen' ↔ k ∈ seen ∨ k ∈ title_key <$> new)
    ∧ (∀ r, r ∈ new → title_key r ∉ seen)
    ∧ (∀ p, p ∈ papers → title_key p ∈ seen')
    ∧ (∀ r, r ∈ new →
         ∃ pre post, papers = pre ++ r :: post
                     ∧ ∀ q, q ∈ pre → title_key q ≠ title_key r).
Proof.
  induction papers as [|p r IH]; intros seen merged seen' merged' Hok Hrun.
  - simpl in Hrun. injection Hrun as <- <-. exists []. rewrite app_nil_r.
    split_and!; simpl; try set_solver. constructor.
  - apply Forall_cons in Hok as [Hp Hok]. simpl in Hrun. rewrite Hp in Hrun.
    simpl in Hrun. case_bool_decide as Hseen.
    + destruct (IH _ _ _ _ Hok Hrun) as (new & -> & Hnd & Hs & Hfresh & Hcov & Hfirst).
      exists new. split_and!; auto.
      * intros q [->|Hq]%elem_of_cons; [apply Hs; by left|by apply Hcov].
      * intros x Hx. destruct (Hfirst x Hx) as (pre & post & -> & Hpre).
        exists (p :: pre), post. split; [done|].
        intros q [->|Hq]%elem_of_cons; [|by apply Hpre].
        intros Heq. apply (Hfresh x Hx). by rewrite <- Heq.
    + destruct (IH _ _ _ _ Hok Hrun) as (new & -> & Hnd & Hs & Hfresh & Hcov & Hfirst).
      exists (p :: new). rewrite <- app_assoc. simpl. split_and!; auto.
      * apply NoDup_cons. split; [|done].
        intros Hin. apply list_elem_of_fmap in Hin as (x & Hx & Hin).
        apply (Hfresh x Hin). rewrite <- Hx. set_solver.
      * intros k. rewrite Hs. set_solver.
      * intros x [->|Hx]%elem_of_cons; [done|].
        intros Hin. apply (Hfresh x Hx). set_solver.
      * intros q [->|Hq]%elem_of_cons; [apply Hs; set_solver|by apply Hcov].
      * intros x [->|Hx]%elem_of_cons.
        { exists [], r. split; [done|]. intros q Hq. by apply elem_of_nil in Hq. }
        destruct (Hfirst x Hx) as (pre & post & -> & Hpre).
        exists (p :: pre), post. split; [done|].
        intros q [->|Hq]%elem_of_cons; [|by apply Hpre].
        intros Heq. apply (Hfresh x Hx). rewrite <- Heq. set_solver.
Qed.

Lemma normalized_titles now_year papers ns :
  mapM (normalize_paper_info now_year) papers = inr ns →
  Forall (fun p => title_lower p = inr (title_key p)) ns.
Proof.
  intros Hm. apply mapM_inr in Hm.
  induction Hm as [|p n r ns' Hn _ IH]; constructor; [|done].
  by apply normalize_title_lower in Hn.
Qed.

(** C2. When [merge_search_results] returns a list, no two of its records
    have the same lowercased normalized title, every input title is
    represented, and a record whose title is that of an external record is
    the first external record of that title: where an external and an
    internal record share a title, the external one is kept. *)
Theorem merge_unique_titles_external_first
        (now_year : Z) (internal external merged : list dict) :
  merge_search_results now_year internal external = inr merged →
  ∃ normalized_internal normalized_external,
    mapM (normalize_paper_info now_year) internal = inr normalized_internal
    ∧ mapM (normalize_paper_info now_year) external = inr normalized_external
    ∧ NoDup (title_key <$> merged)
    ∧ (∀ p, p ∈ normalized_external ++ normalized_internal →
            title_key p ∈ title_key <$> merged)
    ∧ (∀ r e, r ∈ merged → e ∈ normalized_external →
              title_key e = title_key r →
              ∃ pre post, normalized_external = pre ++ r :: post
                          ∧ ∀ q, q ∈ pre → title_key q ≠ title_key r).
Proof.
  unfold merge_search_results. intros Hm.
  apply bind_inr in Hm as (nint & Hint & Hm).
  apply bind_inr in Hm as (next & Hext & Hm).
  apply bind_inr in Hm as ([seen1 merged1] & Hrun1 & Hm).
  apply bind_inr in Hm as ([seen2 merged2] & Hrun2 & Hm).
  injection Hm as <-. simpl in *.
  exists nint, next. split; [done|]. split; [done|].
  apply add_unseen_inv in Hrun1
    as (new1 & -> & Hnd1 & Hs1 & _ & Hcov1 & Hfirst1);
    [|by eapply normalized_titles].
  apply add_unseen_inv in Hrun2
    as (new2 & -> & Hnd2 & Hs2 & Hfresh2 & Hcov2 & _);
    [|by eapply normalized_titles].
  simpl in *. split_and!.
  - rewrite fmap_app. apply NoDup_app. split_and!; [done| |done].
    intros k Hk1 Hk2. apply list_elem_of_fmap in Hk2 as (x & -> & Hx).
    apply (Hfresh2 x Hx), Hs1. by right.
  - intros p [Hp|Hp]%elem_of_app; rewrite fmap_app, elem_of_app.
    + apply Hcov1, Hs1 in Hp as [Hp|Hp]; [set_solver|by left].
    + apply Hcov2, Hs2 in Hp as [Hp|Hp]; [|by right].
      apply Hs1 in Hp as [Hp|Hp]; [set_solver|by left].
  - intros r e [Hr|Hr]%elem_of_app He Heq; [by apply Hfirst1|].
    exfalso. apply (Hfresh2 r Hr). rewrite <- Heq. by apply Hcov1.
Qed.

(** On records whose keywords are well typed the merge returns a list. *)
Lemma merge_total (now_year : Z) (internal external : list dict) :
  Forall keywords_ok internal → Forall keywords_ok external →
  ∃ merged, merge_search_results now_year internal external = inr merged.
Proof.
  intros Hi He. unfold merge_search_results.
  destruct (mapM_normalize_total now_year _ Hi) as [nint Hint].
  destruct (mapM_normalize_total now_year _ He) as [next Hext].
  rewrite Hint, Hext. simpl.
  assert (Hloop : ∀ papers seen merged,
            Forall (fun p => title_lower p = inr (title_key p)) papers →
            ∃ st, add_unseen papers seen merged = inr st).
  { induction papers as [|p r IH]; intros seen merged Hok; simpl; [eauto|].
    apply Forall_cons in Hok as [-> Hok]. simpl.
    case_bool_decide; by apply IH. }
  destruct (Hloop next ∅ [] (normalized_titles _ _ _ Hext)) as [st1 ->]. simpl.
  destruct (Hloop nint st1.1 st1.2 (normalized_titles _ _ _ Hint)) as [st2 ->].
  simpl. eauto.
Qed.

Lemma record_of_lookups t a y ab so url kws ty :
  let n := record_of t a y ab so url kws ty in
  n !! k_title = Some (VStr t) ∧ n !! k_authors = Some (VStr a)
  ∧ n !! k_year = Some (VStr y) ∧ n !! k_abstract = Some (VStr ab)
  ∧ n !! k_source = Some (VStr so) ∧ n !! k_url = url
  ∧ n !! k_keywords = Some (VList (map VStr kws)) ∧ n !! k_type = Some ty.
Proof. unfold record_of. destruct url; split_and!; keys; reflexivity. Qed.

Lemma strings_of_strs kws : strings_of (map VStr kws) = kws.
Proof.
  induction kws as [|k r IH]; simpl; [done|].
  unfold strings_of in *. simpl. by rewrite IH.
Qed.

Lemma record_of_dom t a y ab so url kws ty t' a' y' ab' so' kws' ty' :
  dom (record_of t a y ab so url kws ty)
  = dom (record_of t' a' y' ab' so' url kws' ty').
Proof.
  unfold record_of. destruct url; by rewrite !dom_insert_L, !dom_empty_L.
Qed.

(** A second application of [normalize_paper_info] does not raise and
    keeps the keys, the url and the type of the record. *)
Lemma normalize_again (now_year now_year' : Z) (paper n : dict) :
  normalize_paper_info now_year paper = inr n →
  ∃ n', normalize_paper_info now_year' n = inr n'
        ∧ dom n' = dom n
        ∧ n' !! k_url = n !! k_url
        ∧ n' !! k_type = n !! k_type.
Proof.
  intros Hn. apply normalize_shape in Hn
    as (t & a & y & ab & so & kws & ty & -> & _).
  destruct (record_of_lookups t a y ab so (paper !! k_url) kws ty)
    as (_ & _ & _ & _ & _ & Hurl & Hk & Hty).
  destruct (normalize_total now_year' (record_of t a y ab so (paper !! k_url) kws ty))
    as [n' Hn'].
  { unfold keywords_ok. rewrite Hk. apply Forall_forall.
    intros k (s & -> & _)%list_elem_of_fmap. eauto. }
  exists n'. split; [done|].
  apply normalize_shape in Hn'
    as (t' & a' & y' & ab' & so' & kws' & ty' & -> & _ & _ & _ & _ & _ & _ & Hgiven).
  rewrite (Hgiven _ Hty), Hurl.
  destruct (record_of_lookups t' a' y' ab' so' (paper !! k_url) kws' ty)
    as (_ & _ & _ & _ & _ & Hurl' & _ & Hty').
  split_and!; [apply record_of_dom|congruence..].
Qed.

(** X22. A second application of [normalize_paper_info] never raises and
    keeps the keys, the url and the type; it returns the record itself
    whenever [clean_text] leaves each of its five text fields unchanged
    and [clean_keywords] leaves its keyword list unchanged. *)
Theorem normalize_idempotent_on_clean (now_year now_year' : Z) (paper n : dict) :
  normalize_paper_info now_year paper = inr n →
  (∃ n', normalize_paper_info now_year' n = inr n'
         ∧ dom n' = dom n
         ∧ n' !! k_url = n !! k_url
         ∧ n' !! k_type = n !! k_type)
  ∧ (Forall (fun field => clean_text (text_of n field) = text_of n field)
       text_fields →
     clean_keywords (keywords_of n) = inr (strings_of (keywords_of n)) →
     normalize_paper_info now_year' n = inr n).
Proof.
  intros Hn. split; [by eapply normalize_again|]. intros Htexts Hkws.
  apply normalize_shape in Hn
    as (t & a & y & ab & so & kws & ty & -> & _ & _ & _ & _ & _ & Hempty & _).
  destruct (record_of_lookups t a y ab so (paper !! k_url) kws ty)
    as (Ht & Ha & Hy & Hab & Hso & Hurl & Hk & Hty).
  unfold text_fields in Htexts.
  apply Forall_cons in Htexts as [Ct Htexts].
  apply Forall_cons in Htexts as [Ca Htexts].
  apply Forall_cons in Htexts as [Cy Htexts].
  apply Forall_cons in Htexts as [Cab Htexts].
  apply Forall_cons in Htexts as [Cso _].
  unfold text_of, keywords_of in *.
  rewrite ?Ht, ?Ha, ?Hy, ?Hab, ?Hso, ?Hk in *.
  rewrite strings_of_strs in Hkws.
  unfold normalize_paper_info, text_field.
  rewrite Ht, Ha, Hy, Hab, Hso, Hurl, Hk, Hty. simpl str.
  rewrite Ct, Ca, Cy, Cab, Cso, Hkws. simpl Py.bind.
  replace (match kws with
           | [] => _
           | _ :: _ => kws
           end) with kws; [reflexivity|].
  destruct kws; [|done]. rewrite <- (Hempty eq_refl).
  destruct (paper !! k_url); keys; reflexivity.
Qed.

End CleanerFacts.

(** C2 at the first sample record and an external record of the same
    title. *)
Lemma merge_unique_titles_external_first_witness :
  merge_search_results 2024 [Demo.internal_paper] [Demo.external_paper]
  = inr Demo.merged_demo
  ∧ ∃ normalized_internal normalized_external,
      mapM (normalize_paper_info 2024) [Demo.internal_paper] = inr normalized_internal
      ∧ mapM (normalize_paper_info 2024) [Demo.external_paper] = inr normalized_external
      ∧ NoDup (title_key <$> Demo.merged_demo)
      ∧ (∀ p, p ∈ normalized_external ++ normalized_internal →
              title_key p ∈ title_key <$> Demo.merged_demo)
      ∧ (∀ r e, r ∈ Demo.merged_demo → e ∈ normalized_external →
                title_key e = title_key r →
                ∃ pre post, normalized_external = pre ++ r :: post
                            ∧ ∀ q, q ∈ pre → title_key q ≠ title_key r).
Proof.
  assert (Hrun : merge_search_results 2024 [Demo.internal_paper] [Demo.external_paper]
                 = inr Demo.merged_demo) by (vm_compute; reflexivity).
  split; [exact Hrun|].
  exact (merge_unique_titles_external_first 2024 _ _ _ Hrun).
Defined.

(** C6. The code at the failing input: [clean_keywords] strips the
    keyword before it removes the punctuation, so ['- abc'] is cleaned to
    [' abc'], with the space the strip was there to remove; the second
    application strips it, and the record changes again. *)
Lemma normalize_not_idempotent :
  normalize_paper_info 2024 Demo.dash_paper = inr Demo.dash_once
  ∧ normalize_paper_info 2024 Demo.dash_once = inr Demo.dash_twice
  ∧ keywords_of Demo.dash_once = [VStr (u " abc")]
  ∧ keywords_of Demo.dash_twice = [VStr (u "abc")]
  ∧ Demo.dash_twice ≠ Demo.dash_once.
Proof.
  split_and!; try (vm_compute; reflexivity).
  intros Heq. apply (f_equal keywords_of) in Heq.
  vm_compute in Heq. discriminate Heq.
Qed.

(** X22 at the first sample record. *)
Lemma normalize_idempotent_on_clean_witness :
  normalize_paper_info 2025 (Demo.normalized_once Demo.internal_paper)
  = inr (Demo.normalized_once Demo.internal_paper).
Proof.
  apply (normalize_idempotent_on_clean 2024 2025 Demo.internal_paper).
  - vm_compute. reflexivity.
  - repeat constructor; vm_compute; reflexivity.
  - vm_compute. reflexivity.
Defined.

End CleanerFacts.

(** ** The cache *)

Module CacheFacts.
Import Cleaner CleanerFacts.

(** [json.dump] completes on a dict when it does on every key and
    value. *)
Lemma json_encodable_dict (d : dict) :
  json_encodable (VDict d) = true
  ↔ map_Forall (fun k x => encodable k = true ∧ json_encodable x = true) d.
Proof.
  simpl.
  apply (map_fold_weak_ind
           (fun r m => r = true
                       ↔ map_Forall (fun k x => encodable k = true
                                                ∧ json_encodable x = true) m)).
  - split; [intros _; apply map_Forall_empty|done].
  - intros k x m r Hk IH. rewrite map_Forall_insert by done.
    rewrite !andb_true_iff, IH. tauto.
Qed.

Section CacheFacts.
Context {U : Unicode} {P : Process} {H : Host}.

(** The entry of [save_to_cache] can be written when the key, the
    timestamp and the payload can. *)
Lemma cache_data_encodable (now : Z) (key : pystr) (data : value) :
  json_encodable
    (VDict (<[k_data := data]>
              (<[k_timestamp := VStr (isoformat now)]> (<[k_key := VStr key]> ∅))))
  = true
  ↔ encodable key = true ∧ encodable (isoformat now) = true
    ∧ json_encodable data = true.
Proof.
  rewrite json_encodable_dict.
  rewrite !map_Forall_insert by (keys; reflexivity).
  assert (Hk : ∀ k, k ∈ [k_data; k_timestamp; k_key] → encodable k = true).
  { intros k Hk. repeat (apply elem_of_cons in Hk as [->|Hk]; [reflexivity|]).
    by apply elem_of_nil in Hk. }
  pose proof (Hk k_data ltac:(set_solver)).
  pose proof (Hk k_timestamp ltac:(set_solver)).
  pose proof (Hk k_key ltac:(set_solver)).
  pose proof (map_Forall_empty
                (fun (k : pystr) (x : value) =>
                   encodable k = true ∧ json_encodable x = true)).
  simpl. tauto.
Qed.


Lemma save_to_cache_written (now : Z) (key : pystr) (data : value)
      (cache_dir : pystr) (files : fs) :
  (save_to_cache now key data cache_dir files).1 = true →
  (save_to_cache now key data cache_dir files).2
    !! cache_file_of cache_dir key
  = Some (Json (VDict (<[k_data := data]>
                         (<[k_timestamp := VStr (isoformat now)]>
                            (<[k_key := VStr key]> ∅))))).
Proof.
  unfold save_to_cache, io_try, io_bind, makedirs, open_w, json_dump, io_ret.
  destruct cache_dir as [|c r]; [discriminate|].
  destruct (makedirs_ok (c :: r)); [|discriminate].
  destruct (open_w_ok _); [|discriminate].
  destruct (json_encodable _); [|discriminate].
  intros _. simpl. apply lookup_insert_eq.
Qed.

Context {L : ProcessLaws P}.

(** The entry a successful [save_to_cache] writes is read back by every
    key that leads to the same file, as long as it is not older than
    [max_age_hours]. *)
Lemma load_after_save (key key' : pystr) (data : value) (cache_dir : pystr)
      (max_age_hours : Z) (files : fs) (now_save now_load : Z) :
  (save_to_cache now_save key data cache_dir files).1 = true →
  cache_file_of cache_dir key' = cache_file_of cache_dir key →
  (now_load - now_save ≤ max_age_hours * us_per_hour)%Z →
  load_from_cache now_load key' max_age_hours cache_dir
    (save_to_cache now_save key data cache_dir files).2 = data.
Proof.
  intros Hsaved Hfile Hage. unfold load_from_cache.
  rewrite Hfile, (save_to_cache_written _ _ _ _ _ Hsaved). simpl. keys. simpl.
  rewrite fromisoformat_isoformat. simpl.
  destruct (Z.ltb_spec (max_age_hours * us_per_hour) (now_load - now_save));
    [lia|].
  simpl. keys. reflexivity.
Qed.


(** C10. [load_from_cache] finds the entry by the file name derived from
    the hash alone and does not look at the stored key: when two distinct
    keys have one hash and a payload was written under the first
    ([save_to_cache] returned [True]), reading with the second key
    returns that payload (whose key on file is still the first). *)
Theorem cache_collision_reads_other_entry (key1 key2 : pystr) (data : value)
        (cache_dir : pystr) (max_age_hours : Z) (files : fs)
        (now_save now_load : Z) :
  key1 ≠ key2 →
  hash key1 = hash key2 →
  (save_to_cache now_save key1 data cache_dir files).1 = true →
  (now_load - now_save ≤ max_age_hours * us_per_hour)%Z →
  let files' := (save_to_cache now_save key1 data cache_dir files).2 in
  load_from_cache now_load key2 max_age_hours cache_dir files' = data
  ∧ ∃ entry, files' !! cache_file_of cache_dir key2 = Some (Json (VDict entry))
             ∧ entry !! k_key = Some (VStr key1).
Proof.
  intros Hne Hhash Hsaved Hage. simpl.
  assert (Hfile : cache_file_of cache_dir key2 = cache_file_of cache_dir key1).
  { unfold cache_file_of. by rewrite Hhash. }
  split; [by apply load_after_save|].
  rewrite Hfile, (save_to_cache_written _ _ _ _ _ Hsaved).
  eexists. split; [reflexivity|]. keys. reflexivity.
Qed.

End CacheFacts.

#[export] Instance demo_process_laws : ProcessLaws demo_process.
Proof.
  constructor. intros t. simpl.
  destruct (Z.ltb_spec t 0) as [Hneg|Hpos].
  - destruct (N.eqb_spec (Z.to_N (- t)) 0) as [Hz|_]; [lia|].
    simpl. f_equal. lia.
  - f_equal. lia.
Qed.



(** C10 in the demo process, where two keys of one length collide. *)
Lemma cache_collision_reads_other_entry_witness :
  let files' := (save_to_cache 0 (u "ab") (VStr (u "payload of ab"))
                   default_cache_dir ∅).2 in
  load_from_cache 1 (u "cd") default_max_age_hours default_cache_dir files'
  = VStr (u "payload of ab")
  ∧ ∃ entry, files' !! cache_file_of default_cache_dir (u "cd")
             = Some (Json (VDict entry))
             ∧ entry !! k_key = Some (VStr (u "ab")).
Proof.
  apply (cache_collision_reads_other_entry (u "ab") (u "cd")
           (VStr (u "payload of ab")) default_cache_dir default_max_age_hours ∅ 0 1).
  - vm_compute. discriminate.
  - vm_compute. reflexivity.
  - vm_compute. reflexivity.
  - vm_compute. discriminate.
Defined.

End CacheFacts.

(** ** Search *)

Module SearchFacts.
Import Cleaner.

(** C8 as stated fails on the search the application runs: the keywords
    extracted from the topic are filled up with the generic words, two of
    which occur in titles of the sample set. *)
Lemma absent_topic_search_not_empty :
  Nlp.extract_keywords Demo.absent_topic 5
  = [Demo.absent_topic; u "연구"; u "분석"; u "효과"; u "방법"]
  ∧ Scholar.search_internal_db Scholar.sample_db Demo.absent_topic
      (Nlp.extract_keywords Demo.absent_topic 5)
    = [Scholar.sample_paper_1; Scholar.sample_paper_2]
  ∧ Scholar.search_internal_db Scholar.sample_db Demo.absent_topic
      (Nlp.extract_keywords Demo.absent_topic 5) ≠ []
  ∧ Router.search_papers Demo.offline Scholar.sample_db
      {| Router.topic := Demo.absent_topic; Router.keywords := None |}
    = [Scholar.sample_paper_1; Scholar.sample_paper_2].
Proof.
  split_and!; try (vm_compute; reflexivity).
  vm_compute. discriminate.
Qed.

(** C8, amended. The topic itself matches no record of the sample set:
    searched with an empty keyword list, or with the topic as its only
    keyword, it gives the empty list; searched with the keywords
    [extract_keywords] derives from it, it gives the first two records. *)
Theorem absent_topic_search :
  Scholar.search_internal_db Scholar.sample_db Demo.absent_topic [] = []
  ∧ Scholar.search_internal_db Scholar.sample_db Demo.absent_topic
      [Demo.absent_topic] = []
  ∧ Scholar.search_internal_db Scholar.sample_db Demo.absent_topic
      (Nlp.extract_keywords Demo.absent_topic 5)
    = [Scholar.sample_paper_1; Scholar.sample_paper_2]
  ∧ Scholar.load_internal_db None = Scholar.sample_db.
Proof. split_and!; vm_compute; reflexivity. Qed.

Section SearchFacts.
Context {U : Unicode}.
Variable http_get : pystr -> pystr -> Scholar.http_outcome.

Lemma search_papers_concat (internal_db : value) (request : Router.TopicRequest) :
  Router.search_papers http_get internal_db request
  = Scholar.search_internal_db internal_db (Router.topic request)
      (Router.request_keywords request)
    ++ Scholar.search_external_api http_get (Router.topic request)
         (Router.request_keywords request).
Proof.
  unfold Router.search_papers, Router.request_keywords.
  destruct (Router.keywords request) as [[|k ks]|]; reflexivity.
Qed.

End SearchFacts.

(** C9. The combined search hands the response model the internal
    results followed by the external results, as they are.  With an
    internal DB holding two records of one title up to case, both are
    returned, with their markup, where [merge_search_results] on the same
    two lists keeps one normalized record. *)
Theorem search_papers_plain_concatenation :
  (∀ (U : Unicode) http_get internal_db request,
     Router.search_papers http_get internal_db request
     = Scholar.search_internal_db internal_db (Router.topic request)
         (Router.request_keywords request)
       ++ Scholar.search_external_api http_get (Router.topic request)
            (Router.request_keywords request))
  ∧ Router.search_papers Demo.offline Demo.twin_db Demo.solar_request
    = [Demo.twin_1; Demo.twin_2]
  ∧ lower (text_of (Demo.as_dict Demo.twin_1) k_title)
    = lower (text_of (Demo.as_dict Demo.twin_2) k_title)
  ∧ (∃ merged,
       merge_search_results 2024
         (Demo.as_dict <$> Router.search_papers Demo.offline Demo.twin_db
                             Demo.solar_request) []
       = inr [merged]
       ∧ text_of merged k_title = u "Solar Cells"
       ∧ merged ≠ Demo.as_dict Demo.twin_1
       ∧ merged ≠ Demo.as_dict Demo.twin_2).
Proof.
  split_and!.
  - intros. apply search_papers_concat.
  - vm_compute. reflexivity.
  - vm_compute. reflexivity.
  - eexists. split_and!.
    + vm_compute. reflexivity.
    + vm_compute. reflexivity.
    + intros Heq. apply (f_equal (fun d => text_of d k_title)) in Heq.
      vm_compute in Heq. discriminate Heq.
    + intros Heq. apply (f_equal (fun d => text_of d k_title)) in Heq.
      vm_compute in Heq. discriminate Heq.
Qed.

End SearchFacts.

(** ** Content generation *)

Module AgentFacts.
Import Cleaner CleanerFacts Agent.

Section AgentFacts.
Context {U : Unicode} {P : Process}.
Variable creds : credentials.
Variable http_post : nat -> pystr -> Z -> post_outcome.

Lemma mbind_inr {A B} (m : M A) (k : A → M B) (w w' : world) (b : B) :
  mbind m k w = (inr b, w') →
  ∃ a w1, m w = (inr a, w1) ∧ k a w1 = (inr b, w').
Proof.
  unfold mbind. destruct (m w) as [[e|a] w1]; [discriminate|eauto].
Qed.

Lemma lift_inr {A} (r : result A) (w w' : world) (a : A) :
  lift r w = (inr a, w') → r = inr a ∧ w' = w.
Proof. unfold lift. intros [= -> ->]. done. Qed.

(** [call_llm_api] returns a value and leaves the files alone. *)
Lemma call_llm_api_returns prompt max_tokens w :
  ∃ v w', call_llm_api creds http_post prompt max_tokens w = (inr v, w')
          ∧ files w' = files w.
Proof.
  unfold call_llm_api. destruct (available_llms creds) as [|[] ?]; eauto.
  destruct (http_post (posts w) prompt max_tokens) as [[| [] |] body|]; eauto.
  repeat
    match goal with
    | |- context [match ?p with xI _ => _ | xO _ => _ | xH => _ end] =>
      destruct p
    end; eauto.
Qed.

Lemma call_llm_api_files prompt max_tokens w r w' :
  call_llm_api creds http_post prompt max_tokens w = (r, w') → files w' = files w.
Proof.
  intros Hc. destruct (call_llm_api_returns prompt max_tokens w)
    as (v & w1 & Hv & Hf). congruence.
Qed.

Lemma slice_to_5_length {A} (l : list A) :
  (5 ≤ length l)%nat → length (slice_to 5 l) = 5%nat.
Proof. intros Hl. rewrite NlpFacts.slice_to_length by lia. lia. Qed.

(** Lines 299 to 311 leave exactly five topics, whatever was parsed. *)
Lemma pad_niche_topics_length (topic : pystr) (niche_topics : list pystr) :
  length (pad_niche_topics topic niche_topics) = 5%nat.
Proof.
  unfold pad_niche_topics.
  destruct (Nat.ltb_spec (length niche_topics) 5) as [Hlt|Hge].
  - apply slice_to_5_length. rewrite length_app.
    rewrite NlpFacts.slice_to_length by lia. simpl length. lia.
  - by apply slice_to_5_length.
Qed.

(** What a completed assembly returns and leaves behind. *)
Lemma assemble_paper_inv cache_file topic paper_info w content w' :
  assemble_paper creds http_post cache_file topic paper_info w = (inr content, w') →
  ∃ (d : dict) (lines : list pystr),
    content = VDict d
    ∧ dom d = paper_keys
    ∧ d !! k_niche_topics
      = Some (VList (map VStr (pad_niche_topics topic (omap niche_line lines))))
    ∧ files w' = <[cache_file := Json content]> (files w).
Proof.
  unfold assemble_paper. intros Hrun.
  apply mbind_inr in Hrun as (keywords & w1 & [_ ->]%lift_inr & Hrun).
  apply mbind_inr in Hrun as (intro & w2 & Hf2%call_llm_api_files & Hrun).
  apply mbind_inr in Hrun as (meth & w3 & Hf3%call_llm_api_files & Hrun).
  apply mbind_inr in Hrun as (res & w4 & Hf4%call_llm_api_files & Hrun).
  apply mbind_inr in Hrun as (concl & w5 & Hf5%call_llm_api_files & Hrun).
  apply mbind_inr in Hrun as (fk & w6 & [_ ->]%lift_inr & Hrun).
  apply mbind_inr in Hrun as (text & w7 & Hf7%call_llm_api_files & Hrun).
  apply mbind_inr in Hrun as (lines & w8 & [_ ->]%lift_inr & Hrun).
  apply mbind_inr in Hrun as (intro' & w9 & [_ ->]%lift_inr & Hrun).
  apply mbind_inr in Hrun as (meth' & w10 & [_ ->]%lift_inr & Hrun).
  apply mbind_inr in Hrun as (res' & w11 & [_ ->]%lift_inr & Hrun).
  apply mbind_inr in Hrun as (concl' & w12 & [_ ->]%lift_inr & Hrun).
  unfold mbind, write_json, mret in Hrun. injection Hrun as <- <-.
  eexists _, lines. split_and!; [reflexivity| |by keys|].
  - rewrite !dom_insert_L, dom_empty_L. unfold paper_keys. simpl. set_solver.
  - simpl. congruence.
Qed.

Lemma assemble_niche_inv cache_file topic niche_topic w content w' :
  assemble_niche creds http_post cache_file topic niche_topic w = (inr content, w') →
  ∃ d : dict,
    content = VDict d ∧ dom d = niche_keys
    ∧ files w' = <[cache_file := Json content]> (files w).
Proof.
  unfold assemble_niche. intros Hrun.
  apply mbind_inr in Hrun as (intro & w2 & Hf2%call_llm_api_files & Hrun).
  apply mbind_inr in Hrun as (meth & w3 & Hf3%call_llm_api_files & Hrun).
  apply mbind_inr in Hrun as (res & w4 & Hf4%call_llm_api_files & Hrun).
  apply mbind_inr in Hrun as (intro' & w9 & [_ ->]%lift_inr & Hrun).
  apply mbind_inr in Hrun as (meth' & w10 & [_ ->]%lift_inr & Hrun).
  apply mbind_inr in Hrun as (res' & w11 & [_ ->]%lift_inr & Hrun).
  unfold mbind, write_json, mret in Hrun. injection Hrun as <- <-.
  eexists. split_and!; [reflexivity| |].
  - rewrite !dom_insert_L, dom_empty_L. unfold niche_keys. simpl. set_solver.
  - simpl. congruence.
Qed.

Lemma paper_error_keys : keys_of paper_error_content = Some paper_keys.
Proof. vm_compute. reflexivity. Qed.

Lemma niche_error_keys : keys_of niche_error_content = Some niche_keys.
Proof. vm_compute. reflexivity. Qed.

(** C4. Both operations return a value in every world.  When the [try]
    block raises, the caller receives the canned content; its keys are
    those of an assembled content: introduction, methods, results,
    conclusion, references, disclaimer and niche_topics for a paper,
    introduction, methods, expected_results and disclaimer for a niche
    topic. *)
Theorem generation_never_raises
        (topic niche_topic : pystr) (paper_info : dict) (w : world) :
  (∀ e w', paper_body creds http_post topic paper_info w = (inl e, w') →
     generate_paper_content creds http_post topic paper_info w
     = (paper_error_content, w'))
  ∧ (∀ v w', paper_body creds http_post topic paper_info w = (inr v, w') →
       generate_paper_content creds http_post topic paper_info w = (v, w'))
  ∧ keys_of paper_error_content = Some paper_keys
  ∧ (∀ cache_file content w',
       assemble_paper creds http_post cache_file topic paper_info w
       = (inr content, w') →
       keys_of content = Some paper_keys)
  ∧ (∀ e w', niche_body creds http_post topic niche_topic w = (inl e, w') →
       generate_niche_content creds http_post topic niche_topic w
       = (niche_error_content, w'))
  ∧ (∀ v w', niche_body creds http_post topic niche_topic w = (inr v, w') →
       generate_niche_content creds http_post topic niche_topic w = (v, w'))
  ∧ keys_of niche_error_content = Some niche_keys
  ∧ (∀ cache_file content w',
       assemble_niche creds http_post cache_file topic niche_topic w
       = (inr content, w') →
       keys_of content = Some niche_keys).
Proof.
  unfold generate_paper_content, generate_niche_content, or_else.
  split_and!.
  - by intros e w' ->.
  - by intros v w' ->.
  - apply paper_error_keys.
  - intros cf content w' (d & lines & -> & Hd & _)%assemble_paper_inv.
    simpl. by rewrite Hd.
  - by intros e w' ->.
  - by intros v w' ->.
  - apply niche_error_keys.
  - intros cf content w' (d & -> & Hd & _)%assemble_niche_inv.
    simpl. by rewrite Hd.
Qed.

(** C3, amended. Whatever text the backend returns, the topics parsed
    from it are filled up and cut to exactly five, so a content that was
    assembled without an exception carries exactly five niche topics; the
    canned content of the [except] branch carries one notice instead. *)
Theorem niche_topics_five_when_assembled
        (cache_file topic : pystr) (paper_info : dict) (w : world) :
  (∀ text : pystr,
     length (pad_niche_topics topic (omap niche_line (split_on 10 text))) = 5%nat)
  ∧ (∀ content w',
       assemble_paper creds http_post cache_file topic paper_info w
       = (inr content, w') →
       ∃ l, niche_topics_of content = Some l ∧ length l = 5%nat)
  ∧ (∃ notice, niche_topics_of paper_error_content = Some [notice]).
Proof.
  split_and!.
  - intros text. apply pad_niche_topics_length.
  - intros content w' (d & lines & -> & _ & Hn & _)%assemble_paper_inv.
    simpl. rewrite Hn. eexists. split; [reflexivity|].
    by rewrite length_map, pad_niche_topics_length.
  - eexists. vm_compute. reflexivity.
Qed.

Lemma read_cache_hit path v w :
  files w !! path = Some (Json v) → read_cache path w = (inr (Some v), w).
Proof. unfold read_cache. by intros ->. Qed.

(** A cached content is returned as it is; nothing is written and the
    backend is not asked. *)
Lemma paper_body_hit topic paper_info path v w :
  paper_cache_file topic paper_info = inr path →
  files w !! path = Some (Json v) →
  paper_body creds http_post topic paper_info w = (inr v, w).
Proof.
  intros Hpath Hfile. unfold paper_body, mbind, lift.
  by rewrite Hpath, (read_cache_hit _ _ _ Hfile).
Qed.

End AgentFacts.

(** C7. The cache probe of [generate_paper_content] reads no clock: when
    the cache file of (topic, paper_info) exists and parses, the operation
    returns its value and leaves the world as it is, so the file is still
    there and a second call returns the same value, whatever the backend
    would answer.  When the file is missing or does not parse and the
    assembly completes, the content is written to the file and the second
    call returns the content of the first. *)
Theorem paper_cache_served_without_ttl
        {U : Unicode} {P : Process} (creds : credentials)
        (http_post http_post' : nat -> pystr -> Z -> post_outcome)
        (topic : pystr) (paper_info : dict) (path : pystr) (w : world) :
  paper_cache_file topic paper_info = inr path →
  (∀ v, files w !! path = Some (Json v) →
     generate_paper_content creds http_post topic paper_info w = (v, w)
     ∧ files (generate_paper_content creds http_post topic paper_info w).2 !! path
       = Some (Json v)
     ∧ generate_paper_content creds http_post' topic paper_info
         (generate_paper_content creds http_post topic paper_info w).2
       = (v, w))
  ∧ (∀ content w1,
       read_cache path w = (inr None, w) →
       assemble_paper creds http_post path topic paper_info w = (inr content, w1) →
       generate_paper_content creds http_post topic paper_info w = (content, w1)
       ∧ files w1 !! path = Some (Json content)
       ∧ generate_paper_content creds http_post' topic paper_info w1
         = (content, w1)).
Proof.
  intros Hpath. split.
  - intros v Hfile.
    assert (Hgen : ∀ post, generate_paper_content creds post topic paper_info w
                           = (v, w)).
    { intros post. unfold generate_paper_content, or_else.
      by rewrite (paper_body_hit creds post _ _ _ _ _ Hpath Hfile). }
    rewrite !Hgen. simpl. rewrite ?Hgen. auto.
  - intros content w1 Hmiss Hrun.
    assert (Hfile : files w1 !! path = Some (Json content)).
    { apply assemble_paper_inv in Hrun as (d & lines & _ & _ & _ & ->).
      apply lookup_insert_eq. }
    split_and!; [|done|].
    + unfold generate_paper_content, or_else, paper_body, mbind, lift.
      by rewrite Hpath, Hmiss, Hrun.
    + unfold generate_paper_content, or_else.
      by rewrite (paper_body_hit creds http_post' _ _ _ _ _ Hpath Hfile).
Qed.

(** C3 as stated fails.  With an empty keyword list the references cannot
    be written ([...][0] raises); with a backend whose content is null the
    text cannot be split into lines.  In both cases the canned content is
    returned, with a single entry under [niche_topics]. *)
Lemma niche_topics_single_on_fallback :
  first_item (dict_get Demo.paper_without_keywords k_keywords
                (VList [VStr (u "research")])) = inl IndexError
  ∧ niche_topics_of
      (generate_paper_content Demo.no_credentials Demo.no_answer Demo.topic
         Demo.paper_without_keywords Demo.empty_world).1
    = Some [VStr (u "오류로 인해 틈새 주제를 생성할 수 없습니다.")]
  ∧ ¬ (∃ l, niche_topics_of
              (generate_paper_content Demo.no_credentials Demo.no_answer
                 Demo.topic Demo.paper_without_keywords Demo.empty_world).1
            = Some l ∧ length l = 5%nat)
  ∧ lines_of VNone = inl AttributeError
  ∧ niche_topics_of
      (generate_paper_content Demo.openai_only Demo.null_content Demo.topic
         Demo.internal_paper Demo.empty_world).1
    = Some [VStr (u "오류로 인해 틈새 주제를 생성할 수 없습니다.")].
Proof.
  split_and!; try (vm_compute; reflexivity).
  intros (l & Hl & Hlen). vm_compute in Hl. injection Hl as <-.
  discriminate Hlen.
Qed.

(** C3, amended, in the first end-to-end scenario. *)
Lemma niche_topics_five_when_assembled_witness :
  ∃ l, niche_topics_of Demo.first_call.1 = Some l ∧ length l = 5%nat.
Proof.
  apply (proj1 (proj2 (niche_topics_five_when_assembled Demo.openai_only
                         Demo.two_bullets Demo.paper_path Demo.topic
                         Demo.internal_paper Demo.empty_world))
           Demo.first_call.1 Demo.first_call.2).
  vm_compute. reflexivity.
Defined.

(** C4 at the record without keywords: the exception is answered by the
    canned content. *)
Lemma generation_never_raises_witness :
  generate_paper_content Demo.no_credentials Demo.no_answer Demo.topic
    Demo.paper_without_keywords Demo.empty_world
  = (paper_error_content, Demo.empty_world)
  ∧ keys_of Demo.first_call.1 = Some paper_keys.
Proof.
  split.
  - apply (proj1 (generation_never_raises Demo.no_credentials Demo.no_answer
                    Demo.topic [] Demo.paper_without_keywords Demo.empty_world)
             IndexError Demo.empty_world).
    vm_compute. reflexivity.
  - apply (proj1 (proj2 (proj2 (proj2
             (generation_never_raises Demo.openai_only Demo.two_bullets
                Demo.topic [] Demo.internal_paper Demo.empty_world))))
             Demo.paper_path Demo.first_call.1 Demo.first_call.2).
    vm_compute. reflexivity.
Defined.

(** C7 in the third end-to-end scenario: the first call writes the file,
    the second is served from it although the backend has gone. *)
Lemma paper_cache_served_without_ttl_witness :
  files Demo.first_call.2 !! Demo.paper_path = Some (Json Demo.first_call.1)
  ∧ generate_paper_content Demo.openai_only Demo.no_answer Demo.topic
      Demo.internal_paper Demo.first_call.2
    = Demo.first_call.
Proof.
  assert (Hpath : paper_cache_file Demo.topic Demo.internal_paper
                  = inr Demo.paper_path) by (vm_compute; reflexivity).
  assert (Hmiss : read_cache Demo.paper_path Demo.empty_world
                  = (inr None, Demo.empty_world)) by (vm_compute; reflexivity).
  assert (Hrun : assemble_paper Demo.openai_only Demo.two_bullets
                   Demo.paper_path Demo.topic Demo.internal_paper
                   Demo.empty_world
                 = (inr Demo.first_call.1, Demo.first_call.2))
    by (vm_compute; reflexivity).
  destruct (proj2 (paper_cache_served_without_ttl Demo.openai_only
                     Demo.two_bullets Demo.no_answer Demo.topic
                     Demo.internal_paper Demo.paper_path Demo.empty_world
                     Hpath) _ _ Hmiss Hrun) as (_ & Hfile & Hsecond).
  split; [exact Hfile|]. rewrite Hsecond. by destruct Demo.first_call.
Defined.

End AgentFacts.

(* ===================================================================== *)
(** * Further properties                                                  *)
(* ===================================================================== *)

(** ** The keyword extractor: counts, order, bounds *)

Module NlpMore.
Import Nlp NlpFacts Rest.

Section NlpMore.
Context {U : Unicode}.

Lemma occurrences_nonneg w l : (0 ≤ occurrences w l)%Z.
Proof.
  induction l as [|x r IH]; simpl; [lia|].
  destruct (str_eqb x w); lia.
Qed.

Lemma occurrences_pos w l : (0 < occurrences w l)%Z ↔ w ∈ l.
Proof.
  induction l as [|x r IH]; simpl.
  - rewrite elem_of_nil. lia.
  - rewrite elem_of_cons. unfold str_eqb. pose proof (occurrences_nonneg w r).
    case_bool_decide; subst; [split; [auto|lia]|].
    rewrite <- IH. split; [intros; right; lia|intros [?|?]; [congruence|lia]].
Qed.

Lemma bump_assoc x w wf :
  assoc x (bump w wf)
  = if str_eqb w x then Some (default 0 (assoc w wf) + 1)%Z else assoc x wf.
Proof.
  induction wf as [|[k n] r IH]; simpl; unfold str_eqb in *.
  - by case_bool_decide.
  - destruct (decide (k = w)) as [->|Hkw].
    + rewrite !bool_decide_eq_true_2 by done. simpl. unfold str_eqb.
      by case_bool_decide.
    + rewrite !(bool_decide_eq_false_2 _ Hkw). simpl. unfold str_eqb.
      rewrite IH.
      destruct (decide (k = x)) as [->|Hkx].
      * rewrite bool_decide_eq_true_2 by done.
        by rewrite bool_decide_eq_false_2 by congruence.
      * by rewrite (bool_decide_eq_false_2 _ Hkx).
Qed.

(** The loop over the words adds, for each word, its number of
    qualifying occurrences. *)
Lemma count_from_assoc words : ∀ acc x,
  assoc x (fold_left (fun wf w => if qualifies w then bump w wf else wf) words acc)
  = let c := occurrences x (List.filter qualifies words) in
    match assoc x acc with
    | Some n => Some (n + c)%Z
    | None => if (c =? 0)%Z then None else Some c
    end.
Proof.
  induction words as [|w r IH]; intros acc x; simpl.
  - destruct (assoc x acc); [f_equal; lia|done].
  - destruct (qualifies w) eqn:Hq; simpl; [|apply IH].
    rewrite IH, bump_assoc. simpl. unfold str_eqb.
    pose proof (occurrences_nonneg x (List.filter qualifies r)) as Hc.
    case_bool_decide; subst.
    + destruct (assoc x acc); simpl; [f_equal; lia|].
      destruct (Z.eqb_spec (1 + occurrences x (List.filter qualifies r)) 0);
        [lia|f_equal; lia].
    + destruct (assoc x acc); simpl; [done|]. done.
Qed.

Lemma assoc_elem_of w n wf :
  NoDup wf.*1 → (w, n) ∈ wf ↔ assoc w wf = Some n.
Proof.
  induction wf as [|[k m] r IH]; simpl; intros Hnd.
  - rewrite elem_of_nil. split; [done|discriminate].
  - apply NoDup_cons in Hnd as [Hk Hnd]. rewrite elem_of_cons, (IH Hnd).
    unfold str_eqb. destruct (decide (k = w)) as [->|Hne].
    + rewrite bool_decide_eq_true_2 by done. split.
      * intros [Heq|Hin]; [by injection Heq as ->|].
        exfalso. apply Hk. apply (IH Hnd) in Hin.
        apply list_elem_of_fmap. by exists (w, n).
      * intros [= ->]. by left.
    + rewrite (bool_decide_eq_false_2 _ Hne).
      split; [intros [Heq|Hin]; [congruence|done]|by right].
Qed.

Lemma count_words_NoDup words : NoDup (count_words words).*1.
Proof.
  unfold count_words. destruct (count_from_keys words []) as [Hnd _].
  apply Hnd. constructor.
Qed.

Lemma elem_of_distinct_qualifying text w :
  w ∈ distinct_qualifying text ↔ w ∈ List.filter qualifies (tokens text).
Proof.
  unfold distinct_qualifying.
  rewrite elem_of_remove_dups, list_elem_of_filter, Is_true_true.
  split.
  - intros [Hq Hin]. apply list_elem_of_In, filter_In.
    split; [by apply list_elem_of_In|done].
  - intros [Hin Hq]%list_elem_of_In%filter_In.
    split; [done|by apply list_elem_of_In].
Qed.

Lemma word_freq_counts (text w : pystr) (n : Z) :
  (w, n) ∈ count_words (tokens text)
  ↔ w ∈ distinct_qualifying text ∧ n = frequency text w ∧ (1 ≤ n)%Z.
Proof.
  rewrite (assoc_elem_of _ _ _ (count_words_NoDup _)).
  unfold count_words. rewrite count_from_assoc. simpl.
  rewrite elem_of_distinct_qualifying, <- occurrences_pos.
  unfold frequency.
  destruct (Z.eqb_spec (occurrences w (List.filter qualifies (tokens text))) 0)
    as [Hz|Hnz].
  - split; [discriminate|lia].
  - pose proof (occurrences_nonneg w (List.filter qualifies (tokens text))).
    split; [intros [= <-]; lia|intros (_ & -> & _); done].
Qed.

(** X1. The dict [word_freq] built by the loop holds, for each distinct
    qualifying token and for nothing else, the number of times the token
    occurs among the qualifying tokens; every count is at least one. *)
Theorem word_freq_exact_counts (text w : pystr) (n : Z) :
  (w, n) ∈ count_words (tokens text)
  ↔ w ∈ distinct_qualifying text ∧ n = frequency text w ∧ (1 ≤ n)%Z.
Proof. exact (word_freq_counts text w n). Qed.

Lemma insert_desc_perm x l : insert_desc x l ≡ₚ x :: l.
Proof.
  induction l as [|y r IH]; simpl; [done|].
  destruct (y.2 <? x.2)%Z; [done|]. rewrite IH. apply Permutation_swap.
Qed.

Lemma sorted_desc_from_perm items : ∀ acc,
  fold_left (fun a x => insert_desc x a) items acc ≡ₚ acc ++ items.
Proof.
  induction items as [|x r IH]; intros acc; simpl.
  - by rewrite app_nil_r.
  - rewrite IH, insert_desc_perm. simpl. apply Permutation_middle.
Qed.

Lemma sorted_desc_perm items : sorted_desc items ≡ₚ items.
Proof. apply sorted_desc_from_perm. Qed.

Lemma insert_desc_sorted x l :
  StronglySorted freq_ge l → StronglySorted freq_ge (insert_desc x l).
Proof.
  induction 1 as [|y r Hr IH Hy]; simpl.
  - repeat constructor.
  - destruct (Z.ltb_spec y.2 x.2) as [Hlt|Hge].
    + constructor; [by constructor|]. constructor; [unfold freq_ge; lia|].
      eapply Forall_impl; [exact Hy|]. unfold freq_ge. intros; simpl in *; lia.
    + constructor; [done|].
      rewrite insert_desc_perm. constructor; [unfold freq_ge; lia|done].
Qed.

Lemma sorted_desc_sorted items : StronglySorted freq_ge (sorted_desc items).
Proof.
  unfold sorted_desc.
  assert (Hgen : ∀ acc, StronglySorted freq_ge acc →
            StronglySorted freq_ge (fold_left (fun a x => insert_desc x a) items acc)).
  { induction items as [|x r IH]; intros acc Hacc; simpl; [done|].
    by apply IH, insert_desc_sorted. }
  apply Hgen. constructor.
Qed.

(** Items of one frequency keep their relative order (the sort is
    stable). *)
Lemma insert_desc_stable n x l :
  StronglySorted freq_ge l →
  List.filter (fun p => (p.2 =? n)%Z) (insert_desc x l)
  = List.filter (fun p => (p.2 =? n)%Z) l
    ++ (if (x.2 =? n)%Z then [x] else []).
Proof.
  induction 1 as [|y r Hr IH Hy]; simpl; [by destruct (x.2 =? n)%Z|].
  destruct (Z.ltb_spec y.2 x.2) as [Hlt|Hge]; simpl.
  - destruct (Z.eqb_spec x.2 n) as [Hx|Hx]; [|by rewrite app_nil_r].
    destruct (Z.eqb_spec y.2 n) as [Hyn|_]; [lia|].
    assert (Hnone : List.filter (fun p => (p.2 =? n)%Z) r = []).
    { clear IH Hr. induction r as [|z r IHr]; simpl; [done|].
      apply Forall_cons in Hy as [Hz Hy]. unfold freq_ge in Hz.
      destruct (Z.eqb_spec z.2 n); [lia|]. by apply IHr. }
    by rewrite Hnone.
  - rewrite IH. by destruct (y.2 =? n)%Z.
Qed.

Lemma sorted_desc_stable n items :
  List.filter (fun p => (p.2 =? n)%Z) (sorted_desc items)
  = List.filter (fun p => (p.2 =? n)%Z) items.
Proof.
  unfold sorted_desc.
  assert (Hgen : ∀ acc, StronglySorted freq_ge acc →
    List.filter (fun p => (p.2 =? n)%Z)
      (fold_left (fun a x => insert_desc x a) items acc)
    = List.filter (fun p => (p.2 =? n)%Z) acc
      ++ List.filter (fun p => (p.2 =? n)%Z) items).
  { induction items as [|x r IH]; intros acc Hacc; simpl.
    - by rewrite app_nil_r.
    - rewrite IH by (by apply insert_desc_sorted).
      rewrite insert_desc_stable by done. rewrite <- app_assoc.
      by destruct (x.2 =? n)%Z. }
  by rewrite Hgen by constructor.
Qed.

Lemma ranking_length text :
  length (ranking text) = length (distinct_qualifying text).
Proof.
  unfold ranking. by rewrite length_map, sorted_desc_length, count_words_length.
Qed.

Lemma ranking_items text p :
  p ∈ sorted_desc (count_words (tokens text)) →
  p.1 ∈ distinct_qualifying text ∧ p.2 = frequency text p.1.
Proof.
  rewrite sorted_desc_perm. destruct p as [w n]. simpl.
  intros Hin%word_freq_counts. tauto.
Qed.

Lemma ranking_NoDup text : NoDup (ranking text).
Proof.
  unfold ranking. change (map fst ?l) with (l.*1).
  rewrite sorted_desc_perm. apply count_words_NoDup.
Qed.

Lemma elem_of_ranking text w :
  w ∈ ranking text ↔ w ∈ distinct_qualifying text.
Proof.
  unfold ranking. change (map fst ?l) with (l.*1). rewrite sorted_desc_perm.
  split.
  - intros ([k n] & -> & Hin%word_freq_counts)%list_elem_of_fmap. tauto.
  - intros Hw. apply list_elem_of_fmap. exists (w, frequency text w).
    split; [done|]. apply word_freq_counts. split_and!; [done..|].
    apply elem_of_distinct_qualifying, occurrences_pos in Hw.
    unfold frequency. lia.
Qed.

Lemma extract_keywords_take (text : pystr) (num_keywords : Z) :
  extract_keywords text num_keywords
  = if (num_keywords <? 0)%Z
    then take (length (ranking text) - Z.to_nat (- num_keywords)) (ranking text)
    else take (Z.to_nat num_keywords) (ranking text ++ generic_keywords).
Proof.
  unfold extract_keywords, try_except, ret, ranking, slice_to.
  set (sorted := sorted_desc (count_words (tokens text))).
  rewrite !length_map, !length_take.
  destruct (Z.ltb_spec num_keywords 0) as [Hneg|Hpos].
  - rewrite <- firstn_map.
    replace (Z.to_nat (Z.of_nat (length sorted) + num_keywords))
      with (length sorted - Z.to_nat (- num_keywords))%nat by lia.
    destruct (Z.ltb_spec
      (Z.of_nat (Nat.min (length sorted - Z.to_nat (- num_keywords)) (length sorted)))
      num_keywords); [lia|done].
  - rewrite <- firstn_map.
    destruct (Z.ltb_spec
      (Z.of_nat (Nat.min (Z.to_nat num_keywords) (length sorted))) num_keywords)
      as [Hshort|Hfull].
    + destruct (Z.ltb_spec
        (num_keywords
         - Z.of_nat (Nat.min (Z.to_nat num_keywords) (length sorted))) 0); [lia|].
      rewrite take_app, length_map. do 2 f_equal. lia.
    + rewrite take_app, length_map.
      replace (Z.to_nat num_keywords - length sorted)%nat with 0%nat by lia.
      by rewrite take_0, app_nil_r.
Qed.

(** X4. For a count [N >= 0] the result is the first [N] items of the
    ranked tokens followed by the generic words, so it never holds more
    than (distinct qualifying tokens + 8) keywords; for [N < 0] it is the
    ranked tokens without their last [-N] items, and nothing is padded. *)
Theorem extract_keywords_closed_form (text : pystr) (num_keywords : Z) :
  extract_keywords text num_keywords
  = if (num_keywords <? 0)%Z
    then take (length (ranking text) - Z.to_nat (- num_keywords)) (ranking text)
    else take (Z.to_nat num_keywords) (ranking text ++ generic_keywords).
Proof. exact (extract_keywords_take text num_keywords). Qed.

(** X2. With [0 <= N <= number of distinct qualifying tokens] the
    keywords returned are [N] distinct qualifying tokens of the text, and
    no token left out occurs more often than a token returned. *)
Theorem extract_keywords_most_frequent (text : pystr) (num_keywords : Z) :
  (0 ≤ num_keywords ≤ Z.of_nat (length (distinct_qualifying text)))%Z →
  let keywords := extract_keywords text num_keywords in
  NoDup keywords
  ∧ (∀ k, k ∈ keywords → k ∈ distinct_qualifying text)
  ∧ (∀ k w, k ∈ keywords → w ∈ distinct_qualifying text → w ∉ keywords →
            (frequency text w ≤ frequency text k)%Z).
Proof.
  intros [H0 Hd]. simpl. rewrite extract_keywords_take.
  destruct (Z.ltb_spec num_keywords 0); [lia|].
  rewrite <- ranking_length in Hd.
  rewrite take_app_le by lia.
  set (n := Z.to_nat num_keywords).
  split_and!.
  - apply (NoDup_app (take n (ranking text)) (drop n (ranking text))).
    rewrite take_drop. apply ranking_NoDup.
  - intros k Hk. apply elem_of_ranking.
    rewrite <- (take_drop n (ranking text)). apply elem_of_app. by left.
  - intros k w Hk Hw Hout. unfold ranking in Hk, Hout.
    rewrite firstn_map in Hk, Hout.
    apply list_elem_of_fmap in Hk as (p & -> & Hp).
    apply elem_of_ranking in Hw. unfold ranking in Hw.
    apply list_elem_of_fmap in Hw as (q & -> & Hq).
    rewrite <- (take_drop n (sorted_desc (count_words (tokens text)))) in Hq.
    apply elem_of_app in Hq as [Hq|Hq].
    { exfalso. apply Hout. apply list_elem_of_fmap. by exists q. }
    pose proof (sorted_desc_sorted (count_words (tokens text))) as Hs.
    rewrite <- (take_drop n (sorted_desc (count_words (tokens text)))) in Hs.
    pose proof (StronglySorted_app_1_elem_of _ _ _ _ _ Hs Hp Hq) as Hge.
    unfold freq_ge in Hge.
    assert (Hp' : p ∈ sorted_desc (count_words (tokens text))).
    { rewrite <- (take_drop n (sorted_desc _)). apply elem_of_app. by left. }
    assert (Hq' : q ∈ sorted_desc (count_words (tokens text))).
    { rewrite <- (take_drop n (sorted_desc _)). apply elem_of_app. by right. }
    apply ranking_items in Hp' as [_ <-]. apply ranking_items in Hq' as [_ <-].
    done.
Qed.

Lemma fromkeys_seen_equiv l : ∀ s1 s2 : list pystr,
  (∀ x, x ∈ s1 ↔ x ∈ s2) → fromkeys s1 l = fromkeys s2 l.
Proof.
  induction l as [|x r IH]; intros s1 s2 Heq; simpl; [done|].
  unfold mem. rewrite (bool_decide_ext _ _ (Heq x)).
  case_bool_decide; [by apply IH|]. f_equal. apply IH.
  intros y. rewrite !elem_of_cons, Heq. done.
Qed.

Lemma bump_keys w wf :
  (bump w wf).*1 = if mem w wf.*1 then wf.*1 else wf.*1 ++ [w].
Proof.
  unfold mem. induction wf as [|[k n] r IH]; [done|].
  rewrite fmap_cons.
  change (bump w ((k, n) :: r))
    with (if str_eqb k w then (k, (n + 1)%Z) :: r else (k, n) :: bump w r).
  unfold str_eqb. destruct (decide (k = w)) as [->|Hne].
  - rewrite bool_decide_eq_true_2 by done.
    rewrite bool_decide_eq_true_2 by (by left). done.
  - rewrite (bool_decide_eq_false_2 _ Hne), fmap_cons, IH.
    destruct (decide (w ∈ r.*1)) as [Hin|Hout].
    + rewrite !bool_decide_eq_true_2; [done| |done]. by right.
    + rewrite !bool_decide_eq_false_2; [done| |done].
      rewrite elem_of_cons. simpl. intros [?|?]; [congruence|done].
Qed.

(** The keys of [word_freq] are the distinct qualifying tokens in the
    order of their first occurrence. *)
Lemma count_from_keys_order words : ∀ acc,
  (fold_left (fun wf w => if qualifies w then bump w wf else wf) words acc).*1
  = acc.*1 ++ fromkeys acc.*1 (List.filter qualifies words).
Proof.
  induction words as [|w r IH]; intros acc; simpl; [by rewrite app_nil_r|].
  destruct (qualifies w) eqn:Hq; simpl; [|apply IH].
  rewrite IH, bump_keys. destruct (mem w acc.*1); [done|].
  rewrite <- app_assoc. simpl. do 2 f_equal. apply fromkeys_seen_equiv.
  intros x. set_solver.
Qed.

Lemma filter_keys_by_frequency text n (l : list (pystr * Z)) :
  (∀ p, p ∈ l → p.2 = frequency text p.1) →
  List.filter (fun k => (frequency text k =? n)%Z) (map fst l)
  = map fst (List.filter (fun p => (p.2 =? n)%Z) l).
Proof.
  induction l as [|p r IH]; intros Hl; simpl; [done|].
  rewrite <- (Hl p) by (by left).
  rewrite IH by (intros q Hq; apply Hl; by right).
  by destruct (p.2 =? n)%Z.
Qed.

(** X3. The ranked tokens are sorted by decreasing frequency, and tokens
    of one frequency stand in the order of their first occurrence in the
    text (the sort is stable). *)
Theorem ranking_sorted_ties_in_text_order (text : pystr) :
  StronglySorted (fun a b => (frequency text b ≤ frequency text a)%Z)
    (ranking text)
  ∧ ∀ n : Z,
      List.filter (fun k => (frequency text k =? n)%Z) (ranking text)
      = List.filter (fun k => (frequency text k =? n)%Z)
          (fromkeys [] (List.filter qualifies (tokens text))).
Proof.
  split.
  - unfold ranking.
    pose proof (sorted_desc_sorted (count_words (tokens text))) as Hs.
    assert (Hitems : ∀ p, p ∈ sorted_desc (count_words (tokens text)) →
                          p.2 = frequency text p.1).
    { intros p Hp. by apply ranking_items in Hp as [_ ?]. }
    induction Hs as [|p r Hr IH Hp]; simpl; constructor.
    + apply IH. intros q Hq. apply Hitems. by right.
    + apply Forall_fmap, Forall_forall. intros q Hq. simpl.
      rewrite Forall_forall in Hp. specialize (Hp q Hq). unfold freq_ge in Hp.
      rewrite <- (Hitems p) by (by left).
      rewrite <- (Hitems q) by (by right). done.
  - intros n. unfold ranking.
    rewrite filter_keys_by_frequency
      by (intros p Hp; by apply ranking_items in Hp as [_ ?]).
    rewrite sorted_desc_stable.
    rewrite <- (filter_keys_by_frequency text n).
    + unfold count_words. change (map fst ?l) with (l.*1).
      by rewrite count_from_keys_order.
    + intros p Hp. rewrite <- sorted_desc_perm in Hp.
      by apply ranking_items in Hp as [_ ?].
Qed.

End NlpMore.

(** X2 at a text where one token occurs twice. *)
Lemma extract_keywords_most_frequent_witness :
  Nlp.extract_keywords (u "cat dog cat bird") 2 = [u "cat"; u "dog"]
  ∧ NoDup (Nlp.extract_keywords (u "cat dog cat bird") 2).
Proof.
  split; [vm_compute; reflexivity|].
  apply (extract_keywords_most_frequent (u "cat dog cat bird") 2).
  vm_compute. split; discriminate.
Defined.

End NlpMore.


(** ** Cleaning, normalization and merge: edge cases and invariants *)

Module CleanerMore.
Import Cleaner CleanerFacts Rest.

Lemma lstrip_points_suffix s : ∃ pre, s = pre ++ lstrip_points s.
Proof.
  induction s as [|c r [pre IH]]; simpl; [by exists []|].
  destruct (point_or_space c); [|by exists []].
  exists (c :: pre). simpl. by rewrite <- IH.
Qed.

Lemma rstrip_points_prefix s : ∃ post, s = rstrip_points s ++ post.
Proof.
  unfold rstrip_points. destruct (lstrip_points_suffix (rev s)) as [pre Hpre].
  exists (rev pre). rewrite <- rev_app_distr, <- Hpre. by rewrite rev_involutive.
Qed.

(** X5. Whatever the name given, [clean_filename] returns a name that is
    not empty, has at most 100 code points and holds none of the nine
    characters the function removes. *)
Theorem clean_filename_safe (filename : pystr) :
  clean_filename filename ≠ []
  ∧ (length (clean_filename filename) ≤ 100)%nat
  ∧ Forall (fun c => invalid_char c = false) (clean_filename filename).
Proof.
  unfold clean_filename.
  set (kept := List.filter (fun c => negb (invalid_char c)) filename).
  assert (Hkept : Forall (fun c => invalid_char c = false) kept).
  { apply Forall_forall. intros c Hc%list_elem_of_In%filter_In.
    destruct Hc as [_ Hc]. by destruct (invalid_char c). }
  assert (Hstripped : Forall (fun c => invalid_char c = false) (rstrip_points kept)).
  { destruct (rstrip_points_prefix kept) as [post Hpost].
    rewrite Hpost in Hkept. by apply Forall_app in Hkept as [? _]. }
  set (cleaned := match rstrip_points kept with
                  | [] => u "untitled"
                  | _ => rstrip_points kept
                  end).
  assert (Hcleaned : Forall (fun c => invalid_char c = false) cleaned
                     ∧ cleaned ≠ []).
  { unfold cleaned. destruct (rstrip_points kept) eqn:E.
    - split; [|discriminate]. vm_compute. repeat constructor.
    - split; [done|discriminate]. }
  destruct Hcleaned as [Hvalid Hne]. clearbody cleaned.
  assert (Hdots : length (u "...") = 3%nat) by reflexivity.
  destruct (Nat.ltb_spec 100 (length cleaned)) as [Hlong|Hshort].
  - replace (slice_to 97 cleaned) with (take 97 cleaned) by reflexivity.
    split_and!.
    + intros Heq. apply (f_equal length) in Heq.
      rewrite length_app, Hdots in Heq. simpl in Heq. lia.
    + rewrite length_app, length_take, Hdots. lia.
    + apply Forall_app. split; [|vm_compute; repeat constructor].
      rewrite <- (take_drop 97 cleaned) in Hvalid.
      by apply Forall_app in Hvalid as [? _].
  - split_and!; [done|lia|done].
Qed.

Section CleanerMore.
Context {U : Unicode}.

(** The loop of [clean_keywords] keeps [cleaned] free of duplicates and
    of empty strings. *)
Lemma clean_keywords_loop_inv keywords : ∀ cleaned out,
  clean_keywords_loop keywords cleaned = inr out →
  NoDup cleaned → ([] ∉ cleaned) →
  NoDup out ∧ ([] ∉ out)
  ∧ (length out ≤ length cleaned + length keywords)%nat
  ∧ ∀ k, k ∈ out →
         k ∈ cleaned
         ∨ ∃ s, VStr s ∈ keywords
                ∧ k = List.filter keyword_char (lower (strip s)).
Proof.
  induction keywords as [|kw r IH]; intros cleaned out Hrun Hnd Hne; simpl in Hrun.
  - injection Hrun as <-. split_and!; auto. lia.
  - apply bind_inr in Hrun as (ck & Hck & Hrun).
    destruct kw; try discriminate. simpl in Hck. injection Hck as <-.
    set (ck := List.filter keyword_char (lower (strip s))) in *.
    assert (Hstep : ∀ cleaned',
              clean_keywords_loop r cleaned' = inr out →
              NoDup cleaned' → ([] ∉ cleaned') →
              (length cleaned' ≤ S (length cleaned))%nat →
              (∀ k, k ∈ cleaned' → k ∈ cleaned ∨ k = ck) →
              NoDup out ∧ ([] ∉ out)
              ∧ (length out ≤ length cleaned + S (length r))%nat
              ∧ ∀ k, k ∈ out →
                     k ∈ cleaned
                     ∨ ∃ s0, VStr s0 ∈ VStr s :: r
                             ∧ k = List.filter keyword_char (lower (strip s0))).
    { intros cleaned' Hrun' Hnd' Hne' Hlen Hsub.
      destruct (IH _ _ Hrun' Hnd' Hne') as (H1 & H2 & H3 & H4).
      split_and!; [done|done|lia|].
      intros k Hk. destruct (H4 k Hk) as [Hin|(s0 & Hs0 & ->)].
      - destruct (Hsub k Hin) as [?|Hk']; [by left|]. subst k.
        right. exists s. split; [by left|done].
      - right. exists s0. split; [by right|done]. }
    destruct ck as [|c ck'] eqn:Eck.
    + apply (Hstep cleaned); auto.
    + unfold mem in Hrun. case_bool_decide as Hin.
      * apply (Hstep cleaned); auto.
      * apply (Hstep (cleaned ++ [c :: ck'])); auto.
        -- apply NoDup_app. split_and!; [done| |apply NoDup_singleton].
           intros x Hx ->%list_elem_of_singleton. done.
        -- rewrite elem_of_app, list_elem_of_singleton. intros [?|?]; done.
        -- rewrite length_app. simpl. lia.
        -- intros k [?|Hk%list_elem_of_singleton]%elem_of_app; auto.
Qed.

Lemma clean_keywords_loop_strs keywords : ∀ cleaned out,
  clean_keywords_loop keywords cleaned = inr out → Forall is_str keywords.
Proof.
  induction keywords as [|kw r IH]; intros cleaned out Hrun; [constructor|].
  simpl in Hrun. apply bind_inr in Hrun as (ck & Hck & Hrun).
  destruct kw; try discriminate. constructor; [by eexists|].
  destruct ck; [by eapply IH|]. destruct (mem _ cleaned); by eapply IH.
Qed.

Lemma clean_keywords_loop_raises keywords : ∀ cleaned,
  ¬ Forall is_str keywords →
  clean_keywords_loop keywords cleaned = inl AttributeError.
Proof.
  induction keywords as [|kw r IH]; intros cleaned Hbad.
  - exfalso. apply Hbad. constructor.
  - simpl. destruct kw; try reflexivity. simpl.
    assert (Hr : ¬ Forall is_str r).
    { intros Hr. apply Hbad. constructor; [by eexists|done]. }
    destruct (List.filter keyword_char (lower (strip s))); [by apply IH|].
    destruct (mem _ cleaned); by apply IH.
Qed.


(** X6. [clean_keywords] raises (AttributeError) exactly when an item of
    the list is not a string; otherwise the list it returns has no
    duplicate, no empty string, no more items than the input, and each
    item is the cleaning (strip, lower, punctuation removed) of an input
    keyword. *)
Theorem clean_keywords_result (keywords : list value) :
  (Forall is_str keywords ↔ ∃ out, clean_keywords keywords = inr out)
  ∧ (¬ Forall is_str keywords → clean_keywords keywords = inl AttributeError)
  ∧ ∀ out, clean_keywords keywords = inr out →
      NoDup out ∧ ([] ∉ out) ∧ (length out ≤ length keywords)%nat
      ∧ ∀ k, k ∈ out →
             ∃ s, VStr s ∈ keywords
                  ∧ k = List.filter keyword_char (lower (strip s)).
Proof.
  assert (Hraise : ¬ Forall is_str keywords →
                   clean_keywords keywords = inl AttributeError).
  { intros Hbad. unfold clean_keywords. destruct keywords.
    - exfalso. apply Hbad. constructor.
    - by apply clean_keywords_loop_raises. }
  split_and!; [|done|].
  - split; [apply clean_keywords_total|].
    intros [out Hout]. unfold clean_keywords in Hout.
    destruct keywords as [|kw r]; [constructor|].
    by apply clean_keywords_loop_strs in Hout.
  - intros out Hout. unfold clean_keywords in Hout.
    destruct keywords as [|kw r].
    { injection Hout as <-.
      split_and!; [apply NoDup_nil_2|apply not_elem_of_nil|simpl; lia|].
      intros k Hk. by apply elem_of_nil in Hk. }
    destruct (clean_keywords_loop_inv _ _ _ Hout) as (H1 & H2 & H3 & H4);
      [apply NoDup_nil_2|apply not_elem_of_nil|].
    split_and!; [done|done|simpl in *; lia|].
    intros k Hk. destruct (H4 k Hk) as [Hin|?]; [by apply elem_of_nil in Hin|done].
Qed.

Lemma fromkeys_spec l : ∀ seen,
  NoDup (fromkeys seen l)
  ∧ ∀ x, x ∈ fromkeys seen l ↔ x ∈ l ∧ x ∉ seen.
Proof.
  induction l as [|y r IH]; intros seen; simpl.
  - split; [apply NoDup_nil_2|]. intros x. rewrite elem_of_nil. tauto.
  - unfold mem. case_bool_decide as Hy.
    + destruct (IH seen) as [Hnd Hin]. split; [done|].
      intros x. rewrite Hin, elem_of_cons. split; [tauto|].
      intros [[->|?] ?]; tauto.
    + destruct (IH (y :: seen)) as [Hnd Hin]. split.
      * apply NoDup_cons. split; [|done]. rewrite Hin, elem_of_cons. tauto.
      * intros x. rewrite !elem_of_cons, Hin, elem_of_cons.
        destruct (decide (x = y)) as [->|Hne]; tauto.
Qed.

Lemma word_runs_words s : ∀ cur w,
  Forall (fun c => is_word c = true) cur →
  w ∈ word_runs cur s →
  w ≠ [] ∧ Forall (fun c => is_word c = true) w.
Proof.
  induction s as [|c r IH]; intros cur w Hcur Hw; simpl in Hw.
  - destruct cur as [|c0 cur']; [by apply elem_of_nil in Hw|].
    apply list_elem_of_singleton in Hw as ->. split.
    + intros Heq. apply (f_equal length) in Heq.
      rewrite length_rev in Heq. discriminate.
    + by apply Forall_rev.
  - destruct (is_word c) eqn:Ec.
    + apply (IH (c :: cur)); [by constructor|done].
    + destruct cur as [|c0 cur']; [by apply (IH [])|].
      apply elem_of_cons in Hw as [->|Hw]; [|by apply (IH [])].
      split.
      * intros Heq. apply (f_equal length) in Heq.
        rewrite length_rev in Heq. discriminate.
      * by apply Forall_rev.
Qed.

(** X7. The keywords [normalize_paper_info] draws from a title when the
    record brings none: at most five, pairwise distinct, each a run of
    word characters of the lowercased title, longer than one code point
    and not one of the eighteen stop words. *)
Theorem title_keywords_bounds (title : pystr) :
  (length (title_keywords title) ≤ 5)%nat
  ∧ NoDup (title_keywords title)
  ∧ ∀ w, w ∈ title_keywords title →
         w ∈ word_runs [] (lower title)
         ∧ (w ∉ title_stop_words)
         ∧ (1 < length w)%nat
         ∧ Forall (fun c => is_word c = true) w.
Proof.
  unfold title_keywords.
  set (kept := List.filter _ (word_runs [] (lower title))).
  replace (slice_to 5 (fromkeys [] kept)) with (take 5 (fromkeys [] kept))
    by reflexivity.
  destruct (fromkeys_spec kept []) as [Hnd Hin].
  split_and!.
  - rewrite length_take. lia.
  - eapply sublist_NoDup; [done|apply sublist_take].
  - intros w Hw. apply (subseteq_take 5) in Hw. apply Hin in Hw as [Hw _].
    apply list_elem_of_In, filter_In in Hw as [Hw Hkeep].
    apply list_elem_of_In in Hw.
    apply andb_true_iff in Hkeep as [Hstop Hlen].
    split_and!; [done| | |].
    + unfold mem in Hstop. apply negb_true_iff, bool_decide_eq_false in Hstop. done.
    + by apply Nat.ltb_lt in Hlen.
    + by apply (word_runs_words (lower title) [] w).
Qed.

Lemma normalize_keywords_none now_year paper n :
  paper !! k_keywords = None →
  normalize_paper_info now_year paper = inr n →
  ∃ title, text_field paper k_title (u "제목 없음") = VStr title
           ∧ n !! k_keywords = Some (VList (VStr <$> title_keywords title)).
Proof.
  intros E. unfold normalize_paper_info. rewrite E. simpl. intros [= <-].
  unfold text_field.
  destruct (paper !! k_title), (paper !! k_url), (paper !! k_type); keys;
    eexists; split; reflexivity.
Qed.

(** X8. What [normalize_paper_info] fills in: a missing text field takes
    its default (the current year for [year]), [url] is copied or left
    out, a given [type] is copied and a missing one is external exactly
    when the record has a [url], and a record without [keywords] gets the
    keywords of its normalized title. *)
Theorem normalize_defaults (now_year : Z) (paper n : dict) :
  normalize_paper_info now_year paper = inr n →
  (paper !! k_title = None → n !! k_title = Some (VStr (u "제목 없음")))
  ∧ (paper !! k_authors = None → n !! k_authors = Some (VStr (u "저자 미상")))
  ∧ (paper !! k_year = None → n !! k_year = Some (VStr (str (VInt now_year))))
  ∧ (paper !! k_abstract = None
     → n !! k_abstract = Some (VStr (u "초록 정보가 없습니다.")))
  ∧ (paper !! k_source = None → n !! k_source = Some (VStr (u "출처 미상")))
  ∧ n !! k_url = paper !! k_url
  ∧ (∀ given, paper !! k_type = Some given → n !! k_type = Some given)
  ∧ (paper !! k_type = None
     → n !! k_type = Some (VStr (match paper !! k_url with
                                 | Some _ => u "external"
                                 | None => u "internal"
                                 end)))
  ∧ (paper !! k_keywords = None
     → ∃ title, n !! k_title = Some (VStr title)
                ∧ n !! k_keywords = Some (VList (VStr <$> title_keywords title))).
Proof.
  intros Hn. pose proof Hn as Hshape.
  apply normalize_shape in Hshape
    as (t & a & y & ab & so & kws & ty & -> & Ht & Ha & Hy & Hab & Hso & Hkw & Hty).
  pose proof (record_of_lookups t a y ab so (paper !! k_url) kws ty)
    as (Lt & La & Ly & Lab & Lso & Lurl & Lkw & Ltype).
  split_and!.
  - intros E. unfold text_field in Ht. rewrite E in Ht. by rewrite Lt, <- Ht.
  - intros E. unfold text_field in Ha. rewrite E in Ha. by rewrite La, <- Ha.
  - intros E. unfold text_field in Hy. rewrite E in Hy. by rewrite Ly, <- Hy.
  - intros E. unfold text_field in Hab. rewrite E in Hab. by rewrite Lab, <- Hab.
  - intros E. unfold text_field in Hso. rewrite E in Hso. by rewrite Lso, <- Hso.
  - done.
  - intros given E. by rewrite Ltype, (Hty given E).
  - intros E. revert Hn. unfold normalize_paper_info. rewrite E.
    intros (kws' & _ & Hret)%bind_inr. injection Hret as Hret.
    rewrite <- Hret. destruct (paper !! k_url); keys; reflexivity.
  - intros E. exists t. split; [done|].
    destruct (normalize_keywords_none now_year paper _ E Hn) as (t' & Ht' & Hk).
    rewrite Ht in Ht'. injection Ht' as <-. done.
Qed.


Lemma keep_unseen_sublist papers : ∀ seen, keep_unseen seen papers `sublist_of` papers.
Proof.
  induction papers as [|p r IH]; intros seen; simpl; [done|].
  case_bool_decide; [by apply sublist_cons|by apply sublist_skip].
Qed.

Lemma keep_unseen_all papers : ∀ seen,
  NoDup (title_key <$> papers) →
  (∀ p, p ∈ papers → title_key p ∉ seen) →
  keep_unseen seen papers = papers.
Proof.
  induction papers as [|p r IH]; intros seen Hnd Hnew; simpl; [done|].
  rewrite fmap_cons in Hnd. apply NoDup_cons in Hnd as [Hp Hnd].
  rewrite bool_decide_eq_false_2 by (apply Hnew; by left).
  f_equal. apply IH; [done|].
  intros q Hq. rewrite elem_of_union, elem_of_singleton.
  intros [Heq|Hs].
  - apply Hp. rewrite <- Heq. apply list_elem_of_fmap. by exists q.
  - apply (Hnew q); [by right|done].
Qed.

(** One loop of the merge, in closed form. *)
Lemma add_unseen_keep papers : ∀ seen merged,
  Forall (fun p => title_lower p = inr (title_key p)) papers →
  ∃ seen',
    add_unseen papers seen merged = inr (seen', merged ++ keep_unseen seen papers)
    ∧ ∀ k, k ∈ seen' ↔ k ∈ seen ∨ k ∈ title_key <$> papers.
Proof.
  induction papers as [|p r IH]; intros seen merged Hok.
  - simpl. exists seen. rewrite app_nil_r. split; [done|].
    intros k. rewrite elem_of_nil. tauto.
  - apply Forall_cons in Hok as [Hp Hok]. rewrite fmap_cons.
    simpl (add_unseen _ _ _). simpl (keep_unseen _ _). rewrite Hp. simpl (Py.bind _ _).
    case_bool_decide as Hseen.
    + destruct (IH seen merged Hok) as (seen' & -> & Hs). exists seen'.
      split; [done|]. intros k. rewrite Hs, elem_of_cons.
      split; [tauto|]. intros [?|[->|?]]; tauto.
    + destruct (IH ({[title_key p]} ∪ seen) (merged ++ [p]) Hok)
        as (seen' & -> & Hs). exists seen'.
      split; [by rewrite <- app_assoc|].
      intros k. rewrite Hs, elem_of_cons, elem_of_union,
        elem_of_singleton. tauto.
Qed.

(** X10. [merge_search_results] only drops records: its result is the
    normalized external records followed by the normalized internal ones,
    with some left out and the order kept.  When no two of the normalized
    records share a lowercased title nothing is dropped. *)
Theorem merge_is_sublist (now_year : Z) (internal external merged : list dict) :
  merge_search_results now_year internal external = inr merged →
  ∃ nint next,
    mapM (normalize_paper_info now_year) internal = inr nint
    ∧ mapM (normalize_paper_info now_year) external = inr next
    ∧ merged `sublist_of` next ++ nint
    ∧ (length merged ≤ length external + length internal)%nat
    ∧ (NoDup (title_key <$> next ++ nint) → merged = next ++ nint).
Proof.
  unfold merge_search_results. intros Hm.
  apply bind_inr in Hm as (nint & Hint & Hm).
  apply bind_inr in Hm as (next & Hext & Hm).
  exists nint, next. split; [done|]. split; [done|].
  destruct (add_unseen_keep next ∅ [] (normalized_titles _ _ _ Hext))
    as (seen1 & H1 & Hs1).
  rewrite H1 in Hm. simpl in Hm.
  destruct (add_unseen_keep nint seen1 (keep_unseen ∅ next)
              (normalized_titles _ _ _ Hint)) as (seen2 & H2 & Hs2).
  rewrite H2 in Hm. simpl in Hm. injection Hm as <-.
  assert (Hsub : keep_unseen ∅ next ++ keep_unseen seen1 nint
                 `sublist_of` next ++ nint).
  { apply sublist_app; apply keep_unseen_sublist. }
  split_and!; [done| |].
  - apply sublist_length in Hsub. rewrite !length_app in Hsub.
    rewrite length_app.
    apply mapM_inr, Forall2_length in Hint.
    apply mapM_inr, Forall2_length in Hext. lia.
  - rewrite fmap_app. intros Hnd. apply NoDup_app in Hnd as (Hn1 & Hdisj & Hn2).
    rewrite !keep_unseen_all; [done|done| |done|].
    + intros p Hp Hseen. apply Hs1 in Hseen as [Hseen|Hseen]; [set_solver|].
      apply (Hdisj (title_key p)); [done|].
      apply list_elem_of_fmap. by exists p.
    + intros p _. set_solver.
Qed.

End CleanerMore.

(** X8 at the empty record: every field takes its default. *)
Lemma normalize_defaults_witness :
  Demo.empty_normalized !! k_title = Some (VStr (u "제목 없음"))
  ∧ Demo.empty_normalized !! k_type = Some (VStr (u "internal"))
  ∧ Demo.empty_normalized !! k_url = None.
Proof.
  assert (Hn : normalize_paper_info 2024 ∅ = inr Demo.empty_normalized)
    by (vm_compute; reflexivity).
  destruct (normalize_defaults 2024 ∅ Demo.empty_normalized Hn)
    as (Ht & _ & _ & _ & _ & Hurl & _ & Hty & _).
  split; [apply Ht; reflexivity|].
  split; [apply Hty; reflexivity|].
  rewrite Hurl. reflexivity.
Defined.

(** X10 on the two sample records of the first claim's example. *)
Lemma merge_is_sublist_witness :
  ∃ nint next,
    mapM (normalize_paper_info 2024) [Demo.internal_paper] = inr nint
    ∧ mapM (normalize_paper_info 2024) [Demo.external_paper] = inr next
    ∧ Demo.merged_demo `sublist_of` next ++ nint
    ∧ (length Demo.merged_demo ≤ 1 + 1)%nat
    ∧ (NoDup (title_key <$> next ++ nint) → Demo.merged_demo = next ++ nint).
Proof.
  apply (merge_is_sublist 2024 [Demo.internal_paper] [Demo.external_paper]).
  vm_compute. reflexivity.
Defined.

End CleanerMore.

(** ** The cache: what a hit guarantees, what a write leaves alone *)

Module CacheMore.
Import Cleaner CleanerFacts.

Section CacheMore.
Context {U : Unicode} {P : Process}.

(** X11. [load_from_cache] returns something other than [None] only from
    a file that exists, parses to a JSON object, carries a string
    timestamp that [fromisoformat] accepts and has a [data] field, which
    is what is returned: a missing, corrupt or malformed file reads as a
    miss, and no exception leaves the function. *)
Theorem load_from_cache_hit (now : Z) (key : pystr) (max_age_hours : Z)
        (cache_dir : pystr) (files : fs) (v : value) :
  load_from_cache now key max_age_hours cache_dir files = v →
  v ≠ VNone →
  ∃ entry ts t,
    files !! cache_file_of cache_dir key = Some (Json (VDict entry))
    ∧ entry !! k_timestamp = Some (VStr ts)
    ∧ fromisoformat ts = Some t
    ∧ entry !! k_data = Some v.
Proof.
  intros Hload Hv. unfold load_from_cache in Hload.
  destruct (files !! cache_file_of cache_dir key) as [[cd|]|] eqn:Efile;
    simpl in Hload; try congruence.
  destruct cd as [| | | | | |entry]; simpl in Hload; try congruence.
  destruct (entry !! k_timestamp) as [[| | | |ts| |]|] eqn:Ets;
    simpl in Hload; try congruence.
  destruct (fromisoformat ts) as [t|] eqn:Eparse; simpl in Hload; try congruence.
  destruct (max_age_hours * us_per_hour <? now - t)%Z;
    simpl in Hload; try congruence.
  destruct (entry !! k_data) as [data|] eqn:Edata; simpl in Hload; try congruence.
  subst v. by exists entry, ts, t.
Qed.

Context {H : Host}.

(** A call of [save_to_cache] changes no file but its own. *)
Lemma save_to_cache_other (now : Z) (key : pystr) (data : value)
      (cache_dir : pystr) (files : fs) (path : pystr) :
  path ≠ cache_file_of cache_dir key →
  (save_to_cache now key data cache_dir files).2 !! path = files !! path.
Proof.
  intros Hpath.
  unfold save_to_cache, io_try, io_bind, makedirs, open_w, json_dump, io_ret.
  destruct cache_dir as [|c r]; [done|].
  destruct (makedirs_ok (c :: r)); [|done].
  destruct (open_w_ok _); [|done].
  destruct (json_encodable _); simpl; by rewrite !lookup_insert_ne.
Qed.

(** X12. [save_to_cache] touches no file but the one of its key, whether
    it succeeds or not: a key whose file name differs is read exactly as
    before the call.  A save that returns [True] replaces the entry: the
    files are then as if an earlier save under the key had not happened. *)
Theorem save_to_cache_isolated (key key' : pystr) (data1 data2 : value)
        (cache_dir : pystr) (files : fs) (now1 now2 now max_age_hours : Z) :
  cache_file_of cache_dir key' ≠ cache_file_of cache_dir key →
  load_from_cache now key' max_age_hours cache_dir
    (save_to_cache now1 key data1 cache_dir files).2
  = load_from_cache now key' max_age_hours cache_dir files
  ∧ ((save_to_cache now2 key data2 cache_dir files).1 = true →
     (save_to_cache now2 key data2 cache_dir
        (save_to_cache now1 key data1 cache_dir files).2).2
     = (save_to_cache now2 key data2 cache_dir files).2).
Proof.
  intros Hfile. split.
  - unfold load_from_cache. by rewrite save_to_cache_other.
  - unfold save_to_cache, io_try, io_bind, makedirs, open_w, json_dump, io_ret.
    destruct cache_dir as [|c r]; [discriminate|].
    destruct (makedirs_ok (c :: r)); [|discriminate].
    destruct (open_w_ok _); [|discriminate].
    destruct (json_encodable (VDict (<[k_data:=data2]> _))); [|discriminate].
    intros _. destruct (json_encodable _); simpl; by rewrite !insert_insert_eq.
Qed.

(** X21. A save that fails while the entry is written costs the entry
    the key had: when the directory and the file can be opened but the key
    or the payload holds a lone surrogate, [save_to_cache] returns
    [False] and the next [load_from_cache] of the key is a miss, whatever
    the file held before. *)
Theorem failed_save_loses_entry (key : pystr) (data : value)
        (cache_dir : pystr) (files : fs) (now_save now_load max_age_hours : Z) :
  cache_dir ≠ [] →
  makedirs_ok cache_dir = true →
  open_w_ok (cache_file_of cache_dir key) = true →
  encodable key = false ∨ json_encodable data = false →
  (save_to_cache now_save key data cache_dir files).1 = false
  ∧ load_from_cache now_load key max_age_hours cache_dir
      (save_to_cache now_save key data cache_dir files).2 = VNone.
Proof.
  intros Hdir Hmk Hopen Hbad.
  assert (Hentry : json_encodable
            (VDict (<[k_data := data]>
                      (<[k_timestamp := VStr (isoformat now_save)]>
                         (<[k_key := VStr key]> ∅)))) = false).
  { apply not_true_is_false. intros Hok.
    apply CacheFacts.cache_data_encodable in Hok as (Hk & _ & Hd).
    destruct Hbad; congruence. }
  assert (Hsave : save_to_cache now_save key data cache_dir files
                  = (false, <[cache_file_of cache_dir key := Corrupt]> files)).
  { unfold save_to_cache, io_try, io_bind, makedirs, open_w, json_dump, io_ret.
    destruct cache_dir as [|c r]; [by destruct Hdir|].
    rewrite Hmk, Hopen, Hentry. reflexivity. }
  rewrite Hsave. split; [reflexivity|].
  unfold load_from_cache. cbn [snd]. by rewrite lookup_insert_eq.
Qed.

End CacheMore.

(** X11 on an entry written by [save_to_cache] in the demo process. *)
Lemma load_from_cache_hit_witness :
  ∃ entry ts t,
    (save_to_cache 0 (u "ab") (VStr (u "payload")) default_cache_dir ∅).2
      !! cache_file_of default_cache_dir (u "ab") = Some (Json (VDict entry))
    ∧ entry !! k_timestamp = Some (VStr ts)
    ∧ fromisoformat ts = Some t
    ∧ entry !! k_data = Some (VStr (u "payload")).
Proof.
  apply (load_from_cache_hit 1 (u "ab") default_max_age_hours default_cache_dir
           (save_to_cache 0 (u "ab") (VStr (u "payload")) default_cache_dir ∅).2
           (VStr (u "payload"))).
  - vm_compute. reflexivity.
  - discriminate.
Defined.

(** X12 in the demo process, where keys of different lengths have
    different files. *)
Lemma save_to_cache_isolated_witness :
  load_from_cache 3 (u "abc") default_max_age_hours default_cache_dir
    (save_to_cache 1 (u "ab") (VInt 1) default_cache_dir ∅).2
  = load_from_cache 3 (u "abc") default_max_age_hours default_cache_dir ∅
  ∧ ((save_to_cache 2 (u "ab") (VInt 2) default_cache_dir ∅).1 = true →
     (save_to_cache 2 (u "ab") (VInt 2) default_cache_dir
        (save_to_cache 1 (u "ab") (VInt 1) default_cache_dir ∅).2).2
     = (save_to_cache 2 (u "ab") (VInt 2) default_cache_dir ∅).2).
Proof.
  apply (save_to_cache_isolated (u "ab") (u "abc") (VInt 1) (VInt 2)
           default_cache_dir ∅ 1 2 3 default_max_age_hours).
  vm_compute. discriminate.
Defined.

(** X21 in the demo process: the entry written first is gone after a
    save whose payload holds a lone surrogate. *)
Lemma failed_save_loses_entry_witness :
  (save_to_cache 1 (u "ab") (VStr [55296%N]) default_cache_dir
     (save_to_cache 0 (u "ab") (VInt 1) default_cache_dir ∅).2).1 = false
  ∧ load_from_cache 2 (u "ab") default_max_age_hours default_cache_dir
      (save_to_cache 1 (u "ab") (VStr [55296%N]) default_cache_dir
         (save_to_cache 0 (u "ab") (VInt 1) default_cache_dir ∅).2).2
    = VNone.
Proof.
  apply (failed_save_loses_entry (u "ab") (VStr [55296%N]) default_cache_dir
           (save_to_cache 0 (u "ab") (VInt 1) default_cache_dir ∅).2
           1 2 default_max_age_hours).
  - discriminate.
  - reflexivity.
  - reflexivity.
  - right. reflexivity.
Defined.

End CacheMore.

(** ** Search: closed form, malformed data, queries *)

Module SearchMore.
Import Cleaner CleanerFacts Scholar Rest.

Section SearchMore.
Context {U : Unicode}.

Lemma search_loop_closed tl kl db : ∀ results,
  forallb (fun p => match matches tl kl p with inr _ => true | inl _ => false end) db
  = true →
  search_loop tl kl db results
  = inr (results
         ++ List.filter (fun p => match matches tl kl p with
                                  | inr hit => hit
                                  | inl _ => false
                                  end) db).
Proof.
  induction db as [|p r IH]; intros results Hok.
  - simpl. by rewrite app_nil_r.
  - simpl in *. destruct (matches tl kl p) as [e|hit]; simpl in *; [done|].
    rewrite (IH _ Hok). destruct hit; [by rewrite <- app_assoc|done].
Qed.

Lemma search_loop_raises tl kl db : ∀ results,
  forallb (fun p => match matches tl kl p with inr _ => true | inl _ => false end) db
  = false →
  ∃ e, search_loop tl kl db results = inl e.
Proof.
  induction db as [|p r IH]; intros results; simpl; [discriminate|].
  destruct (matches tl kl p) as [e|hit]; simpl; [eauto|]. apply IH.
Qed.

Lemma search_internal_db_filter (db : list value) (topic : pystr)
        (keywords : list pystr) :
  search_internal_db (VList db) topic keywords
  = if forallb (readable topic keywords) db
    then List.filter (matched topic keywords) db
    else [].
Proof.
  unfold search_internal_db, readable, matched. simpl.
  destruct (forallb _ db) eqn:E.
  - by rewrite (search_loop_closed _ _ db [] E).
  - destruct (search_loop_raises _ _ db [] E) as [e ->]. reflexivity.
Qed.

(** X13. [search_internal_db] over a list: when the loop body runs on
    every record without raising, the result is the matching records in
    the order of the DB; when it raises on one record, wherever it
    stands, the whole result is the empty list, the records already
    matched included. *)
Theorem search_internal_db_closed_form (db : list value) (topic : pystr)
        (keywords : list pystr) :
  search_internal_db (VList db) topic keywords
  = if forallb (readable topic keywords) db
    then List.filter (matched topic keywords) db
    else [].
Proof. exact (search_internal_db_filter db topic keywords). Qed.

(** X14. An internal DB that is not a list (a JSON object, string,
    number or null in the DB file) gives no result for any query, and no
    error either. *)
Theorem search_internal_db_not_a_list (internal_db : value) (topic : pystr)
        (keywords : list pystr) :
  (∀ l, internal_db ≠ VList l) →
  search_internal_db internal_db topic keywords = [].
Proof.
  intros Hv. unfold search_internal_db.
  destruct internal_db as [| | | |s|l|d]; try reflexivity.
  - simpl. by destruct s.
  - by destruct (Hv l).
  - simpl. by destruct (map_to_list d).
Qed.

Lemma contains_empty s : contains [] s = true.
Proof. by destruct s. Qed.

Lemma matches_empty_query tl kl p hit :
  matches tl kl p = inr hit → tl = [] ∨ [] ∈ kl → hit = true.
Proof.
  unfold matches. intros Hm Hq.
  apply bind_inr in Hm as (title & _ & Hm).
  apply bind_inr in Hm as (t & _ & Hm).
  apply bind_inr in Hm as (abstract & _ & Hm).
  apply bind_inr in Hm as (a & _ & Hm).
  apply bind_inr in Hm as (pk & _ & Hm).
  apply bind_inr in Hm as (pks & _ & Hm).
  apply bind_inr in Hm as (pkl & _ & Hm).
  injection Hm as <-. destruct Hq as [->|Hin].
  - by rewrite contains_empty.
  - assert (Hany : any (fun k => contains k t || contains k a) kl = true).
    { apply existsb_exists. exists []. split; [by apply list_elem_of_In|].
      by rewrite contains_empty. }
    rewrite Hany. by rewrite orb_true_r.
Qed.

(** X15. An empty topic, or an empty string among the keywords, matches
    every record: the search returns the whole DB (as long as no record
    makes the loop raise). *)
Theorem search_internal_db_empty_query (db : list value) (topic : pystr)
        (keywords : list pystr) :
  lower [] = [] →
  forallb (readable topic keywords) db = true →
  topic = [] ∨ [] ∈ keywords →
  search_internal_db (VList db) topic keywords = db.
Proof.
  intros Hlower Hok Hq. rewrite search_internal_db_filter, Hok.
  assert (Hq' : lower topic = [] ∨ [] ∈ map lower keywords).
  { destruct Hq as [->|Hin]; [by left|right].
    rewrite <- Hlower. apply list_elem_of_fmap. by exists []. }
  induction db as [|p r IH]; [done|]. simpl in *.
  apply andb_true_iff in Hok as [Hp Hr].
  unfold matched at 1. unfold readable in Hp.
  destruct (matches (lower topic) (map lower keywords) p) as [e|hit] eqn:Em;
    [discriminate|].
  rewrite (matches_empty_query _ _ _ _ Em Hq'). by rewrite (IH Hr).
Qed.

Section External.
Variable http_get : pystr → pystr → http_outcome.

Lemma search_arxiv_cases q :
  search_arxiv http_get q = [arxiv_sample q] ∨ search_arxiv http_get q = [].
Proof.
  unfold search_arxiv. destruct (http_get _ _) as [code js|]; [|by right].
  destruct code as [|c|c]; try (by right).
  repeat (destruct c as [c|c|]; try (by right)). by left.
Qed.

Lemma search_crossref_cases q :
  search_crossref http_get q = [crossref_sample q]
  ∨ search_crossref http_get q = [].
Proof.
  unfold search_crossref. destruct (http_get _ _) as [code js|]; [|by right].
  destruct code as [|c|c]; try (by right).
  repeat (destruct c as [c|c|]; try (by right)).
  destruct js; [by left|by right].
Qed.

Lemma search_semantic_scholar_cases q :
  search_semantic_scholar http_get q = [semantic_scholar_sample q]
  ∨ search_semantic_scholar http_get q = [].
Proof.
  unfold search_semantic_scholar.
  destruct (http_get _ _) as [code js|]; [|by right].
  destruct code as [|c|c]; try (by right).
  repeat (destruct c as [c|c|]; try (by right)). by left.
Qed.

(** X16. [search_external_api] looks at the topic and the first three
    keywords only, returns at most three records (one per service that
    answered 200), and each of them is a record of type external with a
    [url]. *)
Theorem search_external_api_bounds (topic : pystr) (keywords : list pystr) :
  search_external_api http_get topic keywords
  = search_external_api http_get topic (take 3 keywords)
  ∧ (length (search_external_api http_get topic keywords) ≤ 3)%nat
  ∧ ∀ p, p ∈ search_external_api http_get topic keywords →
         ∃ d, p = VDict d
              ∧ d !! k_type = Some (VStr (u "external"))
              ∧ is_Some (d !! k_url).
Proof.
  split_and!.
  - unfold search_external_api.
    destruct keywords as [|k1 [|k2 [|k3 r]]]; reflexivity.
  - unfold search_external_api.
    set (query := match keywords with [] => topic | _ => _ end).
    rewrite !length_app.
    destruct (search_arxiv_cases query) as [-> | ->],
             (search_crossref_cases query) as [-> | ->],
             (search_semantic_scholar_cases query) as [-> | ->]; simpl; lia.
  - intros p. unfold search_external_api.
    set (query := match keywords with [] => topic | _ => _ end).
    rewrite !elem_of_app.
    destruct (search_arxiv_cases query) as [-> | ->],
             (search_crossref_cases query) as [-> | ->],
             (search_semantic_scholar_cases query) as [-> | ->];
      rewrite ?list_elem_of_singleton, ?elem_of_nil;
      intros Hp; destruct Hp as [Hp|[Hp|Hp]]; try done; subst p;
      (eexists; split; [reflexivity|]; split; [keys; reflexivity|];
       keys; by eexists).
Qed.

End External.
End SearchMore.

(** X14 on a DB file that holds a JSON object. *)
Lemma search_internal_db_not_a_list_witness :
  search_internal_db (VDict Demo.internal_paper) (u "미세플라스틱") [] = [].
Proof.
  apply (search_internal_db_not_a_list (VDict Demo.internal_paper)).
  intros l. discriminate.
Defined.

(** X15 on the sample records, searched with an empty topic. *)
Lemma search_internal_db_empty_query_witness :
  search_internal_db
    (VList [sample_paper_1; sample_paper_2; sample_paper_3]) [] []
  = [sample_paper_1; sample_paper_2; sample_paper_3].
Proof.
  apply (search_internal_db_empty_query
           [sample_paper_1; sample_paper_2; sample_paper_3] [] []).
  - reflexivity.
  - vm_compute. reflexivity.
  - by left.
Defined.

End SearchMore.

(** ** The agent without a completion API, and its cache *)

Module AgentMore.
Import Cleaner CleanerFacts Agent AgentFacts Rest.

Lemma startswith_app_l p : ∀ s b,
  startswith p s = true → startswith p (s ++ b) = true.
Proof.
  induction p as [|a p IH]; intros s b Hs; [done|].
  destruct s as [|c s]; [discriminate|]. simpl in *.
  apply andb_true_iff in Hs as [-> Hs]. simpl. by apply IH.
Qed.

Lemma contains_nil_l s : contains [] s = true.
Proof. by destruct s. Qed.

Lemma contains_app_l p s b : contains p s = true → contains p (s ++ b) = true.
Proof.
  induction s as [|c s IH]; intros Hs.
  - destruct p; [apply contains_nil_l|discriminate].
  - change (contains p ((c :: s) ++ b))
      with (startswith p ((c :: s) ++ b) || contains p (s ++ b)).
    change (contains p (c :: s)) with (startswith p (c :: s) || contains p s) in Hs.
    apply orb_true_iff in Hs as [Hs|Hs].
    + by rewrite (startswith_app_l _ _ _ Hs).
    + rewrite (IH Hs). apply orb_true_r.
Qed.

Lemma contains_app_r p a s : contains p s = true → contains p (a ++ s) = true.
Proof.
  intros Hs. induction a as [|c a IH]; [done|].
  change (contains p ((c :: a) ++ s))
    with (startswith p ((c :: a) ++ s) || contains p (a ++ s)).
  rewrite IH. apply orb_true_r.
Qed.

(** A text found in one line is found in the lines joined. *)
Lemma contains_join p sep x l :
  x ∈ l → contains p x = true → contains p (join sep l) = true.
Proof.
  intros Hx Hp. induction l as [|y r IH]; [by apply elem_of_nil in Hx|].
  apply elem_of_cons in Hx as [<-|Hx].
  - destruct r; [done|]. by apply contains_app_l.
  - destruct r as [|z r']; [by apply elem_of_nil in Hx|].
    change (join sep (y :: z :: r')) with (y ++ sep ++ join sep (z :: r')).
    apply contains_app_r, contains_app_r. by apply IH.
Qed.

Lemma mbind_step {A B} (m : M A) (k : A → M B) (w w1 : world) (a : A) :
  m w = (inr a, w1) → mbind m k w = k a w1.
Proof. unfold mbind. by intros ->. Qed.

(** Lines 299 to 311 in closed form: the parsed topics first, the
    defaults after them, five in all. *)
Lemma pad_niche_topics_closed (topic : pystr) (niche_topics : list pystr) :
  pad_niche_topics topic niche_topics
  = take 5 (niche_topics ++ default_niche_topics topic).
Proof.
  unfold pad_niche_topics.
  destruct (Nat.ltb_spec (length niche_topics) 5) as [Hlt|Hge].
  - do 5 (destruct niche_topics as [|? niche_topics]; [reflexivity|]).
    simpl in Hlt. lia.
  - replace (slice_to 5 niche_topics) with (take 5 niche_topics) by reflexivity.
    by rewrite take_app_le.
Qed.

Section AgentMore.
Context {U : Unicode} {P : Process}.
Variable creds : credentials.
Variable http_post : nat → pystr → Z → post_outcome.

Lemma call_llm_api_offline (prompt : pystr) (max_tokens : Z)
        (w : world) :
  openai_api_key creds = [] →
  call_llm_api creds http_post prompt max_tokens w
  = (inr (VStr (generate_sample_response prompt)), w).
Proof.
  intros Hkey. unfold call_llm_api, available_llms. rewrite Hkey. simpl.
  by destruct (nonempty (llama_api_key creds)), (nonempty (claude_api_key creds)).
Qed.

(** X17. Without an OpenAI key [call_llm_api] sends no request and
    returns the sample text chosen from the prompt, whether or not a
    Llama or Claude key is set: those two backends are not implemented. *)
Theorem call_llm_api_without_openai_key (prompt : pystr) (max_tokens : Z)
        (w : world) :
  openai_api_key creds = [] →
  call_llm_api creds http_post prompt max_tokens w
  = (inr (VStr (generate_sample_response prompt)), w).
Proof. exact (call_llm_api_offline prompt max_tokens w). Qed.

Lemma sample_selection
        (topic title authors abstract keywords niche_topic : pystr) :
  generate_sample_response
    (paper_introduction_prompt topic title authors abstract keywords)
  = sample_introduction
  ∧ generate_sample_response (niche_introduction_prompt topic niche_topic)
    = sample_introduction
  ∧ generate_sample_response (paper_conclusion_prompt topic title keywords)
    ∈ [sample_introduction; sample_methods; sample_results]
  ∧ sample_conclusion ∉ [sample_introduction; sample_methods; sample_results].
Proof.
  split_and!.
  - unfold generate_sample_response.
    assert (Hin : contains (u "서론")
                    (paper_introduction_prompt topic title authors abstract keywords)
                  = true).
    { unfold paper_introduction_prompt, unlines.
      eapply contains_join;
        [apply list_elem_of_further, list_elem_of_here|vm_compute; reflexivity]. }
    by rewrite Hin, orb_true_r.
  - unfold generate_sample_response.
    assert (Hin : contains (u "서론") (niche_introduction_prompt topic niche_topic)
                  = true).
    { unfold niche_introduction_prompt, unlines.
      eapply contains_join;
        [apply list_elem_of_further, list_elem_of_here|vm_compute; reflexivity]. }
    by rewrite Hin, orb_true_r.
  - unfold generate_sample_response.
    assert (Hin : contains (u "연구 결과")
                    (paper_conclusion_prompt topic title keywords) = true).
    { unfold paper_conclusion_prompt, unlines.
      eapply contains_join;
        [do 8 apply list_elem_of_further; apply list_elem_of_here
        |vm_compute; reflexivity]. }
    rewrite Hin, orb_true_r.
    destruct (_ || _); [apply list_elem_of_here|].
    destruct (_ || _).
    + apply list_elem_of_further, list_elem_of_here.
    + do 2 apply list_elem_of_further. apply list_elem_of_here.
  - rewrite !elem_of_cons, elem_of_nil.
    intros [H|[H|[H|[]]]]; vm_compute in H; discriminate.
Qed.

(** X18. Which sample the prompts of the agent select: the introduction
    prompts always get the introduction sample; the conclusion prompt
    never gets the conclusion sample, because its own text holds the
    words the results branch tests for before the conclusion branch is
    reached. *)
Theorem sample_for_agent_prompts
        (topic title authors abstract keywords niche_topic : pystr) :
  generate_sample_response
    (paper_introduction_prompt topic title authors abstract keywords)
  = sample_introduction
  ∧ generate_sample_response (niche_introduction_prompt topic niche_topic)
    = sample_introduction
  ∧ generate_sample_response (paper_conclusion_prompt topic title keywords)
    ∈ [sample_introduction; sample_methods; sample_results]
  ∧ sample_conclusion ∉ [sample_introduction; sample_methods; sample_results].
Proof. exact (sample_selection topic title authors abstract keywords niche_topic). Qed.

(** None of the sample texts has a line that starts like a list item. *)
Lemma sample_without_bullets (prompt : pystr) :
  omap niche_line (split_on 10 (generate_sample_response prompt)) = [].
Proof.
  unfold generate_sample_response.
  repeat match goal with
         | |- context [if ?c then _ else _] => destruct c
         end; vm_compute; reflexivity.
Qed.

(** X19. Without an OpenAI key, a paper content that gets assembled was
    assembled without a single request, its introduction is the sample
    introduction and its niche topics are exactly the five default topics
    built from the topic: no sample text holds a line the parser takes
    for a list item. *)
Theorem offline_paper_generation (cache_file topic : pystr) (paper_info : dict)
        (w w' : world) (content : value) :
  openai_api_key creds = [] →
  assemble_paper creds http_post cache_file topic paper_info w = (inr content, w') →
  posts w' = posts w
  ∧ ∃ d : dict,
      content = VDict d
      ∧ d !! k_introduction = Some (VStr (strip sample_introduction))
      ∧ d !! k_niche_topics = Some (VList (VStr <$> default_niche_topics topic)).
Proof.
  intros Hkey Hrun. unfold assemble_paper in Hrun.
  apply mbind_inr in Hrun as (keywords & w1 & [_ ->]%lift_inr & Hrun).
  apply mbind_inr in Hrun as (intro & w2 & Hintro & Hrun).
  rewrite (call_llm_api_offline _ _ _ Hkey) in Hintro. injection Hintro as <- <-.
  apply mbind_inr in Hrun as (meth & w3 & Hmeth & Hrun).
  rewrite (call_llm_api_offline _ _ _ Hkey) in Hmeth. injection Hmeth as <- <-.
  apply mbind_inr in Hrun as (res & w4 & Hres & Hrun).
  rewrite (call_llm_api_offline _ _ _ Hkey) in Hres. injection Hres as <- <-.
  apply mbind_inr in Hrun as (concl & w5 & Hconcl & Hrun).
  rewrite (call_llm_api_offline _ _ _ Hkey) in Hconcl. injection Hconcl as <- <-.
  apply mbind_inr in Hrun as (fk & w6 & [_ ->]%lift_inr & Hrun).
  apply mbind_inr in Hrun as (text & w7 & Htext & Hrun).
  rewrite (call_llm_api_offline _ _ _ Hkey) in Htext. injection Htext as <- <-.
  apply mbind_inr in Hrun as (lines & w8 & [Hlines ->]%lift_inr & Hrun).
  injection Hlines as <-.
  apply mbind_inr in Hrun as (intro' & w9 & [Hintro' ->]%lift_inr & Hrun).
  injection Hintro' as <-.
  apply mbind_inr in Hrun as (meth' & w10 & [_ ->]%lift_inr & Hrun).
  apply mbind_inr in Hrun as (res' & w11 & [_ ->]%lift_inr & Hrun).
  apply mbind_inr in Hrun as (concl' & w12 & [_ ->]%lift_inr & Hrun).
  unfold mbind, write_json, mret in Hrun. injection Hrun as <- <-.
  split; [reflexivity|]. eexists. split_and!; [reflexivity| |].
  - keys. by rewrite (proj1 (sample_selection topic _ _ _ keywords [])).
  - keys. by rewrite sample_without_bullets, pad_niche_topics_closed.
Qed.

(** X20. [generate_niche_content] with a cache file that parses returns
    what the file holds, whatever it is, and changes nothing; without an
    OpenAI key a content that gets assembled was assembled without a
    request and its introduction is the sample introduction. *)
Theorem niche_generation_cases (cache_file topic niche_topic : pystr) (w : world) :
  (∀ v, files w !! niche_cache_file topic niche_topic = Some (Json v) →
     generate_niche_content creds http_post topic niche_topic w = (v, w))
  ∧ (openai_api_key creds = [] →
     ∀ content w',
       assemble_niche creds http_post cache_file topic niche_topic w
       = (inr content, w') →
       posts w' = posts w
       ∧ ∃ d : dict,
           content = VDict d
           ∧ d !! k_introduction = Some (VStr (strip sample_introduction))).
Proof.
  split.
  - intros v Hfile. unfold generate_niche_content, or_else, niche_body.
    by erewrite mbind_step by (by apply read_cache_hit).
  - intros Hkey content w' Hrun. unfold assemble_niche in Hrun.
    apply mbind_inr in Hrun as (intro & w2 & Hintro & Hrun).
    rewrite (call_llm_api_offline _ _ _ Hkey) in Hintro. injection Hintro as <- <-.
    apply mbind_inr in Hrun as (meth & w3 & Hmeth & Hrun).
    rewrite (call_llm_api_offline _ _ _ Hkey) in Hmeth. injection Hmeth as <- <-.
    apply mbind_inr in Hrun as (res & w4 & Hres & Hrun).
    rewrite (call_llm_api_offline _ _ _ Hkey) in Hres. injection Hres as <- <-.
    apply mbind_inr in Hrun as (intro' & w9 & [Hintro' ->]%lift_inr & Hrun).
    injection Hintro' as <-.
    apply mbind_inr in Hrun as (meth' & w10 & [_ ->]%lift_inr & Hrun).
    apply mbind_inr in Hrun as (res' & w11 & [_ ->]%lift_inr & Hrun).
    unfold mbind, write_json, mret in Hrun. injection Hrun as <- <-.
    split; [reflexivity|]. eexists. split; [reflexivity|].
    keys.
    by rewrite (proj1 (proj2 (sample_selection topic [] [] [] [] niche_topic))).
Qed.

End AgentMore.

(** X17 with a Claude key only. *)
Lemma call_llm_api_without_openai_key_witness :
  call_llm_api
    {| openai_api_key := []; llama_api_key := []; claude_api_key := u "key" |}
    Demo.two_bullets (u "서론") 800 Demo.empty_world
  = (inr (VStr (generate_sample_response (u "서론"))), Demo.empty_world).
Proof.
  apply (call_llm_api_without_openai_key
           {| openai_api_key := []; llama_api_key := [];
              claude_api_key := u "key" |}
           Demo.two_bullets (u "서론") 800 Demo.empty_world).
  reflexivity.
Defined.

(** X20 on a cached value that is not even a dict. *)
Lemma niche_generation_cases_witness :
  generate_niche_content Demo.no_credentials Demo.no_answer Demo.topic
    (u "측정 방법")
    {| files := <[niche_cache_file Demo.topic (u "측정 방법") := Json (VInt 7)]> ∅;
       posts := 0 |}
  = (VInt 7,
     {| files := <[niche_cache_file Demo.topic (u "측정 방법") := Json (VInt 7)]> ∅;
        posts := 0 |}).
Proof.
  apply (proj1 (niche_generation_cases Demo.no_credentials Demo.no_answer []
                  Demo.topic (u "측정 방법")
                  {| files := <[niche_cache_file Demo.topic (u "측정 방법")
                                  := Json (VInt 7)]> ∅;
                     posts := 0 |})).
  apply lookup_insert_eq.
Defined.

(** X19 on the first sample record, without credentials. *)
Lemma offline_paper_generation_witness :
  posts Demo.offline_call.2 = 0%nat
  ∧ ∃ d : dict,
      Demo.offline_call.1 = VDict d
      ∧ d !! k_introduction = Some (VStr (strip sample_introduction))
      ∧ d !! k_niche_topics
        = Some (VList (VStr <$> default_niche_topics Demo.topic)).
Proof.
  apply (offline_paper_generation Demo.no_credentials Demo.no_answer
           Demo.paper_path Demo.topic Demo.internal_paper Demo.empty_world
           Demo.offline_call.2 Demo.offline_call.1).
  - reflexivity.
  - vm_compute. reflexivity.
Defined.

End AgentMore.
